(** * Authorization and course services of the learning platform backend

    A shallow embedding of the RBAC decision functions
    ([src/security/rbac/rbac.py]) and of the course, chapter and contributor
    services that call them ([src/services/courses/*.py]), followed by the
    properties established about them.

    The relational store is a record of tables, each table a list of rows in
    the order a plain [select] yields them.  Service functions run in a
    state-and-exception monad over that store: a [select] reads it, an
    [add]/[delete] followed by [commit] rewrites it, [raise] aborts with the
    store as it stands. *)

From stdpp Require Import base decidable option numbers list gmap strings sorting pretty.
From Stdlib Require Import ZArith Lia.

Open Scope string_scope.
Open Scope Z_scope.
Open Scope list_scope.

(** ** Python values, exceptions and the session monad *)

(** Attribute values of dynamically accessed objects ([vars], [setattr]). *)
Inductive PyVal :=
| PNone
| PStr (s : string)
| PInt (z : Z)
| PBool (b : bool).

#[global] Instance PyVal_eq_dec : EqDecision PyVal.
Proof. solve_decision. Defined.

(** [value is not None] *)
Definition is_not_None (v : PyVal) : bool :=
  match v with PNone => false | _ => true end.

(** fastapi.status *)
Definition HTTP_403_FORBIDDEN : Z := 403.
Definition HTTP_409_CONFLICT : Z := 409.

Inductive Exn :=
| HTTPException (status_code : Z) (detail : string)
| NoResultFound
| MultipleResultsFound.

#[global] Instance Exn_eq_dec : EqDecision Exn.
Proof. solve_decision. Defined.

Inductive outcome (A : Type) :=
| Returned (a : A)
| Raised (e : Exn).
Arguments Returned {A} a.
Arguments Raised {A} e.

(** [Literal["read", "update", "delete", "create"]] *)
Inductive Action := read | update | delete | create.

#[global] Instance Action_eq_dec : EqDecision Action.
Proof. solve_decision. Defined.

(** ** Rows of the data model *)

Inductive ResourceAuthorshipEnum := CREATOR | CONTRIBUTOR | MAINTAINER | REPORTER.
Inductive ResourceAuthorshipStatusEnum := ACTIVE | PENDING | INACTIVE.

#[global] Instance ResourceAuthorshipEnum_eq_dec : EqDecision ResourceAuthorshipEnum.
Proof. solve_decision. Defined.
#[global] Instance ResourceAuthorshipStatusEnum_eq_dec :
  EqDecision ResourceAuthorshipStatusEnum.
Proof. solve_decision. Defined.

Module ResourceAuthor.
Record t := mk {
  id : Z;
  resource_uuid : string;
  user_id : Z;
  authorship : ResourceAuthorshipEnum;
  authorship_status : ResourceAuthorshipStatusEnum;
  creation_date : string;
  update_date : string;
}.
End ResourceAuthor.

Module Course.
Record t := mk {
  id : Z;
  org_id : Z;
  name : string;
  description : option string;
  about : option string;
  learnings : option string;
  tags : option string;
  thumbnail_image : option string;
  public : bool;
  open_to_contributors : bool;
  course_uuid : string;
  creation_date : string;
  update_date : string;
}.
End Course.

(** [CourseUpdate]: [name] is required, every other field may be [None]. *)
Module CourseUpdate.
Record t := mk {
  name : string;
  description : option string;
  about : option string;
  learnings : option string;
  tags : option string;
  thumbnail_image : option string;
  public : option bool;
  open_to_contributors : option bool;
}.
End CourseUpdate.

(** Modelled from the spec: [src/db/collections.py] is not among the sources;
    the public check reads a collection's identifier and its public flag. *)
Module Collection.
Record t := mk {
  id : Z;
  collection_uuid : string;
  public : bool;
}.
End Collection.

(** Modelled from the spec: [src/db/roles.py] is not among the sources.  The
    permission matrix gives, for a resource type and an action, a boolean. *)
Module Permission.
Record t := mk {
  action_create : bool;
  action_read : bool;
  action_update : bool;
  action_delete : bool;
}.
(** [getattr(element_rights, f"action_{action}", False)] *)
Definition getattr_action (p : t) (a : Action) : bool :=
  match a with
  | create => action_create p
  | read => action_read p
  | update => action_update p
  | delete => action_delete p
  end.
End Permission.

(** Modelled from the spec: a role has an identifier, an optional
    organization scope ([None] for a global role) and a permission matrix,
    itself optional in the row. *)
Module Role.
Record t := mk {
  id : Z;
  org_id : option Z;
  rights : option (gmap string Permission.t);
}.
End Role.

(** Modelled from the spec: [src/db/user_organizations.py] is not among the
    sources; the link row carries the user, the organization and the role
    ([src/services/orgs/orgs.py] builds it from these three and two dates). *)
Module UserOrganization.
Record t := mk {
  id : Z;
  user_id : Z;
  org_id : Z;
  role_id : Z;
  creation_date : string;
  update_date : string;
}.
End UserOrganization.

(** [UserRead], the part of a user row that read models carry. *)
Module User.
Record t := mk {
  id : Z;
  user_uuid : string;
  username : string;
  first_name : string;
  last_name : string;
  email : string;
  avatar_image : option string;
  bio : option string;
}.
End User.

Module CourseChapter.
Record t := mk {
  id : Z;
  course_id : Z;
  chapter_id : Z;
  org_id : Z;
  creation_date : string;
  update_date : string;
  order : Z;
}.
Definition with_order (o : Z) (cc : t) : t :=
  mk (id cc) (course_id cc) (chapter_id cc) (org_id cc)
     (creation_date cc) (update_date cc) o.
End CourseChapter.

Module ChapterActivity.
Record t := mk {
  id : Z;
  chapter_id : Z;
  activity_id : Z;
  org_id : Z;
  course_id : Z;
  creation_date : string;
  update_date : string;
  order : Z;
}.
Definition with_order (o : Z) (ca : t) : t :=
  mk (id ca) (chapter_id ca) (activity_id ca) (org_id ca) (course_id ca)
     (creation_date ca) (update_date ca) o.
End ChapterActivity.

(** The declarations of [Chapter], [ChapterCreate], [ChapterUpdate] and
    [Activity] are not among the sources, so these objects are kept as what
    Python makes of them: a dictionary from attribute names to values. *)
Abbreviation PyObj := (gmap string PyVal).

(** [obj.attr], [None] standing for a missing attribute of a loaded row. *)
Definition getattr (o : PyObj) (k : string) : PyVal := default PNone (o !! k).

(** ** The store *)

Record World := mkWorld {
  course_tbl : list Course.t;
  collection_tbl : list Collection.t;
  resourceauthor_tbl : list ResourceAuthor.t;
  role_tbl : list Role.t;
  userorganization_tbl : list UserOrganization.t;
  user_tbl : list User.t;
  chapter_tbl : list PyObj;
  coursechapter_tbl : list CourseChapter.t;
  activity_tbl : list PyObj;
  chapteractivity_tbl : list ChapterActivity.t;
  (** number of readings of the clock and of the uuid generator so far *)
  ticks : nat;
}.

Definition set_course_tbl (v : list Course.t) (w : World) : World :=
  mkWorld v (collection_tbl w) (resourceauthor_tbl w) (role_tbl w)
    (userorganization_tbl w) (user_tbl w) (chapter_tbl w) (coursechapter_tbl w)
    (activity_tbl w) (chapteractivity_tbl w) (ticks w).
Definition set_resourceauthor_tbl (v : list ResourceAuthor.t) (w : World) : World :=
  mkWorld (course_tbl w) (collection_tbl w) v (role_tbl w)
    (userorganization_tbl w) (user_tbl w) (chapter_tbl w) (coursechapter_tbl w)
    (activity_tbl w) (chapteractivity_tbl w) (ticks w).
Definition set_chapter_tbl (v : list PyObj) (w : World) : World :=
  mkWorld (course_tbl w) (collection_tbl w) (resourceauthor_tbl w) (role_tbl w)
    (userorganization_tbl w) (user_tbl w) v (coursechapter_tbl w)
    (activity_tbl w) (chapteractivity_tbl w) (ticks w).
Definition set_coursechapter_tbl (v : list CourseChapter.t) (w : World) : World :=
  mkWorld (course_tbl w) (collection_tbl w) (resourceauthor_tbl w) (role_tbl w)
    (userorganization_tbl w) (user_tbl w) (chapter_tbl w) v
    (activity_tbl w) (chapteractivity_tbl w) (ticks w).
Definition set_chapteractivity_tbl (v : list ChapterActivity.t) (w : World) : World :=
  mkWorld (course_tbl w) (collection_tbl w) (resourceauthor_tbl w) (role_tbl w)
    (userorganization_tbl w) (user_tbl w) (chapter_tbl w) (coursechapter_tbl w)
    (activity_tbl w) v (ticks w).
Definition set_ticks (v : nat) (w : World) : World :=
  mkWorld (course_tbl w) (collection_tbl w) (resourceauthor_tbl w) (role_tbl w)
    (userorganization_tbl w) (user_tbl w) (chapter_tbl w) (coursechapter_tbl w)
    (activity_tbl w) (chapteractivity_tbl w) v.

(** ** The session monad *)

(** A write is a function of the store: it cannot fail.  The failures of
    the database itself (a constraint, a key beyond the range of the
    driver) are outside the model, and with them what a service that
    commits row by row leaves behind when a later write fails. *)
Definition M (A : Type) : Type := World → outcome A * World.

#[global] Instance M_ret : MRet M := λ A a w, (Returned a, w).
#[global] Instance M_bind : MBind M := λ A B f m w,
  match m w with
  | (Returned a, w') => f a w'
  | (Raised e, w') => (Raised e, w')
  end.

Definition raise {A} (e : Exn) : M A := λ w, (Raised e, w).
Definition gets {A} (f : World → A) : M A := λ w, (Returned (f w), w).
Definition modify (f : World → World) : M unit := λ w, (Returned tt, f w).
Definition lift_outcome {A} (o : outcome A) : M A := λ w, (o, w).

(** [db_session.exec(select(T).where(p)).all()] and [.first()] *)
Definition exec_all {A} (tbl : World → list A) (p : A → bool) : M (list A) :=
  gets (λ w, List.filter p (tbl w)).
Definition exec_first {A} (tbl : World → list A) (p : A → bool) : M (option A) :=
  gets (λ w, head (List.filter p (tbl w))).
(** [.one()] *)
Definition exec_one {A} (tbl : World → list A) (p : A → bool) : M A :=
  rows ← exec_all tbl p;
  match rows with
  | [] => raise NoResultFound
  | [row] => mret row
  | _ => raise MultipleResultsFound
  end.

(** The helpers the services import but whose text is not among the
    sources: the classifier of identifiers into resource types
    ([src/security/rbac/utils.py]), which may raise, and the two sources of
    fresh strings, [str(datetime.now())] and [uuid4()], read off the
    [ticks] counter. *)
Class Environment := {
  check_element_type : string → outcome string;
  datetime_now_str : nat → string;
  uuid4_str : nat → string;
}.

(** [select(A).join(B)] with the join condition [on] and the [where]
    clause [cond]: one result row for each matching pair. *)
Definition select_join {A B} (ta : list A) (tb : list B)
    (on cond : A → B → bool) : list (A * B) :=
  a ← ta; b ← tb; if on a b && cond a b then [(a, b)] else [].

(** ** [src/security/rbac/rbac.py] *)

Module rbac.
Section rbac.
Context {env : Environment}.

Definition authorization_verify_if_element_is_public
    (element_uuid : string) (action : Action) : M bool :=
  element_nature ← lift_outcome (check_element_type element_uuid);
  let collections_or_deny : M bool :=
    if bool_decide (element_nature = "collections") && bool_decide (action = read)
    then
      collection ← exec_first collection_tbl (λ c,
        Collection.public c
        && bool_decide (Collection.collection_uuid c = element_uuid));
      match collection with
      | Some _ => mret true
      | None =>
          raise (HTTPException HTTP_403_FORBIDDEN
            "User rights : You don't have the right to perform this action")
      end
    else
      raise (HTTPException HTTP_403_FORBIDDEN
        "User rights : You don't have the right to perform this action") in
  if bool_decide (element_nature = "courses") && bool_decide (action = read)
  then
    if bool_decide (element_nature = "courses") then
      course ← exec_first course_tbl (λ c,
        Course.public c && bool_decide (Course.course_uuid c = element_uuid));
      match course with
      | Some _ => mret true
      | None =>
          raise (HTTPException HTTP_403_FORBIDDEN
            "User rights : You don't have the right to perform this action")
      end
    else collections_or_deny
  else collections_or_deny.

Definition authorization_verify_if_user_is_author
    (user_id : Z) (action : Action) (element_uuid : string) : M bool :=
  if bool_decide (action = create) then mret true
  else if bool_decide (action ∈ [update; delete; read]) then
    resource_author ← exec_first resourceauthor_tbl (λ ra,
      bool_decide (ResourceAuthor.resource_uuid ra = element_uuid));
    match resource_author with
    | Some resource_author =>
        if bool_decide (ResourceAuthor.user_id resource_author = user_id) then
          if (bool_decide (ResourceAuthor.authorship resource_author = CREATOR)
              || bool_decide (ResourceAuthor.authorship resource_author = MAINTAINER)
              || bool_decide (ResourceAuthor.authorship resource_author = CONTRIBUTOR))
             && bool_decide
                  (ResourceAuthor.authorship_status resource_author = ACTIVE)
          then mret true
          else mret false
        else mret false
    | None => mret false
    end
  else mret false.

(** The roles of a user.  [select(Role).join(UserOrganization)] joins on
    the foreign key between the two tables, the role of the link; a pair
    is kept when the role is bound to the organization of the link or is
    a standard role ([org_id] null), and the link is the user's.  The
    organization of the element does not appear. *)
Definition user_roles_in_organization_and_standard_roles
    (user_id : Z) : M (list Role.t) :=
  gets (λ w,
    fst <$> select_join (role_tbl w) (userorganization_tbl w)
      (λ role uo, bool_decide (UserOrganization.role_id uo = Role.id role))
      (λ role uo,
         (bool_decide (Some (UserOrganization.org_id uo) = Role.org_id role)
          || bool_decide (Role.org_id role = None))
         && bool_decide (UserOrganization.user_id uo = user_id))).

(** The body of the loop over the roles: does this role grant the action
    on this type of element? *)
Definition role_grants (element_type : string) (action : Action)
    (role : Role.t) : bool :=
  match Role.rights role with
  | Some rights =>
      match rights !! element_type with
      | Some element_rights => Permission.getattr_action element_rights action
      | None => false
      end
  | None => false
  end.

Definition authorization_verify_based_on_roles
    (user_id : Z) (action : Action) (element_uuid : string) : M bool :=
  element_type ← lift_outcome (check_element_type element_uuid);
  roles ← user_roles_in_organization_and_standard_roles user_id;
  mret (existsb (role_grants element_type action) roles).

Definition authorization_verify_based_on_roles_and_authorship
    (user_id : Z) (action : Action) (element_uuid : string) : M bool :=
  isAuthor ← authorization_verify_if_user_is_author user_id action element_uuid;
  isRole ← authorization_verify_based_on_roles user_id action element_uuid;
  if isAuthor || isRole then mret true
  else
    raise (HTTPException HTTP_403_FORBIDDEN
      "User rights (roles & authorship) : You don't have the right to perform this action").

Definition authorization_verify_if_user_is_anon (user_id : Z) : M unit :=
  if bool_decide (user_id = 0) then
    raise (HTTPException HTTP_403_FORBIDDEN
      "You should be logged in to perform this action")
  else mret tt.

End rbac.
End rbac.

(** ** Shared pieces of the service layer *)

(** [PublicUser | AnonymousUser]; the anonymous sentinel has [id = 0]. *)
Inductive CurrentUser :=
| PublicUser (u : User.t)
| AnonymousUser.

Definition current_user_id (u : CurrentUser) : Z :=
  match u with
  | PublicUser u => User.id u
  | AnonymousUser => 0
  end.

Record AuthorWithRole := mkAuthorWithRole {
  awr_user : User.t;
  awr_authorship : ResourceAuthorshipEnum;
  awr_authorship_status : ResourceAuthorshipStatusEnum;
  awr_creation_date : string;
  awr_update_date : string;
}.

Record CourseRead := mkCourseRead {
  cr_course : Course.t;
  cr_authors : list AuthorWithRole;
}.

(** The integer and the string behind an attribute; rows loaded from the
    store carry them, so the defaults are never read. *)
Definition as_int (v : PyVal) : Z := match v with PInt z => z | _ => 0 end.
Definition as_str (v : PyVal) : string := match v with PStr s => s | _ => "" end.

Definition opt_str (o : option string) : PyVal :=
  match o with Some s => PStr s | None => PNone end.
Definition opt_bool (o : option bool) : PyVal :=
  match o with Some b => PBool b | None => PNone end.

(** The next value of an auto-incremented primary key. *)
Definition next_id (ids : list Z) : Z := 1 + foldr Z.max 0 ids.

(** [for x in xs: body(x)] *)
Fixpoint for_each {A} (xs : list A) (body : A → M unit) : M unit :=
  match xs with
  | [] => mret tt
  | x :: xs => body x;; for_each xs body
  end.

(** [enumerate(xs)] *)
Definition enumerate {A} (xs : list A) : list (Z * A) :=
  imap (λ i x, (Z.of_nat i, x)) xs.

(** Rows compared by a key. *)
Definition key_le {A} (key : A → Z) (x y : A) : Prop := key x ≤ key y.

#[global] Instance key_le_dec {A} (key : A → Z) x y : Decision (key_le key x y).
Proof. unfold key_le. apply _. Defined.

(** [.order_by(key)], ascending *)
Definition order_by {A} (key : A → Z) (rows : list A) : list A :=
  merge_sort (key_le key) rows.

(** [.distinct(key)]: one row for each value of the key *)
Fixpoint distinct_from {A} (key : A → Z) (seen : list Z) (rows : list A) : list A :=
  match rows with
  | [] => []
  | r :: rows =>
      if bool_decide (key r ∈ seen) then distinct_from key seen rows
      else r :: distinct_from key (key r :: seen) rows
  end.
Definition distinct_on {A} (key : A → Z) (rows : list A) : list A :=
  distinct_from key [] rows.

Section clock.
Context {env : Environment}.

(** [str(datetime.now())] *)
Definition datetime_now : M string :=
  λ w, (Returned (datetime_now_str (ticks w)), set_ticks (S (ticks w)) w).

(** [uuid4()] *)
Definition uuid4 : M string :=
  λ w, (Returned (uuid4_str (ticks w)), set_ticks (S (ticks w)) w).
End clock.

(** The authors of a resource with their user rows, by authorship id.
    The read model of a user is the row as loaded: the validation that
    [UserRead.model_validate] makes of a loaded row, which raises on a
    stored row that does not validate (an e-mail address that is no
    [EmailStr]), is outside the model.  It comes after the commit of the
    calling service, so it has no part in what a service stores. *)
Definition course_authors (course_uuid : string) : M (list AuthorWithRole) :=
  gets (λ w,
    (λ '(resource_author, user),
       mkAuthorWithRole user
         (ResourceAuthor.authorship resource_author)
         (ResourceAuthor.authorship_status resource_author)
         (ResourceAuthor.creation_date resource_author)
         (ResourceAuthor.update_date resource_author))
    <$> order_by (λ row, ResourceAuthor.id row.1)
          (select_join (resourceauthor_tbl w) (user_tbl w)
             (λ ra user, bool_decide (ResourceAuthor.user_id ra = User.id user))
             (λ ra _, bool_decide (ResourceAuthor.resource_uuid ra = course_uuid)))).

(** ** [src/services/courses/courses.py] *)

Module courses.

(** [vars(course_object).items()] *)
Definition vars (u : CourseUpdate.t) : list (string * PyVal) :=
  [ ("name", PStr (CourseUpdate.name u));
    ("description", opt_str (CourseUpdate.description u));
    ("about", opt_str (CourseUpdate.about u));
    ("learnings", opt_str (CourseUpdate.learnings u));
    ("tags", opt_str (CourseUpdate.tags u));
    ("thumbnail_image", opt_str (CourseUpdate.thumbnail_image u));
    ("public", opt_bool (CourseUpdate.public u));
    ("open_to_contributors", opt_bool (CourseUpdate.open_to_contributors u)) ].

Definition str_or_none (v : PyVal) : option string :=
  match v with PStr s => Some s | _ => None end.

(** [setattr(course, var, value)] for the attributes of a course row. *)
Definition setattr (c : Course.t) (var : string) (value : PyVal) : Course.t :=
  let '(Course.mk id org_id name description about learnings tags
          thumbnail_image public open_to_contributors course_uuid
          creation_date update_date) := c in
  if String.eqb var "name" then
    Course.mk id org_id (as_str value) description about learnings tags
      thumbnail_image public open_to_contributors course_uuid creation_date
      update_date
  else if String.eqb var "description" then
    Course.mk id org_id name (str_or_none value) about learnings tags
      thumbnail_image public open_to_contributors course_uuid creation_date
      update_date
  else if String.eqb var "about" then
    Course.mk id org_id name description (str_or_none value) learnings tags
      thumbnail_image public open_to_contributors course_uuid creation_date
      update_date
  else if String.eqb var "learnings" then
    Course.mk id org_id name description about (str_or_none value) tags
      thumbnail_image public open_to_contributors course_uuid creation_date
      update_date
  else if String.eqb var "tags" then
    Course.mk id org_id name description about learnings (str_or_none value)
      thumbnail_image public open_to_contributors course_uuid creation_date
      update_date
  else if String.eqb var "thumbnail_image" then
    Course.mk id org_id name description about learnings tags
      (str_or_none value) public open_to_contributors course_uuid
      creation_date update_date
  else if String.eqb var "public" then
    Course.mk id org_id name description about learnings tags
      thumbnail_image (bool_decide (value = PBool true)) open_to_contributors
      course_uuid creation_date update_date
  else if String.eqb var "open_to_contributors" then
    Course.mk id org_id name description about learnings tags
      thumbnail_image public (bool_decide (value = PBool true)) course_uuid
      creation_date update_date
  else if String.eqb var "update_date" then
    Course.mk id org_id name description about learnings tags
      thumbnail_image public open_to_contributors course_uuid creation_date
      (as_str value)
  else c.

(** [db_session.add(course); db_session.commit()] for a loaded row: the
    row with its primary key is rewritten. *)
Definition commit_course (course : Course.t) : M unit :=
  modify (λ w, set_course_tbl
    ((λ row, if bool_decide (Course.id row = Course.id course)
             then course else row) <$> course_tbl w) w).

Section courses.
Context {env : Environment}.

Definition rbac_check (course_uuid : string) (current_user : CurrentUser)
    (action : Action) : M (option bool) :=
  if bool_decide (action = read) then
    if bool_decide (current_user_id current_user = 0) then
      res ← rbac.authorization_verify_if_element_is_public course_uuid action;
      mret (Some res)
    else
      res ← rbac.authorization_verify_based_on_roles_and_authorship
              (current_user_id current_user) action course_uuid;
      mret (Some res)
  else
    rbac.authorization_verify_if_user_is_anon (current_user_id current_user);;
    rbac.authorization_verify_based_on_roles_and_authorship
      (current_user_id current_user) action course_uuid;;
    mret None.

Definition update_course (course_object : CourseUpdate.t)
    (course_uuid : string) (current_user : CurrentUser) : M CourseRead :=
  course ← exec_first course_tbl
             (λ c, bool_decide (Course.course_uuid c = course_uuid));
  match course with
  | None => raise (HTTPException 404 "Course not found")
  | Some course =>
      rbac_check (Course.course_uuid course) current_user update;;
      let course :=
        foldl (λ course '(var, value),
                 if is_not_None value then setattr course var value
                 else course)
              course (vars course_object) in
      now ← datetime_now;
      let course := setattr course "update_date" (PStr now) in
      commit_course course;;
      authors ← course_authors (Course.course_uuid course);
      mret (mkCourseRead course authors)
  end.

End courses.
End courses.

(** ** [src/services/courses/chapters.py] *)

(** The reorder request: [ChapterUpdateOrder.chapter_order_by_ids], each
    entry naming a chapter and the ordered activities under it. *)
Record ActivityOrder := mkActivityOrder { ao_activity_id : Z }.
Record ChapterOrder := mkChapterOrder {
  co_chapter_id : Z;
  co_activities_order_by_ids : list ActivityOrder;
}.
Record ChapterUpdateOrder := mkChapterUpdateOrder {
  chapter_order_by_ids : list ChapterOrder;
}.

Record ChapterRead := mkChapterRead {
  chr_chapter : PyObj;
  chr_activities : list PyObj;
}.

Module chapters.

(** [db_session.commit()] after attribute writes on a loaded chapter: the
    row that was loaded under primary key [pk] is rewritten. *)
Definition commit_chapter (pk : PyVal) (chapter : PyObj) : M unit :=
  modify (λ w, set_chapter_tbl
    ((λ row, if bool_decide (getattr row "id" = pk) then chapter else row)
       <$> chapter_tbl w) w).

(** [db_session.add(chapter); db_session.commit(); db_session.refresh(chapter)]
    for a new chapter: the row gets the next primary key. *)
Definition insert_chapter (chapter : PyObj) : M PyObj :=
  λ w,
    let pk := next_id ((λ row, as_int (getattr row "id")) <$> chapter_tbl w) in
    let chapter := <["id" := PInt pk]> chapter in
    (Returned chapter, set_chapter_tbl (chapter_tbl w ++ [chapter]) w).

Definition insert_course_chapter
    (course_id chapter_id org_id : Z) (creation_date update_date : string)
    (order : Z) : M unit :=
  modify (λ w,
    let pk := next_id (CourseChapter.id <$> coursechapter_tbl w) in
    set_coursechapter_tbl
      (coursechapter_tbl w
         ++ [CourseChapter.mk pk course_id chapter_id org_id creation_date
               update_date order]) w).

Definition insert_chapter_activity
    (chapter_id activity_id org_id course_id : Z)
    (creation_date update_date : string) (order : Z) : M unit :=
  modify (λ w,
    let pk := next_id (ChapterActivity.id <$> chapteractivity_tbl w) in
    set_chapteractivity_tbl
      (chapteractivity_tbl w
         ++ [ChapterActivity.mk pk chapter_id activity_id org_id course_id
               creation_date update_date order]) w).

(** [link.order = index; db_session.add(link)]: the loaded object is the
    row of its primary key, whichever container it was reached through. *)
Definition set_course_chapter_order (pk index : Z) : M unit :=
  modify (λ w, set_coursechapter_tbl
    ((λ row, if bool_decide (CourseChapter.id row = pk)
             then CourseChapter.with_order index row else row)
       <$> coursechapter_tbl w) w).
Definition set_chapter_activity_order (pk index : Z) : M unit :=
  modify (λ w, set_chapteractivity_tbl
    ((λ row, if bool_decide (ChapterActivity.id row = pk)
             then ChapterActivity.with_order index row else row)
       <$> chapteractivity_tbl w) w).

(** [db_session.delete(link)] *)
Definition delete_course_chapter (pk : Z) : M unit :=
  modify (λ w, set_coursechapter_tbl
    (List.filter (λ row, negb (bool_decide (CourseChapter.id row = pk)))
       (coursechapter_tbl w)) w).
Definition delete_chapter_activity (pk : Z) : M unit :=
  modify (λ w, set_chapteractivity_tbl
    (List.filter (λ row, negb (bool_decide (ChapterActivity.id row = pk)))
       (chapteractivity_tbl w)) w).

Section chapters.
Context {env : Environment}.

Definition rbac_check (course_uuid : string) (current_user : CurrentUser)
    (action : Action) : M (option bool) :=
  if bool_decide (action = read) then
    if bool_decide (current_user_id current_user = 0) then
      res ← rbac.authorization_verify_if_element_is_public course_uuid action;
      mret (Some res)
    else
      res ← rbac.authorization_verify_based_on_roles_and_authorship
              (current_user_id current_user) action course_uuid;
      mret (Some res)
  else
    rbac.authorization_verify_if_user_is_anon (current_user_id current_user);;
    rbac.authorization_verify_based_on_roles_and_authorship
      (current_user_id current_user) action course_uuid;;
    mret None.

Definition create_chapter (chapter_object : PyObj)
    (current_user : CurrentUser) : M ChapterRead :=
  let chapter := chapter_object in
  course ← exec_one course_tbl
             (λ c, bool_decide (PInt (Course.id c) = getattr chapter_object "course_id"));
  rbac_check "chapter_x" current_user create;;
  let chapter := <["course_id" := getattr chapter_object "course_id"]> chapter in
  uuid ← uuid4;
  let chapter := <["chapter_uuid" := PStr ("chapter_" +:+ uuid)]> chapter in
  now ← datetime_now;
  let chapter := <["creation_date" := PStr now]> chapter in
  now ← datetime_now;
  let chapter := <["update_date" := PStr now]> chapter in
  let chapter := <["org_id" := PInt (Course.org_id course)]> chapter in
  course_chapters ← gets (λ w,
    order_by CourseChapter.order
      (List.filter
         (λ cc, bool_decide (PInt (CourseChapter.course_id cc) = getattr chapter "course_id"))
         (coursechapter_tbl w)));
  let last_order :=
    match last course_chapters with
    | Some cc => CourseChapter.order cc
    | None => 0
    end in
  let to_be_used_order := last_order + 1 in
  chapter ← insert_chapter chapter;
  course_chapter ← exec_first coursechapter_tbl (λ cc,
    bool_decide (PInt (CourseChapter.chapter_id cc) = getattr chapter "id")
    && bool_decide (PInt (CourseChapter.course_id cc) = getattr chapter "course_id")
    && bool_decide (CourseChapter.order cc = to_be_used_order));
  match course_chapter with
  | None =>
      creation_date ← datetime_now;
      update_date ← datetime_now;
      insert_course_chapter
        (as_int (getattr chapter "course_id")) (as_int (getattr chapter "id"))
        (as_int (getattr chapter "org_id")) creation_date update_date
        to_be_used_order
  | Some _ => mret tt
  end;;
  mret (mkChapterRead chapter []).

(** The query of the activities has no [order_by]: the model lists them
    in the order of the activity table, and nothing is stated of their
    order. *)
Definition get_chapter (chapter_id : Z) (current_user : CurrentUser)
    : M ChapterRead :=
  chapter ← exec_first chapter_tbl
              (λ c, bool_decide (getattr c "id" = PInt chapter_id));
  match chapter with
  | None => raise (HTTPException HTTP_409_CONFLICT "Chapter does not exist")
  | Some chapter =>
      course ← exec_first course_tbl
                 (λ c, bool_decide (PInt (Course.id c) = getattr chapter "course_id"));
      match course with
      | None => raise (HTTPException HTTP_409_CONFLICT "Course does not exist")
      | Some course =>
          rbac_check (Course.course_uuid course) current_user read;;
          activities ← gets (λ w,
            distinct_on (λ a, as_int (getattr a "id"))
              (fst <$> select_join (activity_tbl w) (chapteractivity_tbl w)
                 (λ a ca, bool_decide (getattr a "id" = PInt (ChapterActivity.activity_id ca)))
                 (λ _ ca, bool_decide (ChapterActivity.chapter_id ca = chapter_id))));
          mret (mkChapterRead chapter activities)
      end
  end.

Definition update_chapter (chapter_object : PyObj) (chapter_id : Z)
    (current_user : CurrentUser) : M ChapterRead :=
  chapter ← exec_first chapter_tbl
              (λ c, bool_decide (getattr c "id" = PInt chapter_id));
  match chapter with
  | None => raise (HTTPException HTTP_409_CONFLICT "Chapter does not exist")
  | Some chapter =>
      rbac_check (as_str (getattr chapter "chapter_uuid")) current_user update;;
      let pk := getattr chapter "id" in
      let chapter :=
        foldl (λ (chapter : PyObj) '(var, value),
                 if is_not_None value then <[var := value]> chapter
                 else chapter)
              chapter (map_to_list chapter_object) in
      now ← datetime_now;
      let chapter := <["update_date" := PStr now]> chapter in
      commit_chapter pk chapter;;
      get_chapter (as_int (getattr chapter "id")) current_user
  end.

Definition reorder_chapters_and_activities (course_uuid : string)
    (chapters_order : ChapterUpdateOrder) (current_user : CurrentUser)
    : M (list (string * string)) :=
  course ← exec_first course_tbl
             (λ c, bool_decide (Course.course_uuid c = course_uuid));
  match course with
  | None => raise (HTTPException HTTP_409_CONFLICT "Course does not exist")
  | Some course =>
      rbac_check (Course.course_uuid course) current_user update;;
      (* Chapters *)
      existing_course_chapters ← exec_all coursechapter_tbl (λ cc,
        bool_decide (CourseChapter.course_id cc = Course.id course)
        && bool_decide (CourseChapter.org_id cc = Course.org_id course));
      let existing_chapter_map : gmap Z CourseChapter.t :=
        foldl (λ m cc, <[CourseChapter.chapter_id cc := cc]> m) ∅
          existing_course_chapters in
      for_each (enumerate (chapter_order_by_ids chapters_order))
        (λ '(index, chapter_order),
           match existing_chapter_map !! co_chapter_id chapter_order with
           | Some course_chapter =>
               set_course_chapter_order (CourseChapter.id course_chapter) index
           | None =>
               creation_date ← datetime_now;
               update_date ← datetime_now;
               insert_course_chapter (Course.id course)
                 (co_chapter_id chapter_order) (Course.org_id course)
                 creation_date update_date index
           end);;
      let chapter_ids_to_keep : gset Z :=
        list_to_set (co_chapter_id <$> chapter_order_by_ids chapters_order) in
      for_each existing_course_chapters
        (λ cc,
           if bool_decide (CourseChapter.chapter_id cc ∉ chapter_ids_to_keep)
           then delete_course_chapter (CourseChapter.id cc)
           else mret tt);;
      (* Activities *)
      existing_chapter_activities ← exec_all chapteractivity_tbl (λ ca,
        bool_decide (ChapterActivity.course_id ca = Course.id course)
        && bool_decide (ChapterActivity.org_id ca = Course.org_id course));
      let existing_activity_map : gmap (Z * Z) ChapterActivity.t :=
        foldl (λ m ca,
                 <[(ChapterActivity.chapter_id ca, ChapterActivity.activity_id ca)
                   := ca]> m) ∅
          existing_chapter_activities in
      let activities_to_keep : gset (Z * Z) :=
        list_to_set
          (chapter_order ← chapter_order_by_ids chapters_order;
           (λ activity_order,
              (co_chapter_id chapter_order, ao_activity_id activity_order))
           <$> co_activities_order_by_ids chapter_order) in
      for_each (chapter_order_by_ids chapters_order)
        (λ chapter_order,
           for_each (enumerate (co_activities_order_by_ids chapter_order))
             (λ '(index, activity_order),
                let activity_key :=
                  (co_chapter_id chapter_order, ao_activity_id activity_order) in
                match existing_activity_map !! activity_key with
                | Some chapter_activity =>
                    set_chapter_activity_order
                      (ChapterActivity.id chapter_activity) index
                | None =>
                    creation_date ← datetime_now;
                    update_date ← datetime_now;
                    insert_chapter_activity (co_chapter_id chapter_order)
                      (ao_activity_id activity_order) (Course.org_id course)
                      (Course.id course) creation_date update_date index
                end));;
      for_each existing_chapter_activities
        (λ ca,
           if bool_decide
                ((ChapterActivity.chapter_id ca, ChapterActivity.activity_id ca)
                   ∉ activities_to_keep)
           then delete_chapter_activity (ChapterActivity.id ca)
           else mret tt);;
      mret [("detail", "Chapters and activities reordered successfully")]
  end.

End chapters.
End chapters.

(** ** [src/services/courses/contributors.py] *)

Module contributors.

(** [db_session.add(existing_authorship); db_session.commit()] *)
Definition commit_resource_author (ra : ResourceAuthor.t) : M unit :=
  modify (λ w, set_resourceauthor_tbl
    ((λ row, if bool_decide (ResourceAuthor.id row = ResourceAuthor.id ra)
             then ra else row) <$> resourceauthor_tbl w) w).

Section contributors.
Context {env : Environment}.

(** What [update_course_contributor] does once the caller has passed the
    authorization guard. *)
Definition update_course_contributor_authorized (course_uuid : string)
    (contributor_user_id : Z) (authorship : ResourceAuthorshipEnum)
    (authorship_status : ResourceAuthorshipStatusEnum)
    : M (list (string * string)) :=
  course ← exec_first course_tbl
             (λ c, bool_decide (Course.course_uuid c = course_uuid));
  match course with
  | None => raise (HTTPException 404 "Course not found")
  | Some course =>
      existing_authorship ← exec_first resourceauthor_tbl (λ ra,
        bool_decide (ResourceAuthor.resource_uuid ra = course_uuid)
        && bool_decide (ResourceAuthor.user_id ra = contributor_user_id));
      match existing_authorship with
      | None => raise (HTTPException 404 "Contributor not found for this course")
      | Some existing_authorship =>
          if bool_decide (ResourceAuthor.authorship existing_authorship = CREATOR)
          then
            raise (HTTPException 400 "Cannot modify the role of the course creator")
          else
            now ← datetime_now;
            commit_resource_author
              (ResourceAuthor.mk
                 (ResourceAuthor.id existing_authorship)
                 (ResourceAuthor.resource_uuid existing_authorship)
                 (ResourceAuthor.user_id existing_authorship)
                 authorship authorship_status
                 (ResourceAuthor.creation_date existing_authorship)
                 now);;
            mret [("detail", "Contributor updated successfully");
                  ("status", "success")]
      end
  end.

Definition update_course_contributor (course_uuid : string)
    (contributor_user_id : Z) (authorship : ResourceAuthorshipEnum)
    (authorship_status : ResourceAuthorshipStatusEnum)
    (current_user : CurrentUser) : M (list (string * string)) :=
  rbac.authorization_verify_if_user_is_anon (current_user_id current_user);;
  authorized ← rbac.authorization_verify_based_on_roles_and_authorship
                 (current_user_id current_user) update course_uuid;
  if negb authorized then
    raise (HTTPException HTTP_403_FORBIDDEN
      "You are not authorized to update course contributors")
  else
    update_course_contributor_authorized course_uuid contributor_user_id
      authorship authorship_status.

End contributors.
End contributors.

(** ** Vocabulary of the properties *)

(** A computation that only reads the store. *)
Definition readonly {A} (m : M A) : Prop := ∀ w, (m w).2 = w.

(** The kinds of authorship that carry rights. *)
Definition qualifying_kind (k : ResourceAuthorshipEnum) : Prop :=
  k = CREATOR ∨ k = MAINTAINER ∨ k = CONTRIBUTOR.

(** The subject holds an ACTIVE record of a qualifying kind on the resource,
    wherever the record stands among the records of the resource. *)
Definition holds_active_authorship (w : World) (user_id : Z)
    (element_uuid : string) : Prop :=
  ∃ ra, ra ∈ resourceauthor_tbl w
        ∧ ResourceAuthor.resource_uuid ra = element_uuid
        ∧ ResourceAuthor.user_id ra = user_id
        ∧ qualifying_kind (ResourceAuthor.authorship ra)
        ∧ ResourceAuthor.authorship_status ra = ACTIVE.

(** The permission matrix of the role has the entry for the type and the
    action set to true. *)
Definition matrix_entry (role : Role.t) (element_type : string)
    (action : Action) : Prop :=
  ∃ rights perm, Role.rights role = Some rights
                 ∧ rights !! element_type = Some perm
                 ∧ Permission.getattr_action perm action = true.

(** Some membership of the subject names a role, global or scoped to the
    organization of that membership, that has the entry. *)
Definition granted_by_role_of_membership (w : World) (user_id : Z)
    (element_type : string) (action : Action) : Prop :=
  ∃ role uo, role ∈ role_tbl w ∧ uo ∈ userorganization_tbl w
             ∧ UserOrganization.user_id uo = user_id
             ∧ UserOrganization.role_id uo = Role.id role
             ∧ (Role.org_id role = None
                ∨ Role.org_id role = Some (UserOrganization.org_id uo))
             ∧ matrix_entry role element_type action.

(** The authorship check looks at the first record of the resource only. *)
Definition first_author_record (w : World) (element_uuid : string)
    : option ResourceAuthor.t :=
  head (List.filter
          (λ ra, bool_decide (ResourceAuthor.resource_uuid ra = element_uuid))
          (resourceauthor_tbl w)).

(** The test the authorship check makes on the record it loaded. *)
Definition record_qualifies (user_id : Z) (ra : ResourceAuthor.t) : bool :=
  bool_decide (ResourceAuthor.user_id ra = user_id)
  && (bool_decide (ResourceAuthor.authorship ra = CREATOR)
      || bool_decide (ResourceAuthor.authorship ra = MAINTAINER)
      || bool_decide (ResourceAuthor.authorship ra = CONTRIBUTOR))
  && bool_decide (ResourceAuthor.authorship_status ra = ACTIVE).

(** The errors of the authorization layer. *)
Definition forbidden_roles_and_authorship : Exn :=
  HTTPException HTTP_403_FORBIDDEN
    "User rights (roles & authorship) : You don't have the right to perform this action".
Definition forbidden_not_public : Exn :=
  HTTPException HTTP_403_FORBIDDEN
    "User rights : You don't have the right to perform this action".
Definition forbidden_anonymous : Exn :=
  HTTPException HTTP_403_FORBIDDEN
    "You should be logged in to perform this action".

(** The organization that owns a course. *)
Definition owned_by_organization (w : World) (element_uuid : string)
    (org_id : Z) : Prop :=
  ∃ course, course ∈ course_tbl w
            ∧ Course.course_uuid course = element_uuid
            ∧ Course.org_id course = org_id.

(** The role condition in the words of the specification: a role assigned to
    the subject, global or scoped to the organization that owns the
    resource, has the entry. *)
Definition granted_by_role_for_resource (w : World) (user_id : Z)
    (element_uuid element_type : string) (action : Action) : Prop :=
  ∃ role uo, role ∈ role_tbl w ∧ uo ∈ userorganization_tbl w
             ∧ UserOrganization.user_id uo = user_id
             ∧ UserOrganization.role_id uo = Role.id role
             ∧ (Role.org_id role = None
                ∨ ∃ org_id, Role.org_id role = Some org_id
                            ∧ owned_by_organization w element_uuid org_id)
             ∧ matrix_entry role element_type action.

(** The error of [update_course_contributor] for the record of a creator. *)
Definition cannot_modify_creator : Exn :=
  HTTPException 400 "Cannot modify the role of the course creator".

(** The authorship record that [update_course_contributor] loads. *)
Definition contributor_record (w : World) (course_uuid : string)
    (contributor_user_id : Z) : option ResourceAuthor.t :=
  head (List.filter
          (λ ra, bool_decide (ResourceAuthor.resource_uuid ra = course_uuid)
                 && bool_decide (ResourceAuthor.user_id ra = contributor_user_id))
          (resourceauthor_tbl w)).

(** The course row that a service loads by its identifier. *)
Definition course_by_uuid (w : World) (course_uuid : string) : option Course.t :=
  head (List.filter (λ c, bool_decide (Course.course_uuid c = course_uuid))
          (course_tbl w)).

(** The chapter row that a service loads by its primary key. *)
Definition chapter_by_id (w : World) (chapter_id : Z) : option PyObj :=
  head (List.filter (λ c, bool_decide (getattr c "id" = PInt chapter_id))
          (chapter_tbl w)).

(** A field after a partial update: the submitted value when there is one,
    the stored value otherwise. *)
Definition provided_or {A} (submitted : option A) (stored : A) : A :=
  match submitted with Some v => v | None => stored end.

(** The order links of a course, the siblings among which a chapter is
    placed. *)
Definition course_links (w : World) (course_id : Z) : list CourseChapter.t :=
  List.filter (λ cc, bool_decide (CourseChapter.course_id cc = course_id))
    (coursechapter_tbl w).

(** A dense sequence of orders: the integers from some first value on, each
    once, in any arrangement. *)
Definition dense (orders : list Z) : Prop :=
  ∃ first, orders ≡ₚ seqZ first (Z.of_nat (length orders)).

(** [m] is the maximum of a list of orders. *)
Definition is_max (m : Z) (orders : list Z) : Prop :=
  m ∈ orders ∧ ∀ o, o ∈ orders → o ≤ m.

(** The filter with which [reorder_chapters_and_activities] loads the order
    links of a course. *)
Definition selects_link (course : Course.t) (cc : CourseChapter.t) : bool :=
  bool_decide (CourseChapter.course_id cc = Course.id course)
  && bool_decide (CourseChapter.org_id cc = Course.org_id course).

(** The links of a course under its organization. *)
Definition existing_links (w : World) (course : Course.t) : list CourseChapter.t :=
  List.filter (selects_link course) (coursechapter_tbl w).

(** A link seen as the position it gives to a chapter. *)
Definition link_pairs (rows : list CourseChapter.t) : list (Z * Z) :=
  (λ cc, (CourseChapter.chapter_id cc, CourseChapter.order cc)) <$> rows.

(** The positions a reorder request asks for: each submitted identifier with
    its index in the list. *)
Definition submitted_pairs (chapters_order : ChapterUpdateOrder) : list (Z * Z) :=
  (λ item : Z * ChapterOrder, (co_chapter_id item.2, item.1))
  <$> enumerate (chapter_order_by_ids chapters_order).

(** The lookup table of the reorder: the last loaded link of each chapter. *)
Definition chapter_map (existing : list CourseChapter.t) : gmap Z CourseChapter.t :=
  foldl (λ m cc, <[CourseChapter.chapter_id cc := cc]> m) ∅ existing.

(** One turn of the loop over the submitted chapters, as a change of the
    store. *)
Definition place_chapter {env : Environment} (m : gmap Z CourseChapter.t)
    (course : Course.t) (w : World) (item : Z * ChapterOrder) : World :=
  match m !! co_chapter_id item.2 with
  | Some course_chapter =>
      set_coursechapter_tbl
        ((λ row, if bool_decide (CourseChapter.id row = CourseChapter.id course_chapter)
                 then CourseChapter.with_order item.1 row else row)
           <$> coursechapter_tbl w) w
  | None =>
      let w2 := set_ticks (S (S (ticks w))) w in
      set_coursechapter_tbl
        (coursechapter_tbl w
           ++ [CourseChapter.mk (next_id (CourseChapter.id <$> coursechapter_tbl w))
                 (Course.id course) (co_chapter_id item.2) (Course.org_id course)
                 (datetime_now_str (ticks w)) (datetime_now_str (S (ticks w)))
                 item.1]) w2
  end.

(** One turn of the loop that removes the links left out of the request. *)
Definition drop_chapter (keep : gset Z) (w : World) (cc : CourseChapter.t) : World :=
  if bool_decide (CourseChapter.chapter_id cc ∉ keep) then
    set_coursechapter_tbl
      (List.filter (λ row, negb (bool_decide (CourseChapter.id row = CourseChapter.id cc)))
         (coursechapter_tbl w)) w
  else w.

(** The order a loaded link ends with after the turns [items]. *)
Definition placed_order (m : gmap Z CourseChapter.t) (items : list (Z * ChapterOrder))
    (cc : CourseChapter.t) : Z :=
  foldl (λ o item,
           match m !! co_chapter_id item.2 with
           | Some course_chapter =>
               if bool_decide (CourseChapter.id cc = CourseChapter.id course_chapter)
               then item.1 else o
           | None => o
           end)
        (CourseChapter.order cc) items.

(** The primary keys the second loop deletes. *)
Definition dropped_ids (keep : gset Z) (existing : list CourseChapter.t) : list Z :=
  CourseChapter.id
  <$> List.filter (λ cc, bool_decide (CourseChapter.chapter_id cc ∉ keep)) existing.

(** A loaded link as the first loop leaves it. *)
Definition placed (m : gmap Z CourseChapter.t) (items : list (Z * ChapterOrder))
    (cc : CourseChapter.t) : CourseChapter.t :=
  CourseChapter.with_order (placed_order m items cc) cc.

(** ** A sample deployment

    One instance of the environment and two stores, used to run the services
    on concrete requests.  The services make identifiers as [course_<uuid4>]
    and [chapter_<uuid4>] and the public check compares the type of an
    identifier with ["courses"] and ["collections"]; the sample classifier
    goes by the prefix and answers with these names. *)

Definition sample_check_element_type (uuid : string) : outcome string :=
  if String.prefix "course_" uuid then Returned "courses"
  else if String.prefix "chapter_" uuid then Returned "chapters"
  else if String.prefix "collection_" uuid then Returned "collections"
  else Raised (HTTPException HTTP_409_CONFLICT
                 "User rights : Issue verifying element nature").

Definition sample_env : Environment :=
  {| check_element_type := sample_check_element_type;
     datetime_now_str := λ n, "2025-01-01 00:00:00." +:+ pretty n;
     uuid4_str := λ n, "0000-" +:+ pretty n |}.

Definition alice : User.t :=
  User.mk 1 "user_a" "alice" "Alice" "A" "alice@acme.edu" None None.
Definition bob : User.t :=
  User.mk 2 "user_b" "bob" "Bob" "B" "bob@acme.edu" None None.
Definition carol : User.t :=
  User.mk 7 "user_c" "carol" "Carol" "C" "carol@other.edu" None None.
Definition dave : User.t :=
  User.mk 9 "user_d" "dave" "Dave" "D" "dave@acme.edu" None None.

(** Course [course_x1] of organization 1 is private and has two authors,
    its creator alice and the maintainer bob; [course_pub] is public.  Carol
    belongs to organization 2 only, with a role of organization 2 that lets
    her update courses.  Dave has no authorship and no role. *)
Definition course_x1 : Course.t :=
  Course.mk 1 1 "Intro" (Some "An introduction") None None (Some "basics") None
    false false "course_x1" "2024-05-01" "2024-05-01".
Definition course_pub : Course.t :=
  Course.mk 2 1 "Open" None None None None None
    true false "course_pub" "2024-05-02" "2024-05-02".

Definition editor_of_org2 : Role.t :=
  Role.mk 10 (Some 2)
    (Some {[ "courses" := Permission.mk false true true false ]}).

Definition acme : World :=
  {| course_tbl := [course_x1; course_pub];
     collection_tbl := [];
     resourceauthor_tbl :=
       [ ResourceAuthor.mk 1 "course_x1" 1 CREATOR ACTIVE "2024-05-01" "2024-05-01";
         ResourceAuthor.mk 2 "course_x1" 2 MAINTAINER ACTIVE "2024-05-03" "2024-05-03" ];
     role_tbl := [editor_of_org2];
     userorganization_tbl :=
       [ UserOrganization.mk 1 7 2 10 "2024-04-01" "2024-04-01" ];
     user_tbl := [alice; bob; carol; dave];
     chapter_tbl := [];
     coursechapter_tbl := [];
     activity_tbl := [];
     chapteractivity_tbl := [];
     ticks := 0 |}.

(** A second store: course [course_x1] with three chapters in the order
    a, b, c.  Alice created the course and holds a standard role that gives
    every right on chapters. *)
Definition teacher : Role.t :=
  Role.mk 3 None
    (Some {[ "chapters" := Permission.mk true true true true ]}).

Definition chapter_row (id : Z) (uuid name : string) : PyObj :=
  {[ "id" := PInt id; "chapter_uuid" := PStr uuid; "name" := PStr name;
     "description" := PStr "first draft"; "course_id" := PInt 1;
     "org_id" := PInt 1; "creation_date" := PStr "2024-05-01";
     "update_date" := PStr "2024-05-01" ]}.

Definition campus : World :=
  {| course_tbl := [course_x1];
     collection_tbl := [];
     resourceauthor_tbl :=
       [ ResourceAuthor.mk 1 "course_x1" 1 CREATOR ACTIVE "2024-05-01" "2024-05-01" ];
     role_tbl := [teacher];
     userorganization_tbl :=
       [ UserOrganization.mk 1 1 1 3 "2024-04-01" "2024-04-01" ];
     user_tbl := [alice];
     chapter_tbl :=
       [ chapter_row 10 "chapter_a" "A"; chapter_row 11 "chapter_b" "B";
         chapter_row 12 "chapter_c" "C" ];
     coursechapter_tbl :=
       [ CourseChapter.mk 1 1 10 1 "2024-05-01" "2024-05-01" 0;
         CourseChapter.mk 2 1 11 1 "2024-05-01" "2024-05-01" 1;
         CourseChapter.mk 3 1 12 1 "2024-05-01" "2024-05-01" 2 ];
     activity_tbl := [];
     chapteractivity_tbl := [];
     ticks := 0 |}.

(** The request that puts chapter c first, chapter a second and leaves
    chapter b out. *)
Definition order_c_a : ChapterUpdateOrder :=
  mkChapterUpdateOrder [mkChapterOrder 12 []; mkChapterOrder 10 []].

(** The update that names only [name]. *)
Definition only_name : CourseUpdate.t :=
  CourseUpdate.mk "New" None None None None None None None.

(** * The other services of the same files

    The functions that stand beside the ones above in the same source
    files, and the callers of the decision functions in the organization
    and activity services. *)

(** ** [src/security/rbac/rbac.py], the administrator check *)

Module rbac_admin.
Section rbac_admin.
Context {env : Environment}.

(** The query is the one of [authorization_verify_based_on_roles]; the loop
    returns at the first role whose identifier is 1 or 2. *)
Definition authorization_verify_based_on_org_admin_status
    (user_id : Z) (action : Action) (element_uuid : string) : M bool :=
  _ ← lift_outcome (check_element_type element_uuid);
  roles ← rbac.user_roles_in_organization_and_standard_roles user_id;
  mret (existsb (λ role, bool_decide (Role.id role ∈ [1; 2])) roles).

End rbac_admin.
End rbac_admin.

(** ** [src/services/orgs/orgs.py], the check of the organization services *)

(** fastapi.status *)
Definition HTTP_401_UNAUTHORIZED : Z := 401.

(** [PublicUser | AnonymousUser | InternalUser]; the internal user has
    [id = 0] as well and is told apart by [isinstance]. *)
Inductive OrgCurrentUser :=
| ExternalUser (u : CurrentUser)
| InternalUser.

(** [bool(x)] for the value of a call that ends without [return]. *)
Definition truth_of_None (x : unit) : bool := false.

Module orgs.
Section orgs.
Context {env : Environment}.

Definition rbac_check (org_uuid : string) (current_user : OrgCurrentUser)
    (action : Action) : M (option bool) :=
  if bool_decide (action = read) then mret (Some true)
  else
    match current_user with
    | InternalUser => mret (Some true)
    | ExternalUser current_user =>
        isUserAnon ← rbac.authorization_verify_if_user_is_anon
                       (current_user_id current_user);
        isAllowedOnOrgAdminStatus ←
          rbac_admin.authorization_verify_based_on_org_admin_status
            (current_user_id current_user) action org_uuid;
        if truth_of_None isUserAnon then
          raise (HTTPException HTTP_401_UNAUTHORIZED
            "You should be logged in to be able to achieve this action")
        else if negb isAllowedOnOrgAdminStatus then
          raise (HTTPException HTTP_403_FORBIDDEN
            "User rights (admin status) : You don't have the right to perform this action")
        else mret None
    end.

End orgs.
End orgs.

(** ** [src/services/courses/courses.py], reading a course *)

Module course_reads.
Section course_reads.
Context {env : Environment}.

Definition get_course (course_uuid : string) (current_user : CurrentUser)
    : M CourseRead :=
  course ← exec_first course_tbl
             (λ c, bool_decide (Course.course_uuid c = course_uuid));
  match course with
  | None => raise (HTTPException 404 "Course not found")
  | Some course =>
      courses.rbac_check (Course.course_uuid course) current_user read;;
      authors ← course_authors (Course.course_uuid course);
      mret (mkCourseRead course authors)
  end.

Definition get_course_by_id (course_id : Z) (current_user : CurrentUser)
    : M CourseRead :=
  course ← exec_first course_tbl (λ c, bool_decide (Course.id c = course_id));
  match course with
  | None => raise (HTTPException 404 "Course not found")
  | Some course =>
      courses.rbac_check (Course.course_uuid course) current_user read;;
      authors ← course_authors (Course.course_uuid course);
      mret (mkCourseRead course authors)
  end.

End course_reads.
End course_reads.

(** ** [src/services/courses/contributors.py], applications and listing *)

(** One entry of the list that [get_course_contributors] returns. *)
Record ContributorEntry := mkContributorEntry {
  ce_user_id : Z;
  ce_authorship : ResourceAuthorshipEnum;
  ce_authorship_status : ResourceAuthorshipStatusEnum;
  ce_creation_date : string;
  ce_update_date : string;
  ce_user : User.t;
}.

Module applications.

(** [db_session.add(resource_author); db_session.commit()] for a new
    record: the row gets the next primary key. *)
Definition insert_resource_author (resource_uuid : string) (user_id : Z)
    (authorship : ResourceAuthorshipEnum)
    (authorship_status : ResourceAuthorshipStatusEnum)
    (creation_date update_date : string) : M unit :=
  modify (λ w,
    let pk := next_id (ResourceAuthor.id <$> resourceauthor_tbl w) in
    set_resourceauthor_tbl
      (resourceauthor_tbl w
         ++ [ResourceAuthor.mk pk resource_uuid user_id authorship
               authorship_status creation_date update_date]) w).

Section applications.
Context {env : Environment}.

Definition apply_course_contributor (course_uuid : string)
    (current_user : CurrentUser) : M (list (string * string)) :=
  rbac.authorization_verify_if_user_is_anon (current_user_id current_user);;
  course ← exec_first course_tbl
             (λ c, bool_decide (Course.course_uuid c = course_uuid));
  match course with
  | None => raise (HTTPException 404 "Course not found")
  | Some course =>
      existing_authorship ← exec_first resourceauthor_tbl (λ ra,
        bool_decide (ResourceAuthor.resource_uuid ra = course_uuid)
        && bool_decide (ResourceAuthor.user_id ra = current_user_id current_user));
      match existing_authorship with
      | Some _ =>
          raise (HTTPException 400
            "You already have an authorship role for this course")
      | None =>
          creation_date ← datetime_now;
          update_date ← datetime_now;
          insert_resource_author course_uuid (current_user_id current_user)
            CONTRIBUTOR PENDING creation_date update_date;;
          mret [("detail", "Contributor application submitted successfully");
                ("status", "pending")]
      end
  end.

(** The join is on the foreign key of [ResourceAuthor], its [user_id].
    The entries carry the user rows as loaded; as for the authors of a
    course, the validation by [UserRead.model_validate] is outside the
    model. *)
Definition get_course_contributors (course_uuid : string)
    (current_user : CurrentUser) : M (list ContributorEntry) :=
  course ← exec_first course_tbl
             (λ c, bool_decide (Course.course_uuid c = course_uuid));
  match course with
  | None => raise (HTTPException 404 "Course not found")
  | Some course =>
      results ← gets (λ w,
        select_join (resourceauthor_tbl w) (user_tbl w)
          (λ ra user, bool_decide (ResourceAuthor.user_id ra = User.id user))
          (λ ra _, bool_decide (ResourceAuthor.resource_uuid ra = course_uuid)));
      mret ((λ '(contributor, user),
               mkContributorEntry
                 (ResourceAuthor.user_id contributor)
                 (ResourceAuthor.authorship contributor)
                 (ResourceAuthor.authorship_status contributor)
                 (ResourceAuthor.creation_date contributor)
                 (ResourceAuthor.update_date contributor)
                 user) <$> results)
  end.

End applications.
End applications.

(** ** [src/services/courses/chapters.py], deleting a chapter *)

Module chapter_removal.

(** [db_session.delete(chapter)] *)
Definition delete_chapter_row (pk : PyVal) : M unit :=
  modify (λ w, set_chapter_tbl
    (List.filter (λ row, negb (bool_decide (getattr row "id" = pk)))
       (chapter_tbl w)) w).

Section chapter_removal.
Context {env : Environment}.

(** The function issues the deletes of the activity links of the chapter
    and of the chapter row; what the schema cascades to is not its text. *)
Definition delete_chapter (chapter_id : Z) (current_user : CurrentUser)
    : M (list (string * string)) :=
  chapter ← exec_first chapter_tbl
              (λ c, bool_decide (getattr c "id" = PInt chapter_id));
  match chapter with
  | None => raise (HTTPException HTTP_409_CONFLICT "Chapter does not exist")
  | Some chapter =>
      chapters.rbac_check (as_str (getattr chapter "chapter_uuid"))
        current_user delete;;
      chapter_activities ← exec_all chapteractivity_tbl (λ ca,
        bool_decide (PInt (ChapterActivity.chapter_id ca) = getattr chapter "id"));
      for_each chapter_activities
        (λ chapter_activity,
           chapters.delete_chapter_activity (ChapterActivity.id chapter_activity));;
      delete_chapter_row (getattr chapter "id");;
      mret [("detail", "chapter deleted")]
  end.

End chapter_removal.
End chapter_removal.

(** ** [src/services/courses/activities/activities.py] *)

Definition set_activity_tbl (v : list PyObj) (w : World) : World :=
  mkWorld (course_tbl w) (collection_tbl w) (resourceauthor_tbl w) (role_tbl w)
    (userorganization_tbl w) (user_tbl w) (chapter_tbl w) (coursechapter_tbl w)
    v (chapteractivity_tbl w) (ticks w).

Module activities.

(** [db_session.add(activity); db_session.commit(); db_session.refresh(activity)]
    for a new activity: the row gets the next primary key. *)
Definition insert_activity (activity : PyObj) : M PyObj :=
  λ w,
    let pk := next_id ((λ row, as_int (getattr row "id")) <$> activity_tbl w) in
    let activity := <["id" := PInt pk]> activity in
    (Returned activity, set_activity_tbl (activity_tbl w ++ [activity]) w).

(** [db_session.delete(activity)] *)
Definition delete_activity_row (pk : PyVal) : M unit :=
  modify (λ w, set_activity_tbl
    (List.filter (λ row, negb (bool_decide (getattr row "id" = pk)))
       (activity_tbl w)) w).

Section activities.
Context {env : Environment}.

Definition rbac_check (element_uuid : string) (current_user : CurrentUser)
    (action : Action) : M (option bool) :=
  if bool_decide (action = read) then
    if bool_decide (current_user_id current_user = 0) then
      res ← rbac.authorization_verify_if_element_is_public element_uuid action;
      mret (Some res)
    else
      res ← rbac.authorization_verify_based_on_roles_and_authorship
              (current_user_id current_user) action element_uuid;
      mret (Some res)
  else
    rbac.authorization_verify_if_user_is_anon (current_user_id current_user);;
    rbac.authorization_verify_based_on_roles_and_authorship
      (current_user_id current_user) action element_uuid;;
    mret None.

Definition create_activity (activity_object : PyObj)
    (current_user : CurrentUser) : M PyObj :=
  chapter ← exec_first chapter_tbl
              (λ c, bool_decide (getattr c "id" = getattr activity_object "chapter_id"));
  match chapter with
  | None => raise (HTTPException 404 "Chapter not found")
  | Some chapter =>
      course ← exec_first course_tbl
                 (λ c, bool_decide (PInt (Course.id c) = getattr chapter "course_id"));
      match course with
      | None => raise (HTTPException 404 "Course not found")
      | Some course =>
          rbac_check (Course.course_uuid course) current_user create;;
          let activity := activity_object in
          uuid ← uuid4;
          let activity := <["activity_uuid" := PStr ("activity_" +:+ uuid)]> activity in
          now ← datetime_now;
          let activity := <["creation_date" := PStr now]> activity in
          now ← datetime_now;
          let activity := <["update_date" := PStr now]> activity in
          let activity := <["org_id" := getattr chapter "org_id"]> activity in
          let activity := <["course_id" := getattr chapter "course_id"]> activity in
          activity ← insert_activity activity;
          chapter_activities ← gets (λ w,
            order_by ChapterActivity.order
              (List.filter
                 (λ ca, bool_decide (PInt (ChapterActivity.chapter_id ca)
                                     = getattr activity_object "chapter_id"))
                 (chapteractivity_tbl w)));
          let last_order :=
            match last chapter_activities with
            | Some ca => ChapterActivity.order ca
            | None => 0
            end in
          let to_be_used_order := last_order + 1 in
          creation_date ← datetime_now;
          update_date ← datetime_now;
          chapters.insert_chapter_activity
            (as_int (getattr activity_object "chapter_id"))
            (if is_not_None (getattr activity "id")
                && negb (bool_decide (getattr activity "id" = PInt 0))
             then as_int (getattr activity "id") else 0)
            (as_int (getattr chapter "org_id"))
            (as_int (getattr chapter "course_id"))
            creation_date update_date to_be_used_order;;
          mret activity
      end
  end.

Definition delete_activity (activity_uuid : string)
    (current_user : CurrentUser) : M (list (string * string)) :=
  activity ← exec_first activity_tbl
               (λ a, bool_decide (getattr a "activity_uuid" = PStr activity_uuid));
  match activity with
  | None => raise (HTTPException 404 "Activity not found")
  | Some activity =>
      course ← exec_first course_tbl
                 (λ c, bool_decide (PInt (Course.id c) = getattr activity "course_id"));
      match course with
      | None => raise (HTTPException 404 "Course not found")
      | Some course =>
          rbac_check (Course.course_uuid course) current_user delete;;
          activity_chapter ← exec_first chapteractivity_tbl (λ ca,
            bool_decide (PInt (ChapterActivity.activity_id ca) = getattr activity "id"));
          match activity_chapter with
          | None => raise (HTTPException 404 "Activity not found in chapter")
          | Some activity_chapter =>
              chapters.delete_chapter_activity (ChapterActivity.id activity_chapter);;
              delete_activity_row (getattr activity "id");;
              mret [("detail", "Activity deleted")]
          end
      end
  end.

End activities.
End activities.

(** ** Vocabulary of the further properties *)

(** The tables the decision functions read. *)
Definition authorization_tables (w : World) :=
  (course_tbl w, collection_tbl w, resourceauthor_tbl w, role_tbl w,
   userorganization_tbl w).

(** Some membership of the subject names a role with identifier 1 or 2,
    global or scoped to the organization of that membership. *)
Definition holds_admin_role (w : World) (user_id : Z) : Prop :=
  ∃ role uo, role ∈ role_tbl w ∧ uo ∈ userorganization_tbl w
             ∧ UserOrganization.user_id uo = user_id
             ∧ UserOrganization.role_id uo = Role.id role
             ∧ (Role.org_id role = None
                ∨ Role.org_id role = Some (UserOrganization.org_id uo))
             ∧ (Role.id role = 1 ∨ Role.id role = 2).

Definition forbidden_admin_status : Exn :=
  HTTPException HTTP_403_FORBIDDEN
    "User rights (admin status) : You don't have the right to perform this action".

(** The collection row that the public check loads. *)
Definition public_collection (w : World) (element_uuid : string)
    : option Collection.t :=
  head (List.filter
          (λ c, Collection.public c
                && bool_decide (Collection.collection_uuid c = element_uuid))
          (collection_tbl w)).

(** The error of [apply_course_contributor] for a subject that has a record
    on the course already. *)
Definition already_an_author : Exn :=
  HTTPException 400 "You already have an authorship role for this course".

Definition course_not_found : Exn := HTTPException 404 "Course not found".

(** The record that a contributor application writes. *)
Definition pending_application (w : World) {env : Environment}
    (course_uuid : string) (user_id : Z) : ResourceAuthor.t :=
  ResourceAuthor.mk (next_id (ResourceAuthor.id <$> resourceauthor_tbl w))
    course_uuid user_id CONTRIBUTOR PENDING
    (datetime_now_str (ticks w)) (datetime_now_str (S (ticks w))).

(** The record that [update_course_contributor] writes over [existing]. *)
Definition updated_record {env : Environment} (w : World)
    (existing : ResourceAuthor.t) (authorship : ResourceAuthorshipEnum)
    (authorship_status : ResourceAuthorshipStatusEnum) : ResourceAuthor.t :=
  ResourceAuthor.mk (ResourceAuthor.id existing)
    (ResourceAuthor.resource_uuid existing) (ResourceAuthor.user_id existing)
    authorship authorship_status (ResourceAuthor.creation_date existing)
    (datetime_now_str (ticks w)).

(** The course row that a service loads by its primary key. *)
Definition course_by_id (w : World) (course_id : Z) : option Course.t :=
  head (List.filter (λ c, bool_decide (Course.id c = course_id)) (course_tbl w)).

(** An authorship record with its user row, as a read model shows it. *)
Definition author_with_role (ra : ResourceAuthor.t) (user : User.t)
    : AuthorWithRole :=
  mkAuthorWithRole user (ResourceAuthor.authorship ra)
    (ResourceAuthor.authorship_status ra) (ResourceAuthor.creation_date ra)
    (ResourceAuthor.update_date ra).

(** The record [ra] is a record of the resource and [user] is its user. *)
Definition authorship_of (w : World) (resource_uuid : string)
    (ra : ResourceAuthor.t) (user : User.t) : Prop :=
  ra ∈ resourceauthor_tbl w ∧ user ∈ user_tbl w
  ∧ ResourceAuthor.user_id ra = User.id user
  ∧ ResourceAuthor.resource_uuid ra = resource_uuid.

(** An authorship record with its user row, as the list of contributors
    shows it. *)
Definition contributor_entry (ra : ResourceAuthor.t) (user : User.t)
    : ContributorEntry :=
  mkContributorEntry (ResourceAuthor.user_id ra) (ResourceAuthor.authorship ra)
    (ResourceAuthor.authorship_status ra) (ResourceAuthor.creation_date ra)
    (ResourceAuthor.update_date ra) user.

(** The filter with which [reorder_chapters_and_activities] loads the
    activity links of a course. *)
Definition selects_activity_link (course : Course.t) (ca : ChapterActivity.t)
    : bool :=
  bool_decide (ChapterActivity.course_id ca = Course.id course)
  && bool_decide (ChapterActivity.org_id ca = Course.org_id course).

(** The request that names no chapter. *)
Definition empty_order : ChapterUpdateOrder := mkChapterUpdateOrder [].

(** The activity links of a chapter, the siblings among which an activity
    is placed. *)
Definition chapter_links (w : World) (chapter_id : Z) : list ChapterActivity.t :=
  List.filter (λ ca, bool_decide (ChapterActivity.chapter_id ca = chapter_id))
    (chapteractivity_tbl w).

(** The course row that the activity services load for a chapter or an
    activity, by the [course_id] attribute of that row. *)
Definition course_of (w : World) (row : PyObj) : option Course.t :=
  head (List.filter
          (λ c, bool_decide (PInt (Course.id c) = getattr row "course_id"))
          (course_tbl w)).

(** The activity row that a service loads by its identifier, and the link
    that [delete_activity] loads for it. *)
Definition activity_by_uuid (w : World) (activity_uuid : string) : option PyObj :=
  head (List.filter
          (λ a, bool_decide (getattr a "activity_uuid" = PStr activity_uuid))
          (activity_tbl w)).
Definition first_link_of (w : World) (activity : PyObj)
    : option ChapterActivity.t :=
  head (List.filter
          (λ ca, bool_decide (PInt (ChapterActivity.activity_id ca)
                              = getattr activity "id"))
          (chapteractivity_tbl w)).

(** ** Further sample stores *)

(** A classifier that also knows the identifiers of organizations. *)
Definition office_check_element_type (uuid : string) : outcome string :=
  if String.prefix "org_" uuid then Returned "organizations"
  else sample_check_element_type uuid.

Definition office_env : Environment :=
  {| check_element_type := office_check_element_type;
     datetime_now_str := λ n, "2025-01-01 00:00:00." +:+ pretty n;
     uuid4_str := λ n, "0000-" +:+ pretty n |}.

(** The store [acme] with two collections and an administrator: alice
    holds the standard role 1 through her membership of organization 1. *)
Definition admin_role : Role.t := Role.mk 1 None None.

Definition office : World :=
  {| course_tbl := [course_x1; course_pub];
     collection_tbl :=
       [ Collection.mk 1 "collection_pub" true;
         Collection.mk 2 "collection_priv" false ];
     resourceauthor_tbl :=
       [ ResourceAuthor.mk 1 "course_x1" 1 CREATOR ACTIVE "2024-05-01" "2024-05-01";
         ResourceAuthor.mk 2 "course_x1" 2 MAINTAINER ACTIVE "2024-05-03" "2024-05-03" ];
     role_tbl := [admin_role; editor_of_org2];
     userorganization_tbl :=
       [ UserOrganization.mk 1 7 2 10 "2024-04-01" "2024-04-01";
         UserOrganization.mk 2 1 1 1 "2024-04-01" "2024-04-01" ];
     user_tbl := [alice; bob; carol; dave];
     chapter_tbl := [];
     coursechapter_tbl := [];
     activity_tbl := [];
     chapteractivity_tbl := [];
     ticks := 0 |}.

(** The store [campus] with bob as an assistant: he holds the role
    [teacher], which gives every right on chapters and none on courses,
    and has no authorship record. *)
Definition campus_with_assistant : World :=
  {| course_tbl := [course_x1];
     collection_tbl := [];
     resourceauthor_tbl :=
       [ ResourceAuthor.mk 1 "course_x1" 1 CREATOR ACTIVE "2024-05-01" "2024-05-01" ];
     role_tbl := [teacher];
     userorganization_tbl :=
       [ UserOrganization.mk 1 1 1 3 "2024-04-01" "2024-04-01";
         UserOrganization.mk 2 2 1 3 "2024-04-02" "2024-04-02" ];
     user_tbl := [alice; bob];
     chapter_tbl :=
       [ chapter_row 10 "chapter_a" "A"; chapter_row 11 "chapter_b" "B";
         chapter_row 12 "chapter_c" "C" ];
     coursechapter_tbl :=
       [ CourseChapter.mk 1 1 10 1 "2024-05-01" "2024-05-01" 0;
         CourseChapter.mk 2 1 11 1 "2024-05-01" "2024-05-01" 1;
         CourseChapter.mk 3 1 12 1 "2024-05-01" "2024-05-01" 2 ];
     activity_tbl := [];
     chapteractivity_tbl := [];
     ticks := 0 |}.

(** The store [campus] with activities: the video is linked under
    chapters a and b, the quiz under chapter a after the video, the essay
    under no chapter. *)
Definition activity_row (id : Z) (uuid name : string) : PyObj :=
  {[ "id" := PInt id; "activity_uuid" := PStr uuid; "name" := PStr name;
     "published" := PBool true; "course_id" := PInt 1; "org_id" := PInt 1;
     "creation_date" := PStr "2024-05-01"; "update_date" := PStr "2024-05-01" ]}.

Definition studio : World :=
  {| course_tbl := [course_x1];
     collection_tbl := [];
     resourceauthor_tbl :=
       [ ResourceAuthor.mk 1 "course_x1" 1 CREATOR ACTIVE "2024-05-01" "2024-05-01" ];
     role_tbl := [teacher];
     userorganization_tbl :=
       [ UserOrganization.mk 1 1 1 3 "2024-04-01" "2024-04-01" ];
     user_tbl := [alice];
     chapter_tbl :=
       [ chapter_row 10 "chapter_a" "A"; chapter_row 11 "chapter_b" "B";
         chapter_row 12 "chapter_c" "C" ];
     coursechapter_tbl :=
       [ CourseChapter.mk 1 1 10 1 "2024-05-01" "2024-05-01" 0;
         CourseChapter.mk 2 1 11 1 "2024-05-01" "2024-05-01" 1;
         CourseChapter.mk 3 1 12 1 "2024-05-01" "2024-05-01" 2 ];
     activity_tbl :=
       [ activity_row 20 "activity_video" "Video";
         activity_row 21 "activity_quiz" "Quiz";
         activity_row 22 "activity_essay" "Essay" ];
     chapteractivity_tbl :=
       [ ChapterActivity.mk 1 10 20 1 1 "2024-05-01" "2024-05-01" 1;
         ChapterActivity.mk 2 10 21 1 1 "2024-05-01" "2024-05-01" 2;
         ChapterActivity.mk 3 11 20 1 1 "2024-05-01" "2024-05-01" 1 ];
     ticks := 0 |}.

(** The update that names only [name], for a chapter. *)
Definition only_chapter_name : PyObj :=
  {[ "name" := PStr "A2"; "description" := PNone ]}.

(** The store [acme] after dave has applied as a contributor to
    [course_x1], and the store [campus] after alice has renamed the
    course. *)
Definition acme_with_application : World :=
  (applications.apply_course_contributor (env := sample_env) "course_x1"
     (PublicUser dave) acme).2.

Definition campus_renamed : World :=
  (courses.update_course (env := sample_env) only_name "course_x1"
     (PublicUser alice) campus).2.

(** A request for a chapter that carries fields the server assigns. *)
Definition chapter_request : PyObj :=
  {[ "name" := PStr "D"; "course_id" := PInt 1; "org_id" := PInt 99;
     "chapter_uuid" := PStr "chapter_mine" ]}.

Definition activity_request : PyObj :=
  {[ "name" := PStr "Reading"; "chapter_id" := PInt 10; "org_id" := PInt 99 ]}.

(** ** Running the session monad *)

Lemma run_bind {A B} (m : M A) (f : A → M B) (w : World) :
  (m ≫= f) w =
  match m w with
  | (Returned a, w') => f a w'
  | (Raised e, w') => (Raised e, w')
  end.
Proof. reflexivity. Qed.

Lemma run_bind_returned {A B} (m : M A) (f : A → M B) w a w' :
  m w = (Returned a, w') → (m ≫= f) w = f a w'.
Proof. intros Hm. rewrite run_bind, Hm. reflexivity. Qed.

Lemma run_bind_raised {A B} (m : M A) (f : A → M B) w e w' :
  m w = (Raised e, w') → (m ≫= f) w = (Raised e, w').
Proof. intros Hm. rewrite run_bind, Hm. reflexivity. Qed.

Lemma readonly_ret {A} (a : A) : readonly (mret a).
Proof. intros w. reflexivity. Qed.
Lemma readonly_raise {A} e : readonly (@raise A e).
Proof. intros w. reflexivity. Qed.
Lemma readonly_gets {A} (f : World → A) : readonly (gets f).
Proof. intros w. reflexivity. Qed.
Lemma readonly_lift_outcome {A} (o : outcome A) : readonly (lift_outcome o).
Proof. intros w. reflexivity. Qed.
Lemma readonly_bind {A B} (m : M A) (f : A → M B) :
  readonly m → (∀ a, readonly (f a)) → readonly (m ≫= f).
Proof.
  intros Hm Hf w. rewrite run_bind.
  specialize (Hm w). destruct (m w) as [[a|e] w']; simpl in Hm; subst w'.
  - apply Hf.
  - reflexivity.
Qed.
Lemma readonly_exec_first {A} (tbl : World → list A) p : readonly (exec_first tbl p).
Proof. apply readonly_gets. Qed.
Lemma readonly_exec_all {A} (tbl : World → list A) p : readonly (exec_all tbl p).
Proof. apply readonly_gets. Qed.

Create HintDb readonly.
#[export] Hint Resolve readonly_ret readonly_raise readonly_gets
  readonly_lift_outcome readonly_exec_first readonly_exec_all : readonly.

Ltac readonly_step :=
  match goal with
  | |- readonly (_ ≫= _) => apply readonly_bind; [| intros ?]
  | |- readonly (if ?b then _ else _) => destruct b
  | |- readonly (match ?x with _ => _ end) => destruct x
  | |- readonly (let _ := _ in _) => cbv zeta
  | |- _ => solve [auto with readonly]
  end.
Ltac solve_readonly := repeat readonly_step.

Section rbac_facts.
Context {env : Environment}.

Lemma readonly_is_public uuid action :
  readonly (rbac.authorization_verify_if_element_is_public uuid action).
Proof. unfold rbac.authorization_verify_if_element_is_public. solve_readonly. Qed.

Lemma readonly_is_author user_id action uuid :
  readonly (rbac.authorization_verify_if_user_is_author user_id action uuid).
Proof. unfold rbac.authorization_verify_if_user_is_author. solve_readonly. Qed.

Lemma readonly_user_roles user_id :
  readonly (rbac.user_roles_in_organization_and_standard_roles user_id).
Proof. apply readonly_gets. Qed.

Lemma readonly_roles user_id action uuid :
  readonly (rbac.authorization_verify_based_on_roles user_id action uuid).
Proof.
  unfold rbac.authorization_verify_based_on_roles.
  pose proof readonly_user_roles. solve_readonly.
Qed.

Lemma readonly_roles_and_authorship user_id action uuid :
  readonly (rbac.authorization_verify_based_on_roles_and_authorship user_id action uuid).
Proof.
  unfold rbac.authorization_verify_based_on_roles_and_authorship.
  pose proof readonly_is_author. pose proof readonly_roles. solve_readonly.
Qed.

Lemma readonly_is_anon user_id :
  readonly (rbac.authorization_verify_if_user_is_anon user_id).
Proof. unfold rbac.authorization_verify_if_user_is_anon. solve_readonly. Qed.

Lemma readonly_courses_rbac_check uuid user action :
  readonly (courses.rbac_check uuid user action).
Proof.
  unfold courses.rbac_check.
  pose proof readonly_is_public. pose proof readonly_roles_and_authorship.
  pose proof readonly_is_anon. solve_readonly.
Qed.

Lemma readonly_chapters_rbac_check uuid user action :
  readonly (chapters.rbac_check uuid user action).
Proof.
  unfold chapters.rbac_check.
  pose proof readonly_is_public. pose proof readonly_roles_and_authorship.
  pose proof readonly_is_anon. solve_readonly.
Qed.
End rbac_facts.

(** ** The authorization decisions *)

Section rbac_decisions.
Context {env : Environment}.

Lemma role_grants_entry t a role :
  rbac.role_grants t a role = true ↔ matrix_entry role t a.
Proof.
  unfold rbac.role_grants, matrix_entry. split.
  - destruct (Role.rights role) as [rights|]; [|done].
    destruct (rights !! t) as [perm|] eqn:E; [|done]. eauto.
  - intros (rights & perm & -> & -> & ?). done.
Qed.

Lemma elem_of_select_join {A B} (ta : list A) (tb : list B) on cond a b :
  (a, b) ∈ select_join ta tb on cond ↔
  a ∈ ta ∧ b ∈ tb ∧ on a b = true ∧ cond a b = true.
Proof.
  unfold select_join. rewrite list_elem_of_bind. split.
  - intros (a' & Hin & Ha'). apply list_elem_of_bind in Hin as (b' & Hin & Hb').
    destruct (on a' b' && cond a' b') eqn:E; [|by apply elem_of_nil in Hin].
    apply list_elem_of_singleton in Hin. simplify_eq.
    apply andb_true_iff in E as [? ?]. done.
  - intros (Ha & Hb & Hon & Hc). exists a. split; [|done].
    apply list_elem_of_bind. exists b. split; [|done].
    rewrite Hon, Hc. simpl. apply list_elem_of_singleton. done.
Qed.

Lemma existsb_role_grants user_id t action w :
  existsb (rbac.role_grants t action)
    (fst <$> select_join (role_tbl w) (userorganization_tbl w)
      (λ role uo, bool_decide (UserOrganization.role_id uo = Role.id role))
      (λ role uo,
         (bool_decide (Some (UserOrganization.org_id uo) = Role.org_id role)
          || bool_decide (Role.org_id role = None))
         && bool_decide (UserOrganization.user_id uo = user_id))) = true
  ↔ granted_by_role_of_membership w user_id t action.
Proof.
  rewrite existsb_exists. unfold granted_by_role_of_membership. split.
  - intros (role & Hin & Hg). apply list_elem_of_In, list_elem_of_fmap in Hin
      as ([role' uo] & -> & Hin).
    apply elem_of_select_join in Hin as (Hr & Hu & Hon & Hc). simpl in *.
    apply bool_decide_eq_true in Hon.
    apply andb_true_iff in Hc as [Horg Huser].
    apply bool_decide_eq_true in Huser.
    exists role', uo. repeat split; try done.
    + apply orb_true_iff in Horg as [Ho|Ho]; apply bool_decide_eq_true in Ho; auto.
    + by apply role_grants_entry.
  - intros (role & uo & Hr & Hu & Huser & Hrole & Horg & Hentry).
    exists role. split; [|by apply role_grants_entry].
    apply list_elem_of_In, list_elem_of_fmap. exists (role, uo). split; [done|].
    apply elem_of_select_join. repeat split; try done.
    + by apply bool_decide_eq_true.
    + apply andb_true_iff. split; [|by apply bool_decide_eq_true].
      apply orb_true_iff. destruct Horg as [Ho|Ho]; [right|left];
        by apply bool_decide_eq_true.
Qed.

Lemma roles_returns user_id action uuid t w :
  check_element_type uuid = Returned t →
  ∃ b, rbac.authorization_verify_based_on_roles user_id action uuid w
       = (Returned b, w)
       ∧ (b = true ↔ granted_by_role_of_membership w user_id t action).
Proof.
  intros Ht. unfold rbac.authorization_verify_based_on_roles.
  rewrite Ht. eexists. split; [reflexivity|]. apply existsb_role_grants.
Qed.

Lemma roles_raises user_id action uuid e w :
  check_element_type uuid = Raised e →
  rbac.authorization_verify_based_on_roles user_id action uuid w = (Raised e, w).
Proof.
  intros Ht. unfold rbac.authorization_verify_based_on_roles.
  rewrite Ht. reflexivity.
Qed.

Lemma is_author_returns user_id action uuid w :
  rbac.authorization_verify_if_user_is_author user_id action uuid w
  = (Returned
       (match action with
        | create => true
        | _ => match first_author_record w uuid with
               | Some ra => record_qualifies user_id ra
               | None => false
               end
        end), w).
Proof.
  unfold rbac.authorization_verify_if_user_is_author, first_author_record,
    record_qualifies.
  destruct action; simpl; try reflexivity;
    cbv [mbind M_bind exec_first gets mret M_ret];
    (destruct (head _) as [ra|]; [|reflexivity]);
    repeat case_bool_decide; simpl; reflexivity.
Qed.

Lemma roles_and_authorship_returns user_id action uuid t w :
  check_element_type uuid = Returned t →
  ∃ isAuthor isRole,
    rbac.authorization_verify_if_user_is_author user_id action uuid w
      = (Returned isAuthor, w)
    ∧ rbac.authorization_verify_based_on_roles user_id action uuid w
      = (Returned isRole, w)
    ∧ (isRole = true ↔ granted_by_role_of_membership w user_id t action)
    ∧ rbac.authorization_verify_based_on_roles_and_authorship user_id action uuid w
      = (if isAuthor || isRole then Returned true
         else Raised forbidden_roles_and_authorship, w).
Proof.
  intros Ht.
  destruct (roles_returns user_id action uuid t w Ht) as (isRole & HR & Hiff).
  eexists _, isRole. split; [apply is_author_returns|]. split; [done|].
  split; [done|].
  unfold rbac.authorization_verify_based_on_roles_and_authorship.
  erewrite run_bind_returned by apply is_author_returns.
  erewrite run_bind_returned by apply HR.
  by destruct (_ || _).
Qed.

Lemma roles_and_authorship_raises user_id action uuid e w :
  check_element_type uuid = Raised e →
  rbac.authorization_verify_based_on_roles_and_authorship user_id action uuid w
  = (Raised e, w).
Proof.
  intros Ht.
  unfold rbac.authorization_verify_based_on_roles_and_authorship.
  erewrite run_bind_returned by apply is_author_returns.
  erewrite run_bind_raised by (by apply roles_raises). done.
Qed.

Lemma roles_and_authorship_cases user_id action uuid w :
  rbac.authorization_verify_based_on_roles_and_authorship user_id action uuid w
    = (Returned true, w)
  ∨ rbac.authorization_verify_based_on_roles_and_authorship user_id action uuid w
    = (Raised forbidden_roles_and_authorship, w)
  ∨ ∃ e, check_element_type uuid = Raised e
         ∧ rbac.authorization_verify_based_on_roles_and_authorship
             user_id action uuid w = (Raised e, w).
Proof.
  destruct (check_element_type uuid) as [t|e] eqn:Ht.
  - destruct (roles_and_authorship_returns user_id action uuid t w Ht)
      as (isAuthor & isRole & _ & _ & _ & Hrun).
    destruct (isAuthor || isRole); auto.
  - right. right. exists e. split; [done|].
    by apply roles_and_authorship_raises.
Qed.

Lemma record_qualifies_spec user_id ra :
  record_qualifies user_id ra = true ↔
  ResourceAuthor.user_id ra = user_id
  ∧ qualifying_kind (ResourceAuthor.authorship ra)
  ∧ ResourceAuthor.authorship_status ra = ACTIVE.
Proof.
  unfold record_qualifies, qualifying_kind.
  rewrite !andb_true_iff, !orb_true_iff, !bool_decide_eq_true. tauto.
Qed.

Lemma first_author_record_elem w uuid ra :
  first_author_record w uuid = Some ra →
  ra ∈ resourceauthor_tbl w ∧ ResourceAuthor.resource_uuid ra = uuid.
Proof.
  unfold first_author_record. intros Hh.
  assert (Hin : ra ∈ List.filter
    (λ ra, bool_decide (ResourceAuthor.resource_uuid ra = uuid))
    (resourceauthor_tbl w)).
  { destruct (List.filter _ _); simplify_eq/=. apply elem_of_cons. auto. }
  apply list_elem_of_In, filter_In in Hin as [Hin Hb].
  apply bool_decide_eq_true in Hb. split; [by apply list_elem_of_In|done].
Qed.

Lemma is_author_true_holds user_id uuid action w :
  action ≠ create →
  rbac.authorization_verify_if_user_is_author user_id action uuid w
    = (Returned true, w) →
  holds_active_authorship w user_id uuid.
Proof.
  intros Hact. rewrite is_author_returns. intros Heq.
  assert (Hq : match first_author_record w uuid with
               | Some ra => record_qualifies user_id ra
               | None => false
               end = true) by (destruct action; congruence).
  destruct (first_author_record w uuid) as [ra|] eqn:E; [|done].
  apply first_author_record_elem in E as [Hin Hu].
  apply record_qualifies_spec in Hq as (? & ? & ?).
  exists ra. done.
Qed.

Lemma head_filter_None {A} (p : A → bool) (l : list A) :
  (∀ x, x ∈ l → p x = false) → head (List.filter p l) = None.
Proof.
  induction l as [|a l IH]; intros Hall; [done|]. simpl.
  rewrite (Hall a) by apply list_elem_of_here.
  apply IH. intros x Hx. apply Hall. by apply list_elem_of_further.
Qed.

Lemma head_filter_is_Some {A} (p : A → bool) (l : list A) x :
  x ∈ l → p x = true → is_Some (head (List.filter p l)).
Proof.
  intros Hin Hp. assert (Hf : x ∈ List.filter p l).
  { apply list_elem_of_In, filter_In. split; [by apply list_elem_of_In|done]. }
  destruct (List.filter p l); [by apply elem_of_nil in Hf|]. by eexists.
Qed.

Lemma NoDup_fmap_eq {A B} (f : A → B) (l : list A) x y :
  NoDup (f <$> l) → x ∈ l → y ∈ l → f x = f y → x = y.
Proof.
  induction l as [|a l IH]; intros Hnd Hx Hy Hf; [by apply elem_of_nil in Hx|].
  rewrite fmap_cons in Hnd. apply NoDup_cons in Hnd as [Hnot Hnd].
  apply elem_of_cons in Hx as [->|Hx]; apply elem_of_cons in Hy as [->|Hy].
  - done.
  - exfalso. apply Hnot. rewrite Hf. apply list_elem_of_fmap. eauto.
  - exfalso. apply Hnot. rewrite <- Hf. apply list_elem_of_fmap. eauto.
  - by apply IH.
Qed.

(** C3.  Reading as the anonymous subject (id 0) follows the public flag
    of the course: for a course of the store with [public = true] the
    check of [courses.py] returns [True]; for a course with
    [public = false], identifiers of courses being unique, it raises the
    403 error of the public check. *)
Theorem anonymous_read_follows_public_flag
    (w : World) (user : CurrentUser) (course : Course.t) :
  current_user_id user = 0 →
  course ∈ course_tbl w →
  check_element_type (Course.course_uuid course) = Returned "courses" →
  (Course.public course = true →
     courses.rbac_check (Course.course_uuid course) user read w
     = (Returned (Some true), w))
  ∧ (Course.public course = false →
     NoDup (Course.course_uuid <$> course_tbl w) →
     courses.rbac_check (Course.course_uuid course) user read w
     = (Raised forbidden_not_public, w)).
Proof.
  intros Hanon Hin Ht.
  unfold courses.rbac_check. simpl. rewrite bool_decide_eq_true_2 by done.
  unfold rbac.authorization_verify_if_element_is_public. rewrite Ht.
  cbv [lift_outcome mbind M_bind mret M_ret exec_first gets raise]. simpl.
  split.
  - intros Hpub.
    destruct (head_filter_is_Some
      (λ c, Course.public c
            && bool_decide (Course.course_uuid c = Course.course_uuid course))
      (course_tbl w) course Hin) as [c ->]; [|done].
    rewrite Hpub. simpl. by apply bool_decide_eq_true.
  - intros Hpriv Hnd. rewrite head_filter_None; [done|].
    intros c Hc. apply andb_false_iff.
    destruct (decide (Course.course_uuid c = Course.course_uuid course)) as [Heq|Hne].
    + left. rewrite (NoDup_fmap_eq _ _ _ _ Hnd Hc Hin Heq). done.
    + right. by apply bool_decide_eq_false.
Qed.

(** C4.  For the anonymous subject (id 0), every identifier and each of
    the actions create, update and delete, [rbac_check] raises the 403
    error "You should be logged in to perform this action"; this holds
    whatever the store and the classifier of identifiers are, so before
    any role or authorship is looked at, and the store is unchanged. *)
Theorem anonymous_write_denied
    (uuid : string) (user : CurrentUser) (action : Action) (w : World) :
  current_user_id user = 0 →
  action ≠ read →
  courses.rbac_check uuid user action w = (Raised forbidden_anonymous, w)
  ∧ chapters.rbac_check uuid user action w = (Raised forbidden_anonymous, w).
Proof.
  intros Hanon Hact.
  unfold courses.rbac_check, chapters.rbac_check.
  rewrite bool_decide_eq_false_2 by done.
  unfold rbac.authorization_verify_if_user_is_anon.
  rewrite bool_decide_eq_true_2 by done. done.
Qed.

(** C5, amended.  A subject that holds no ACTIVE CREATOR, MAINTAINER or
    CONTRIBUTOR record on resource R and no role, named by any of its
    memberships and global or scoped to the organization of that
    membership, whose permission matrix has the entry for the type of R
    and the action update, is denied the update of R:
    [authorization_verify_based_on_roles_and_authorship] raises its 403
    error instead of returning, and so does [rbac_check].  The
    organization that owns R is not consulted: a role scoped to another
    organization of the subject is a qualifying role. *)
Theorem no_authorship_no_role_denied
    (w : World) (user : CurrentUser) (uuid t : string) :
  check_element_type uuid = Returned t →
  ¬ holds_active_authorship w (current_user_id user) uuid →
  ¬ granted_by_role_of_membership w (current_user_id user) t update →
  rbac.authorization_verify_based_on_roles_and_authorship
    (current_user_id user) update uuid w
  = (Raised forbidden_roles_and_authorship, w)
  ∧ ∃ e, courses.rbac_check uuid user update w = (Raised e, w).
Proof.
  intros Ht Hna Hnr.
  destruct (roles_and_authorship_returns (current_user_id user) update uuid t w Ht)
    as (isAuthor & isRole & HA & HR & Hiff & Hrun).
  assert (isAuthor = false) as ->.
  { destruct isAuthor; [|done]. exfalso. apply Hna.
    apply (is_author_true_holds _ _ update w); [done|exact HA]. }
  assert (isRole = false) as ->.
  { destruct isRole; [|done]. exfalso. apply Hnr. by apply Hiff. }
  simpl in Hrun. split; [done|].
  unfold courses.rbac_check. simpl.
  unfold rbac.authorization_verify_if_user_is_anon.
  case_bool_decide.
  - by eexists.
  - eexists. erewrite run_bind_returned by reflexivity.
    erewrite run_bind_raised by apply Hrun. done.
Qed.

(** C10.  [authorization_verify_based_on_roles_and_authorship] never
    returns [False]: it returns [True], or raises its 403 error, or passes
    on the error of the classifier of identifiers.  So the guard of
    [update_course_contributor] on a falsy result never fires: the
    function is the same as the one that goes from the call straight to
    the rest of its body. *)
Theorem roles_and_authorship_never_returns_false
    (user_id : Z) (action : Action) (uuid : string) (w : World) :
  (∀ w', rbac.authorization_verify_based_on_roles_and_authorship
           user_id action uuid w ≠ (Returned false, w'))
  ∧ (rbac.authorization_verify_based_on_roles_and_authorship
       user_id action uuid w = (Returned true, w)
     ∨ rbac.authorization_verify_based_on_roles_and_authorship
         user_id action uuid w = (Raised forbidden_roles_and_authorship, w)
     ∨ ∃ e, check_element_type uuid = Raised e
            ∧ rbac.authorization_verify_based_on_roles_and_authorship
                user_id action uuid w = (Raised e, w))
  ∧ (∀ contributor_user_id authorship authorship_status current_user,
       contributors.update_course_contributor uuid contributor_user_id
         authorship authorship_status current_user w
       = (rbac.authorization_verify_if_user_is_anon (current_user_id current_user);;
          rbac.authorization_verify_based_on_roles_and_authorship
            (current_user_id current_user) update uuid;;
          contributors.update_course_contributor_authorized uuid
            contributor_user_id authorship authorship_status) w).
Proof.
  pose proof roles_and_authorship_cases as Hcases.
  split; [|split; [apply Hcases|]].
  - intros w' Heq.
    destruct (Hcases user_id action uuid w) as [Hc|[Hc|(e & _ & Hc)]];
      rewrite Hc in Heq; discriminate.
  - intros contributor_user_id authorship authorship_status current_user.
    unfold contributors.update_course_contributor.
    rewrite !run_bind.
    destruct (rbac.authorization_verify_if_user_is_anon _ w) as [[[]|e] w1];
      [|done].
    rewrite !run_bind.
    destruct (Hcases (current_user_id current_user) update uuid w1)
      as [Hc|[Hc|(e & _ & Hc)]]; rewrite Hc; done.
Qed.
(** C2, amended.  The role check returns [True] exactly when some role that
    one of the subject's memberships names, global or scoped to the
    organization of that membership, has the permission-matrix entry for
    the type of the resource and the action set; the organization that owns
    the resource plays no part. *)
Theorem roles_grant_iff_membership_role
    (w : World) (user_id : Z) (action : Action) (uuid t : string) :
  check_element_type uuid = Returned t →
  ∃ b, rbac.authorization_verify_based_on_roles user_id action uuid w
       = (Returned b, w)
       ∧ (b = true ↔ granted_by_role_of_membership w user_id t action).
Proof.
  intros Ht. unfold rbac.authorization_verify_based_on_roles.
  rewrite Ht. eexists. split; [reflexivity|].
  apply existsb_role_grants.
Qed.
End rbac_decisions.


(** ** The authorship record of the creator *)

Section contributor_facts.
Context {env : Environment}.

Lemma update_course_contributor_authorized_creator
    w course_uuid contributor_user_id authorship authorship_status existing :
  contributor_record w course_uuid contributor_user_id = Some existing →
  ResourceAuthor.authorship existing = CREATOR →
  contributors.update_course_contributor_authorized course_uuid
    contributor_user_id authorship authorship_status w
  = (match course_by_uuid w course_uuid with
     | Some _ => Raised cannot_modify_creator
     | None => Raised (HTTPException 404 "Course not found")
     end, w).
Proof.
  unfold contributor_record, course_by_uuid. intros Hrec Hcreator.
  unfold contributors.update_course_contributor_authorized.
  cbv [mbind M_bind exec_first gets raise].
  destruct (head (List.filter _ (course_tbl w))) as [course|]; [|done].
  rewrite Hrec, Hcreator. done.
Qed.

(** C7, amended.  Updating a contributor whose loaded authorship record is
    of kind CREATOR fails and leaves the store, hence the kind, status and
    update date of the record, as it was; when the caller is logged in
    and authorized and the course exists, the error is the one with
    status 400 and detail "Cannot modify the role of the course
    creator". *)
Theorem creator_record_cannot_be_updated
    (w : World) (course_uuid : string) (contributor_user_id : Z)
    (authorship : ResourceAuthorshipEnum)
    (authorship_status : ResourceAuthorshipStatusEnum)
    (current_user : CurrentUser) (existing : ResourceAuthor.t) :
  contributor_record w course_uuid contributor_user_id = Some existing →
  ResourceAuthor.authorship existing = CREATOR →
  (∃ e, contributors.update_course_contributor course_uuid contributor_user_id
          authorship authorship_status current_user w = (Raised e, w))
  ∧ (current_user_id current_user ≠ 0 →
     rbac.authorization_verify_based_on_roles_and_authorship
       (current_user_id current_user) update course_uuid w = (Returned true, w) →
     is_Some (course_by_uuid w course_uuid) →
     contributors.update_course_contributor course_uuid contributor_user_id
       authorship authorship_status current_user w
     = (Raised cannot_modify_creator, w)).
Proof.
  intros Hrec Hcreator.
  pose proof (update_course_contributor_authorized_creator w course_uuid
    contributor_user_id authorship authorship_status existing Hrec Hcreator)
    as Hauth.
  unfold contributors.update_course_contributor.
  unfold rbac.authorization_verify_if_user_is_anon.
  split.
  - case_bool_decide; [eexists; reflexivity|].
    erewrite run_bind_returned by reflexivity.
    rewrite run_bind.
    destruct (roles_and_authorship_cases (current_user_id current_user)
                update course_uuid w) as [Hc|[Hc|(e & _ & Hc)]];
      rewrite Hc; try (eexists; reflexivity).
    simpl. rewrite Hauth. destruct (course_by_uuid w course_uuid); eexists; reflexivity.
  - intros Hne Hok [course Hcourse].
    rewrite bool_decide_eq_false_2 by done.
    erewrite run_bind_returned by reflexivity.
    erewrite run_bind_returned by apply Hok.
    simpl. rewrite Hauth, Hcourse. done.
Qed.
End contributor_facts.

(** ** Running the updates *)

Section update_facts.
Context {env : Environment}.

Lemma rbac_check_run_courses uuid user action w r :
  (courses.rbac_check uuid user action w).1 = Returned r →
  courses.rbac_check uuid user action w = (Returned r, w).
Proof.
  intros Hr. pose proof (readonly_courses_rbac_check uuid user action w) as Hw.
  destruct (courses.rbac_check uuid user action w). simpl in *. congruence.
Qed.

Lemma rbac_check_run_chapters uuid user action w r :
  (chapters.rbac_check uuid user action w).1 = Returned r →
  chapters.rbac_check uuid user action w = (Returned r, w).
Proof.
  intros Hr. pose proof (readonly_chapters_rbac_check uuid user action w) as Hw.
  destruct (chapters.rbac_check uuid user action w). simpl in *. congruence.
Qed.

Lemma update_course_run w course_object course_uuid current_user course r :
  course_by_uuid w course_uuid = Some course →
  (courses.rbac_check (Course.course_uuid course) current_user update w).1
    = Returned r →
  ∃ course' authors,
    courses.update_course course_object course_uuid current_user w
    = (Returned (mkCourseRead course' authors),
       set_course_tbl
         ((λ row, if bool_decide (Course.id row = Course.id course)
                  then course' else row) <$> course_tbl w)
         (set_ticks (S (ticks w)) w))
    ∧ Course.name course' = CourseUpdate.name course_object
    ∧ Course.description course'
      = provided_or (Some <$> CourseUpdate.description course_object)
          (Course.description course)
    ∧ Course.about course'
      = provided_or (Some <$> CourseUpdate.about course_object)
          (Course.about course)
    ∧ Course.learnings course'
      = provided_or (Some <$> CourseUpdate.learnings course_object)
          (Course.learnings course)
    ∧ Course.tags course'
      = provided_or (Some <$> CourseUpdate.tags course_object)
          (Course.tags course)
    ∧ Course.thumbnail_image course'
      = provided_or (Some <$> CourseUpdate.thumbnail_image course_object)
          (Course.thumbnail_image course)
    ∧ Course.public course'
      = provided_or (CourseUpdate.public course_object) (Course.public course)
    ∧ Course.open_to_contributors course'
      = provided_or (CourseUpdate.open_to_contributors course_object)
          (Course.open_to_contributors course)
    ∧ Course.id course' = Course.id course
    ∧ Course.org_id course' = Course.org_id course
    ∧ Course.course_uuid course' = Course.course_uuid course
    ∧ Course.creation_date course' = Course.creation_date course
    ∧ Course.update_date course' = datetime_now_str (ticks w).
Proof.
  unfold course_by_uuid. intros Hc Hr. apply rbac_check_run_courses in Hr.
  unfold courses.update_course.
  erewrite run_bind_returned by (unfold exec_first, gets; rewrite Hc; reflexivity).
  cbv beta iota.
  erewrite run_bind_returned by apply Hr.
  erewrite run_bind_returned by reflexivity.
  set (course' := courses.setattr _ "update_date" _).
  assert (Hfields :
    Course.name course' = CourseUpdate.name course_object
    ∧ Course.description course'
      = provided_or (Some <$> CourseUpdate.description course_object)
          (Course.description course)
    ∧ Course.about course'
      = provided_or (Some <$> CourseUpdate.about course_object)
          (Course.about course)
    ∧ Course.learnings course'
      = provided_or (Some <$> CourseUpdate.learnings course_object)
          (Course.learnings course)
    ∧ Course.tags course'
      = provided_or (Some <$> CourseUpdate.tags course_object)
          (Course.tags course)
    ∧ Course.thumbnail_image course'
      = provided_or (Some <$> CourseUpdate.thumbnail_image course_object)
          (Course.thumbnail_image course)
    ∧ Course.public course'
      = provided_or (CourseUpdate.public course_object) (Course.public course)
    ∧ Course.open_to_contributors course'
      = provided_or (CourseUpdate.open_to_contributors course_object)
          (Course.open_to_contributors course)
    ∧ Course.id course' = Course.id course
    ∧ Course.org_id course' = Course.org_id course
    ∧ Course.course_uuid course' = Course.course_uuid course
    ∧ Course.creation_date course' = Course.creation_date course
    ∧ Course.update_date course' = datetime_now_str (ticks w)).
  { subst course'. clear.
    destruct course, course_object as [n d a l t th p o].
    destruct d, a, l, t, th, p as [[]|], o as [[]|]; vm_compute;
      repeat (split; [reflexivity|]); reflexivity. }
  eexists course', _.
  split; [|exact Hfields].
  destruct Hfields as (_ & _ & _ & _ & _ & _ & _ & _ & Hid & _).
  unfold courses.commit_course, course_authors, modify, gets.
  cbv [mbind M_bind mret M_ret]. simpl. rewrite Hid. reflexivity.
Qed.

Lemma head_filter_Some {A} (p : A → bool) (l : list A) x :
  head (List.filter p l) = Some x → x ∈ l ∧ p x = true.
Proof.
  intros Hh. assert (Hin : x ∈ List.filter p l).
  { destruct (List.filter p l); simplify_eq/=. apply list_elem_of_here. }
  apply list_elem_of_In, filter_In in Hin as [Hin Hp].
  split; [by apply list_elem_of_In|done].
Qed.

Lemma readonly_get_chapter chapter_id user :
  readonly (chapters.get_chapter chapter_id user).
Proof.
  unfold chapters.get_chapter.
  pose proof readonly_chapters_rbac_check. solve_readonly.
Qed.

(** The loop over [vars(chapter_object).items()]. *)
Lemma patch_lookup_notin (l : list (string * PyVal)) (o : PyObj) k :
  k ∉ l.*1 →
  foldl (λ (chapter : PyObj) '(var, value),
           if is_not_None value then <[var := value]> chapter else chapter)
        o l !! k = o !! k.
Proof.
  revert o. induction l as [|[k' v'] l IH]; intros o Hk; [done|].
  rewrite fmap_cons in Hk. apply not_elem_of_cons in Hk as [Hne Hk].
  simpl. rewrite IH by done.
  destruct (is_not_None v'); [|done]. by rewrite lookup_insert_ne.
Qed.

Lemma patch_lookup_in (l : list (string * PyVal)) (o : PyObj) k v :
  NoDup l.*1 → (k, v) ∈ l →
  foldl (λ (chapter : PyObj) '(var, value),
           if is_not_None value then <[var := value]> chapter else chapter)
        o l !! k = if is_not_None v then Some v else o !! k.
Proof.
  revert o. induction l as [|[k' v'] l IH]; intros o Hnd Hin;
    [by apply elem_of_nil in Hin|].
  rewrite fmap_cons in Hnd. apply NoDup_cons in Hnd as [Hnot Hnd].
  apply elem_of_cons in Hin as [Heq|Hin]; simpl.
  - simplify_eq. rewrite patch_lookup_notin by done.
    destruct (is_not_None v'); [|done]. by rewrite lookup_insert_eq.
  - assert (k ≠ k').
    { intros ->. apply Hnot. apply list_elem_of_fmap. by exists (k', v). }
    rewrite IH by done.
    destruct (is_not_None v); [done|].
    destruct (is_not_None v'); [|done]. by rewrite lookup_insert_ne.
Qed.

Lemma patch_lookup (chapter_object chapter : PyObj) k :
  foldl (λ (chapter : PyObj) '(var, value),
           if is_not_None value then <[var := value]> chapter else chapter)
        chapter (map_to_list chapter_object) !! k
  = match chapter_object !! k with
    | Some v => if is_not_None v then Some v else chapter !! k
    | None => chapter !! k
    end.
Proof.
  destruct (chapter_object !! k) as [v|] eqn:E.
  - apply patch_lookup_in; [apply NoDup_fst_map_to_list|].
    by apply elem_of_map_to_list.
  - apply patch_lookup_notin. intros Hin.
    apply list_elem_of_fmap in Hin as ([k' v] & -> & Hin).
    apply elem_of_map_to_list in Hin. simpl in E. congruence.
Qed.

Lemma update_chapter_run w chapter_object chapter_id current_user chapter r :
  chapter_by_id w chapter_id = Some chapter →
  (chapters.rbac_check (as_str (getattr chapter "chapter_uuid"))
     current_user update w).1 = Returned r →
  ∃ chapter' : PyObj,
    (chapters.update_chapter chapter_object chapter_id current_user w).2
    = set_chapter_tbl
        ((λ row, if bool_decide (getattr row "id" = PInt chapter_id)
                 then chapter' else row) <$> chapter_tbl w)
        (set_ticks (S (ticks w)) w)
    ∧ (∀ k, k ≠ "update_date" →
         chapter' !! k = match chapter_object !! k with
                         | Some v => if is_not_None v then Some v
                                     else chapter !! k
                         | None => chapter !! k
                         end)
    ∧ chapter' !! "update_date" = Some (PStr (datetime_now_str (ticks w))).
Proof.
  unfold chapter_by_id. intros Hc Hr. apply rbac_check_run_chapters in Hr.
  destruct (head_filter_Some _ _ _ Hc) as [_ Hpk].
  apply bool_decide_eq_true in Hpk.
  unfold chapters.update_chapter.
  erewrite run_bind_returned by (unfold exec_first, gets; rewrite Hc; reflexivity).
  cbv beta iota.
  erewrite run_bind_returned by apply Hr.
  erewrite run_bind_returned by reflexivity.
  erewrite run_bind_returned by reflexivity.
  rewrite readonly_get_chapter. rewrite Hpk.
  eexists. split; [reflexivity|]. split.
  - intros k Hk. rewrite lookup_insert_ne by done. apply patch_lookup.
  - apply lookup_insert_eq.
Qed.
End update_facts.

(** ** Orders of the links of a course *)

Section ordering_facts.

Lemma key_le_trans {A} (key : A → Z) : Transitive (key_le key).
Proof. unfold key_le. intros x y z. lia. Qed.
Lemma key_le_total {A} (key : A → Z) : Total (key_le key).
Proof. unfold key_le. intros x y. lia. Qed.

Lemma StronglySorted_snoc_bound {A} (R : relation A) (l : list A) x :
  StronglySorted R (l ++ [x]) → Forall (λ y, R y x) l.
Proof.
  induction l as [|a l IH]; intros Hs; [constructor|].
  simpl in Hs. apply StronglySorted_inv in Hs as [Hs Hall].
  constructor; [|by apply IH].
  rewrite Forall_app in Hall. destruct Hall as [_ Hx].
  by rewrite Forall_singleton in Hx.
Qed.

Lemma order_by_last_Some {A} (key : A → Z) (rows : list A) x :
  last (order_by key rows) = Some x →
  x ∈ rows ∧ ∀ y, y ∈ rows → key y ≤ key x.
Proof.
  unfold order_by. intros Hlast.
  pose proof (merge_sort_Permutation (key_le key) rows) as Hperm.
  pose proof (@StronglySorted_merge_sort _ (key_le key) _
                (key_le_trans key) (key_le_total key) rows) as Hsorted.
  apply last_Some in Hlast as [l' Heq]. rewrite Heq in Hperm, Hsorted.
  apply StronglySorted_snoc_bound in Hsorted.
  split.
  - rewrite <- Hperm. apply elem_of_app. right. apply list_elem_of_here.
  - intros y Hy. rewrite <- Hperm in Hy. apply elem_of_app in Hy as [Hy|Hy].
    + rewrite Forall_forall in Hsorted. by apply Hsorted.
    + apply list_elem_of_singleton in Hy as ->. lia.
Qed.

Lemma order_by_last_None {A} (key : A → Z) (rows : list A) :
  last (order_by key rows) = None → rows = [].
Proof.
  unfold order_by. intros Hlast. apply last_None in Hlast.
  pose proof (merge_sort_Permutation (key_le key) rows) as Hperm.
  rewrite Hlast in Hperm. symmetry in Hperm. by apply Permutation_nil_r in Hperm.
Qed.

Lemma is_max_unique m m' orders : is_max m orders → is_max m' orders → m = m'.
Proof. intros [Hin Hle] [Hin' Hle']. specialize (Hle _ Hin'). specialize (Hle' _ Hin). lia. Qed.

Lemma dense_snoc orders m :
  dense orders → is_max m orders → dense (orders ++ [m + 1])%list.
Proof.
  intros [first Hperm] [Hin Hle].
  exists first. rewrite length_app. simpl.
  replace (length orders + 1)%nat with (S (length orders)) by lia.
  rewrite seqZ_S.
  remember (length orders) as n eqn:Hn. clear Hn.
  assert (Hm : m ∈ seqZ first (Z.of_nat n)) by (by rewrite <- Hperm).
  apply elem_of_seqZ in Hm.
  assert (Htop : n ≠ 0%nat → first + Z.of_nat n - 1 ∈ orders).
  { intros Hn. rewrite Hperm. apply elem_of_seqZ. lia. }
  assert (m + 1 = first + Z.of_nat n) as ->.
  { destruct n as [|n]; [lia|]. specialize (Htop ltac:(done)).
    apply Hle in Htop. lia. }
  by rewrite Hperm.
Qed.

Lemma dense_singleton o : dense [o].
Proof. exists o. simpl. rewrite seqZ_cons by lia. rewrite seqZ_nil by lia. done. Qed.

End ordering_facts.

(** ** Running [create_chapter] *)

Section create_chapter_facts.
Context {env : Environment}.

Lemma PInt_eq_decide (a b : Z) :
  bool_decide (PInt a = PInt b) = bool_decide (a = b).
Proof. apply bool_decide_ext. split; congruence. Qed.

Lemma course_links_snoc w w' cid link :
  coursechapter_tbl w' = (coursechapter_tbl w ++ [link])%list →
  CourseChapter.course_id link = cid →
  course_links w' cid = (course_links w cid ++ [link])%list.
Proof.
  intros Htbl Hcid. unfold course_links. rewrite Htbl, List.filter_app. simpl.
  by rewrite bool_decide_eq_true_2.
Qed.

Lemma create_chapter_run w chapter_object current_user course cid r :
  getattr chapter_object "course_id" = PInt cid →
  List.filter (λ c, bool_decide (Course.id c = cid)) (course_tbl w) = [course] →
  (chapters.rbac_check "chapter_x" current_user create w).1 = Returned r →
  ∃ chapter link w',
    chapters.create_chapter chapter_object current_user w
    = (Returned (mkChapterRead chapter []), w')
    ∧ chapter_tbl w' = (chapter_tbl w ++ [chapter])%list
    ∧ coursechapter_tbl w' = (coursechapter_tbl w ++ [link])%list
    ∧ CourseChapter.course_id link = cid
    ∧ CourseChapter.org_id link = Course.org_id course
    ∧ getattr chapter "id" = PInt (CourseChapter.chapter_id link)
    ∧ (course_links w cid = [] → CourseChapter.order link = 1)
    ∧ (∀ m, is_max m (CourseChapter.order <$> course_links w cid) →
         CourseChapter.order link = m + 1).
Proof.
  intros Hcid Hone Hr. apply rbac_check_run_chapters in Hr.
  unfold chapters.create_chapter. rewrite Hcid.
  erewrite run_bind_returned; cycle 1.
  { unfold exec_one, exec_all. erewrite run_bind_returned; cycle 1.
    { unfold gets.
      rewrite (List.filter_ext _ (λ c, bool_decide (Course.id c = cid)))
        by (intros c; apply PInt_eq_decide).
      rewrite Hone. reflexivity. }
    reflexivity. }
  erewrite run_bind_returned by apply Hr.
  erewrite run_bind_returned by reflexivity.
  erewrite run_bind_returned by reflexivity.
  erewrite run_bind_returned by reflexivity.
  erewrite run_bind_returned; cycle 1.
  { unfold gets. simpl.
    rewrite (List.filter_ext _
               (λ cc, bool_decide (CourseChapter.course_id cc = cid))); cycle 1.
    { intros cc. unfold getattr.
      rewrite !lookup_insert_ne, lookup_insert_eq by done. simpl.
      apply PInt_eq_decide. }
    reflexivity. }
  fold (course_links w cid).
  erewrite run_bind_returned by reflexivity.
  set (last_order := match last (order_by CourseChapter.order (course_links w cid)) with
                     | Some cc => CourseChapter.order cc
                     | None => 0
                     end).
  set (chapter := <["id" := _]> _).
  assert (Hchapter_course : getattr chapter "course_id" = PInt cid).
  { unfold getattr, chapter.
    rewrite !lookup_insert_ne, lookup_insert_eq by done. done. }
  assert (Hchapter_org : getattr chapter "org_id" = PInt (Course.org_id course)).
  { unfold getattr, chapter.
    rewrite !lookup_insert_ne, lookup_insert_eq by done. done. }
  assert (Hchapter_id : ∃ pk, getattr chapter "id" = PInt pk) by
    (eexists; unfold getattr, chapter; by rewrite lookup_insert_eq).
  destruct Hchapter_id as [pk Hpk].
  assert (Hbound : ∀ cc, cc ∈ coursechapter_tbl w →
            CourseChapter.course_id cc = cid →
            CourseChapter.order cc ≠ last_order + 1).
  { intros cc Hin Hc.
    assert (Hl : cc ∈ course_links w cid).
    { apply list_elem_of_In, filter_In. split; [by apply list_elem_of_In|].
      by apply bool_decide_eq_true. }
    subst last_order.
    destruct (last _) as [x|] eqn:Hlast.
    - apply order_by_last_Some in Hlast as [_ Hmax]. specialize (Hmax _ Hl). lia.
    - apply order_by_last_None in Hlast. rewrite Hlast in Hl.
      by apply elem_of_nil in Hl. }
  erewrite run_bind_returned; cycle 1.
  { unfold exec_first, gets. simpl. rewrite head_filter_None; [reflexivity|].
    intros cc Hin. rewrite Hchapter_course, PInt_eq_decide.
    destruct (decide (CourseChapter.course_id cc = cid)) as [Hc|Hc].
    - rewrite (bool_decide_eq_false_2 (CourseChapter.order cc = _))
        by by apply Hbound.
      by rewrite andb_false_r.
    - rewrite (bool_decide_eq_false_2 (CourseChapter.course_id cc = cid)) by done.
      by rewrite andb_false_r. }
  cbv beta iota.
  erewrite run_bind_returned; cycle 1.
  { erewrite run_bind_returned by reflexivity.
    erewrite run_bind_returned by reflexivity.
    reflexivity. }
  rewrite Hchapter_course, Hchapter_org, Hpk. simpl.
  eexists chapter, _, _. split; [reflexivity|]. simpl.
  repeat split; try done.
  - intros Hnil. subst last_order. rewrite Hnil. done.
  - intros m Hm. subst last_order.
    destruct (last _) as [x|] eqn:Hlast.
    + apply order_by_last_Some in Hlast as [Hx Hmax]. simpl. f_equal.
      apply (is_max_unique _ _ (CourseChapter.order <$> course_links w cid)); [|done].
      split.
      * apply list_elem_of_fmap. eauto.
      * intros o Ho. apply list_elem_of_fmap in Ho as (y & -> & Hy). by apply Hmax.
    + apply order_by_last_None in Hlast. rewrite Hlast in Hm.
      destruct Hm as [Hm _]. by apply elem_of_nil in Hm.
Qed.
End create_chapter_facts.

(** ** The loops of the reorder *)

Section loops.
Lemma for_each_run {A} (xs : list A) (body : A → M unit) (g : World → A → World) :
  (∀ x w, body x w = (Returned tt, g w x)) →
  ∀ w, for_each xs body w = (Returned tt, foldl g w xs).
Proof.
  intros Hbody. induction xs as [|x xs IH]; intros w; [done|].
  simpl. erewrite run_bind_returned by apply Hbody. apply IH.
Qed.

Lemma foldl_preserves {A B} (proj : World → B) (g : World → A → World) xs w :
  (∀ w x, proj (g w x) = proj w) → proj (foldl g w xs) = proj w.
Proof.
  intros Hg. revert w. induction xs as [|x xs IH]; intros w; [done|].
  simpl. rewrite IH. apply Hg.
Qed.

Lemma for_each_frame {A B} (proj : World → B) (xs : list A) (body : A → M unit) :
  (∀ x w, ∃ w', body x w = (Returned tt, w') ∧ proj w' = proj w) →
  ∀ w, ∃ w', for_each xs body w = (Returned tt, w') ∧ proj w' = proj w.
Proof.
  intros Hbody. induction xs as [|x xs IH]; intros w; [by exists w|].
  destruct (Hbody x w) as (w1 & Hrun & Hproj).
  destruct (IH w1) as (w2 & Hrun2 & Hproj2).
  exists w2. simpl. erewrite run_bind_returned by apply Hrun.
  split; [done|]. congruence.
Qed.
End loops.

Section reorder_chapters.
Context {env : Environment}.

Lemma next_id_fresh (ids : list Z) : next_id ids ∉ ids.
Proof.
  assert (Hle : ∀ i, i ∈ ids → i ≤ foldr Z.max 0 ids).
  { induction ids as [|a ids IH]; intros i Hi; [by apply elem_of_nil in Hi|].
    simpl. apply elem_of_cons in Hi as [->|Hi]; [lia|].
    specialize (IH _ Hi). lia. }
  intros Hin. apply Hle in Hin. unfold next_id in Hin. lia.
Qed.

Lemma with_order_with_order o o' cc :
  CourseChapter.with_order o (CourseChapter.with_order o' cc)
  = CourseChapter.with_order o cc.
Proof. by destruct cc. Qed.

Lemma with_order_same cc :
  CourseChapter.with_order (CourseChapter.order cc) cc = cc.
Proof. by destruct cc. Qed.

Lemma place_chapter_tbl_Some m course w item course_chapter :
  m !! co_chapter_id item.2 = Some course_chapter →
  coursechapter_tbl (place_chapter m course w item)
  = (λ row, if bool_decide (CourseChapter.id row = CourseChapter.id course_chapter)
            then CourseChapter.with_order item.1 row else row)
    <$> coursechapter_tbl w.
Proof. intros Hlook. unfold place_chapter. by rewrite Hlook. Qed.

Lemma place_chapter_tbl_None m course w item :
  m !! co_chapter_id item.2 = None →
  coursechapter_tbl (place_chapter m course w item)
  = coursechapter_tbl w
    ++ [CourseChapter.mk (next_id (CourseChapter.id <$> coursechapter_tbl w))
          (Course.id course) (co_chapter_id item.2) (Course.org_id course)
          (datetime_now_str (ticks w)) (datetime_now_str (S (ticks w)))
          item.1].
Proof. intros Hlook. unfold place_chapter. by rewrite Hlook. Qed.

Lemma placed_order_cons_Some m item items cc course_chapter :
  m !! co_chapter_id item.2 = Some course_chapter →
  placed_order m (item :: items) cc
  = placed_order m items
      (if bool_decide (CourseChapter.id cc = CourseChapter.id course_chapter)
       then CourseChapter.with_order item.1 cc else cc).
Proof.
  intros Hlook. unfold placed_order. simpl. rewrite Hlook.
  case_bool_decide; [|done]. by destruct cc.
Qed.

Lemma placed_order_cons_None m item items cc :
  m !! co_chapter_id item.2 = None →
  placed_order m (item :: items) cc = placed_order m items cc.
Proof. intros Hlook. unfold placed_order. simpl. by rewrite Hlook. Qed.

Lemma placed_order_untouched m items cc :
  (∀ c course_chapter, m !! c = Some course_chapter →
     CourseChapter.id course_chapter ≠ CourseChapter.id cc) →
  placed_order m items cc = CourseChapter.order cc.
Proof.
  intros Hm. unfold placed_order.
  induction items as [|item items IH] using rev_ind; [done|].
  rewrite foldl_app. simpl. rewrite IH.
  destruct (m !! co_chapter_id item.2) as [cc0|] eqn:Hlook; [|done].
  rewrite bool_decide_eq_false_2; [done|]. intros Heq. by eapply Hm.
Qed.

(** The table after the first loop: the loaded rows with their new orders,
    followed by the rows created for the chapters that had no link. *)
Lemma place_chapters_table m course items w :
  (∀ c cc, m !! c = Some cc →
     CourseChapter.id cc ∈ CourseChapter.id <$> coursechapter_tbl w) →
  ∃ news,
    coursechapter_tbl (foldl (place_chapter m course) w items)
    = ((λ cc, CourseChapter.with_order (placed_order m items cc) cc)
         <$> coursechapter_tbl w) ++ news
    ∧ link_pairs news
      = (λ item : Z * ChapterOrder, (co_chapter_id item.2, item.1))
        <$> List.filter (λ item : Z * ChapterOrder,
                           bool_decide (m !! co_chapter_id item.2 = None)) items
    ∧ Forall (λ row, selects_link course row = true
                     ∧ CourseChapter.id row ∉ CourseChapter.id <$> coursechapter_tbl w)
             news.
Proof.
  revert w. induction items as [|item items IH]; intros w Hm.
  - exists []. simpl. split; [|done].
    rewrite app_nil_r. unfold placed_order. simpl.
    rewrite <- (list_fmap_id (coursechapter_tbl w)) at 1.
    apply list_fmap_ext. intros ? cc _. simpl. by rewrite with_order_same.
  - simpl foldl.
    destruct (m !! co_chapter_id item.2) as [course_chapter|] eqn:Hlook.
    + assert (Hids : CourseChapter.id <$> coursechapter_tbl (place_chapter m course w item)
                     = CourseChapter.id <$> coursechapter_tbl w).
      { rewrite (place_chapter_tbl_Some _ _ _ _ _ Hlook), <- list_fmap_compose.
        apply list_fmap_ext. intros ? row _. simpl. by case_bool_decide. }
      destruct (IH (place_chapter m course w item)) as (news & Htbl & Hpairs & Hnews).
      { intros c cc Hc. rewrite Hids. by eapply Hm. }
      exists news. rewrite Htbl, Hids in *.
      rewrite (place_chapter_tbl_Some _ _ _ _ _ Hlook).
      split; [|split; [|done]].
      * f_equal. rewrite <- list_fmap_compose. apply list_fmap_ext.
        intros ? row _. simpl.
        rewrite (placed_order_cons_Some _ _ _ _ _ Hlook).
        case_bool_decide; [|done]. by rewrite with_order_with_order.
      * rewrite Hpairs. simpl. rewrite bool_decide_eq_false_2 by congruence. done.
    + set (new := CourseChapter.mk (next_id (CourseChapter.id <$> coursechapter_tbl w))
          (Course.id course) (co_chapter_id item.2) (Course.org_id course)
          (datetime_now_str (ticks w)) (datetime_now_str (S (ticks w)))
          item.1).
      assert (Hfresh : CourseChapter.id new ∉ CourseChapter.id <$> coursechapter_tbl w)
        by apply next_id_fresh.
      assert (Hnew : CourseChapter.with_order (placed_order m items new) new = new).
      { rewrite placed_order_untouched; [apply with_order_same|].
        intros c cc Hc Heq. apply Hfresh. rewrite <- Heq. by eapply Hm. }
      destruct (IH (place_chapter m course w item)) as (news & Htbl & Hpairs & Hnews).
      { intros c cc Hc. rewrite (place_chapter_tbl_None _ _ _ _ Hlook).
        rewrite fmap_app. apply elem_of_app. left. by eapply Hm. }
      rewrite (place_chapter_tbl_None _ _ _ _ Hlook) in Htbl, Hnews.
      fold new in Htbl, Hnews.
      rewrite fmap_app in Htbl. simpl in Htbl. rewrite Hnew in Htbl.
      exists (new :: news). rewrite Htbl. rewrite <- app_assoc. simpl.
      split; [|split].
      * f_equal. apply list_fmap_ext. intros ? row _. simpl.
        by rewrite (placed_order_cons_None _ _ _ _ Hlook).
      * rewrite bool_decide_eq_true_2 by done. simpl. f_equal. exact Hpairs.
      * constructor.
        -- split; [|done].
           unfold selects_link. simpl. by rewrite !bool_decide_eq_true_2.
        -- eapply Forall_impl; [exact Hnews|]. intros row [Hsel Hfresh'].
           split; [done|]. intros Hin. apply Hfresh'.
           rewrite fmap_app. apply elem_of_app. by left.
Qed.

Lemma placed_order_miss m items cc :
  (∀ item course_chapter, item ∈ items →
     m !! co_chapter_id item.2 = Some course_chapter →
     CourseChapter.id course_chapter ≠ CourseChapter.id cc) →
  placed_order m items cc = CourseChapter.order cc.
Proof.
  intros Hm. unfold placed_order.
  induction items as [|item items IH] using rev_ind; [done|].
  rewrite foldl_app. simpl. rewrite IH.
  - destruct (m !! co_chapter_id item.2) as [cc0|] eqn:Hlook; [|done].
    rewrite bool_decide_eq_false_2; [done|]. intros Heq.
    eapply (Hm item); [|exact Hlook|done].
    apply elem_of_app. right. apply list_elem_of_here.
  - intros item' cc' Hin. apply Hm. apply elem_of_app. by left.
Qed.

Lemma placed_order_hit m items cc index chapter_order course_chapter :
  NoDup ((λ item : Z * ChapterOrder, co_chapter_id item.2) <$> items) →
  (index, chapter_order) ∈ items →
  m !! co_chapter_id chapter_order = Some course_chapter →
  CourseChapter.id course_chapter = CourseChapter.id cc →
  (∀ c cc', m !! c = Some cc' → CourseChapter.id cc' = CourseChapter.id cc →
     c = co_chapter_id chapter_order) →
  placed_order m items cc = index.
Proof.
  intros Hnd Hin Hlook Hid Huniq. revert cc Hid Huniq.
  induction items as [|item items IH]; intros cc Hid Huniq;
    [by apply elem_of_nil in Hin|].
  rewrite fmap_cons in Hnd. apply NoDup_cons in Hnd as [Hhead Hnd].
  apply elem_of_cons in Hin as [<-|Hin].
  - rewrite (placed_order_cons_Some m (index, chapter_order) items cc _ Hlook).
    rewrite bool_decide_eq_true_2 by done.
    rewrite placed_order_miss; [by destruct cc|].
    intros item' cc' Hin' Hlook' Heq. simpl in *.
    apply Hhead. apply list_elem_of_fmap. exists item'. split; [|done].
    symmetry. apply (Huniq _ cc'); [done|].
    rewrite Heq. by destruct cc.
  - assert (Hne : co_chapter_id item.2 ≠ co_chapter_id chapter_order).
    { intros Heq. apply Hhead. apply list_elem_of_fmap.
      exists (index, chapter_order). done. }
    destruct (m !! co_chapter_id item.2) as [cc1|] eqn:Hlook1.
    + rewrite (placed_order_cons_Some _ _ _ _ _ Hlook1).
      rewrite bool_decide_eq_false_2; [by apply IH|].
      intros Heq. apply Hne. by apply (Huniq _ cc1).
    + rewrite (placed_order_cons_None _ _ _ _ Hlook1). by apply IH.
Qed.

Lemma chapter_map_lookup_Some existing c cc :
  chapter_map existing !! c = Some cc →
  cc ∈ existing ∧ CourseChapter.chapter_id cc = c.
Proof.
  unfold chapter_map.
  induction existing as [|x existing IH] using rev_ind; [done|].
  rewrite foldl_app. simpl. intros Hlook.
  destruct (decide (CourseChapter.chapter_id x = c)) as [Heq|Hne].
  - subst c. rewrite lookup_insert_eq in Hlook. simplify_eq.
    split; [|done]. apply elem_of_app. right. apply list_elem_of_here.
  - rewrite lookup_insert_ne in Hlook by done.
    destruct (IH Hlook) as [Hin Hc]. split; [|done].
    apply elem_of_app. by left.
Qed.

Lemma chapter_map_lookup_None existing c :
  c ∉ CourseChapter.chapter_id <$> existing →
  chapter_map existing !! c = None.
Proof.
  intros Hnot. destruct (chapter_map existing !! c) as [cc|] eqn:Hlook; [|done].
  apply chapter_map_lookup_Some in Hlook as [Hin Hc]. exfalso. apply Hnot.
  apply list_elem_of_fmap. eauto.
Qed.

Lemma chapter_map_lookup_elem existing cc :
  NoDup (CourseChapter.chapter_id <$> existing) →
  cc ∈ existing →
  chapter_map existing !! CourseChapter.chapter_id cc = Some cc.
Proof.
  unfold chapter_map.
  induction existing as [|x existing IH] using rev_ind;
    intros Hnd Hin; [by apply elem_of_nil in Hin|].
  rewrite foldl_app. simpl.
  rewrite fmap_app in Hnd. apply NoDup_app in Hnd as (Hnd & Hdisj & _).
  apply elem_of_app in Hin as [Hin|Hin].
  - rewrite lookup_insert_ne; [by apply IH|].
    intros Heq. apply (Hdisj (CourseChapter.chapter_id cc)).
    + apply list_elem_of_fmap. eauto.
    + simpl. rewrite Heq. apply list_elem_of_here.
  - apply list_elem_of_singleton in Hin as ->. by rewrite lookup_insert_eq.
Qed.

Lemma filter_filter_list {A} (p q : A → bool) (l : list A) :
  List.filter p (List.filter q l) = List.filter (λ x, q x && p x) l.
Proof.
  induction l as [|x l IH]; [done|]. simpl.
  destruct (q x); simpl; [|done]. destruct (p x); by rewrite IH.
Qed.

Lemma filter_all {A} (p : A → bool) (l : list A) :
  (∀ x, x ∈ l → p x = true) → List.filter p l = l.
Proof.
  induction l as [|x l IH]; intros Hall; [done|]. simpl.
  rewrite (Hall x) by apply list_elem_of_here. f_equal. apply IH.
  intros y Hy. apply Hall. by apply list_elem_of_further.
Qed.

Lemma drop_chapters_table keep existing w :
  coursechapter_tbl (foldl (drop_chapter keep) w existing)
  = List.filter
      (λ row, negb (bool_decide (CourseChapter.id row ∈ dropped_ids keep existing)))
      (coursechapter_tbl w).
Proof.
  revert w. induction existing as [|cc existing IH]; intros w.
  - simpl. symmetry. apply filter_all. intros row _.
    unfold dropped_ids. simpl. done.
  - simpl. rewrite IH. unfold drop_chapter, dropped_ids. simpl.
    case_bool_decide as Hkeep; simpl.
    + rewrite filter_filter_list. apply List.filter_ext. intros row.
      rewrite <- negb_orb. f_equal.
      destruct (decide (CourseChapter.id row = CourseChapter.id cc)) as [Heq|Hne].
      * rewrite (bool_decide_eq_true_2 (CourseChapter.id row = _)) by done.
        simpl. symmetry. apply bool_decide_eq_true_2.
        rewrite Heq. apply list_elem_of_here.
      * rewrite (bool_decide_eq_false_2 (CourseChapter.id row = _)) by done. simpl.
        apply bool_decide_ext. rewrite elem_of_cons. split; [auto|].
        intros [?|?]; done.
    + done.
Qed.

Lemma enumerate_snd {A} (xs : list A) : (enumerate xs).*2 = xs.
Proof.
  unfold enumerate. rewrite fmap_imap.
  induction xs as [|x xs IH] using rev_ind; [done|].
  rewrite imap_app. simpl. by rewrite IH.
Qed.

Lemma reorder_run w course_uuid chapters_order current_user course r :
  course_by_uuid w course_uuid = Some course →
  (chapters.rbac_check (Course.course_uuid course) current_user update w).1
    = Returned r →
  ∃ w',
    chapters.reorder_chapters_and_activities course_uuid chapters_order
      current_user w
    = (Returned [("detail", "Chapters and activities reordered successfully")], w')
    ∧ coursechapter_tbl w'
      = coursechapter_tbl
          (foldl (drop_chapter
                    (list_to_set (co_chapter_id <$> chapter_order_by_ids chapters_order)))
             (foldl (place_chapter (chapter_map (existing_links w course)) course)
                w (enumerate (chapter_order_by_ids chapters_order)))
             (existing_links w course)).
Proof.
  unfold course_by_uuid. intros Hc Hr. apply rbac_check_run_chapters in Hr.
  unfold chapters.reorder_chapters_and_activities.
  erewrite run_bind_returned by (unfold exec_first, gets; rewrite Hc; reflexivity).
  cbv beta iota.
  erewrite run_bind_returned by apply Hr.
  erewrite run_bind_returned by reflexivity.
  fold (selects_link course). fold (existing_links w course).
  fold (chapter_map (existing_links w course)).
  erewrite run_bind_returned; cycle 1.
  { apply (for_each_run _ _ (place_chapter (chapter_map (existing_links w course)) course)).
    intros [index chapter_order] w0. unfold place_chapter. simpl.
    destruct (_ !! _); reflexivity. }
  erewrite run_bind_returned; cycle 1.
  { apply (for_each_run _ _ (drop_chapter (list_to_set
            (co_chapter_id <$> chapter_order_by_ids chapters_order)))).
    intros cc w0. unfold drop_chapter. case_bool_decide; reflexivity. }
  set (w2 := foldl (drop_chapter _) _ _).
  erewrite run_bind_returned by reflexivity.
  match goal with
  | |- context [for_each ?xs ?body ≫= ?k] =>
      destruct (for_each_frame coursechapter_tbl xs body) with (w := w2)
        as (w3 & Hrun3 & Hframe3)
  end.
  { intros chapter_order w0.
    apply (for_each_frame coursechapter_tbl).
    intros [index activity_order] w1.
    destruct (_ !! _); eexists; (split; [reflexivity|done]). }
  erewrite run_bind_returned by apply Hrun3.
  match goal with
  | |- context [for_each ?xs ?body ≫= ?k] =>
      destruct (for_each_frame coursechapter_tbl xs body) with (w := w3)
        as (w4 & Hrun4 & Hframe4)
  end.
  { intros ca w0. case_bool_decide; eexists; (split; [reflexivity|done]). }
  erewrite run_bind_returned by apply Hrun4.
  exists w4. split; [reflexivity|]. congruence.
Qed.
End reorder_chapters.

(** ** The table after the reorder *)

Section reorder_result.
Context {env : Environment}.
Variables (w : World) (course : Course.t) (chapters_order : ChapterUpdateOrder).
Hypothesis primary_key : NoDup (CourseChapter.id <$> coursechapter_tbl w).
Hypothesis one_link_per_chapter :
  NoDup (CourseChapter.chapter_id <$> existing_links w course).
Hypothesis submitted_once :
  NoDup (co_chapter_id <$> chapter_order_by_ids chapters_order).

Local Abbreviation T := (coursechapter_tbl w).
Local Abbreviation E := (existing_links w course).
Local Abbreviation m := (chapter_map (existing_links w course)).
Local Abbreviation items := (enumerate (chapter_order_by_ids chapters_order)).
Local Abbreviation keep :=
  (list_to_set (co_chapter_id <$> chapter_order_by_ids chapters_order) : gset Z).
Local Abbreviation T' :=
  (coursechapter_tbl
     (foldl (drop_chapter keep) (foldl (place_chapter m course) w items) E)).
Local Abbreviation upd := (placed m items).

Local Lemma E_elem cc : cc ∈ E ↔ cc ∈ T ∧ selects_link course cc = true.
Proof.
  unfold existing_links. rewrite list_elem_of_In, filter_In, <- list_elem_of_In.
  done.
Qed.

Local Lemma T_inj x y :
  x ∈ T → y ∈ T → CourseChapter.id x = CourseChapter.id y → x = y.
Proof. apply NoDup_fmap_eq, primary_key. Qed.

Local Lemma m_Some c cc : m !! c = Some cc → cc ∈ E ∧ CourseChapter.chapter_id cc = c.
Proof. apply chapter_map_lookup_Some. Qed.

Local Lemma m_elem cc : cc ∈ E → m !! CourseChapter.chapter_id cc = Some cc.
Proof. by apply chapter_map_lookup_elem. Qed.

Local Lemma items_ids :
  (λ item : Z * ChapterOrder, co_chapter_id item.2) <$> items
  = co_chapter_id <$> chapter_order_by_ids chapters_order.
Proof.
  rewrite <- (enumerate_snd (chapter_order_by_ids chapters_order)) at 2.
  by rewrite <- list_fmap_compose.
Qed.

Local Lemma keep_elem c :
  c ∈ keep ↔ ∃ item, item ∈ items ∧ co_chapter_id item.2 = c.
Proof.
  rewrite elem_of_list_to_set, <- items_ids, list_elem_of_fmap.
  split; intros (item & ? & ?); eauto.
Qed.

Local Lemma dropped_elem i :
  i ∈ dropped_ids keep E ↔
  ∃ e, e ∈ E ∧ (CourseChapter.chapter_id e ∉ keep) ∧ CourseChapter.id e = i.
Proof.
  unfold dropped_ids. rewrite list_elem_of_fmap. split.
  - intros (e & -> & Hin). apply list_elem_of_In, filter_In in Hin as [Hin Hk].
    apply bool_decide_eq_true in Hk. exists e. by rewrite list_elem_of_In.
  - intros (e & Hin & Hk & <-). exists e. split; [done|].
    apply list_elem_of_In, filter_In. split; [by apply list_elem_of_In|].
    by apply bool_decide_eq_true.
Qed.

Local Lemma placed_hit cc item :
  cc ∈ E → item ∈ items → co_chapter_id item.2 = CourseChapter.chapter_id cc →
  placed_order m items cc = item.1.
Proof.
  intros Hcc Hitem Hid. destruct item as [index chapter_order]. simpl in *.
  apply (placed_order_hit m items cc index chapter_order cc).
  - rewrite items_ids. exact submitted_once.
  - done.
  - rewrite Hid. by apply m_elem.
  - done.
  - intros c cc' Hlook Heq. apply m_Some in Hlook as [Hin' <-].
    rewrite Hid. f_equal. apply T_inj; [by apply E_elem|by apply E_elem|done].
Qed.

Local Lemma placed_miss cc :
  cc ∈ T → (cc ∉ E ∨ CourseChapter.chapter_id cc ∉ keep) →
  placed_order m items cc = CourseChapter.order cc.
Proof.
  intros Hcc Hor. apply placed_order_miss. intros item cc' Hitem Hlook Heq.
  apply m_Some in Hlook as [Hin' Hc].
  assert (cc' = cc) as -> by (apply T_inj; [by apply E_elem|done|done]).
  destruct Hor as [Hnot|Hnot]; [done|].
  apply Hnot. apply keep_elem. eauto.
Qed.

Local Lemma table_shape :
  ∃ news,
    T' = List.filter
           (λ row, negb (bool_decide (CourseChapter.id row ∈ dropped_ids keep E)))
           ((upd <$> T) ++ news)
    ∧ link_pairs news
      = (λ item : Z * ChapterOrder, (co_chapter_id item.2, item.1))
        <$> List.filter (λ item : Z * ChapterOrder,
                           bool_decide (m !! co_chapter_id item.2 = None)) items
    ∧ Forall (λ row, selects_link course row = true
                     ∧ CourseChapter.id row ∉ CourseChapter.id <$> T) news.
Proof.
  destruct (place_chapters_table m course items w) as (news & Htbl & Hpairs & Hnews).
  { intros c cc Hlook. apply m_Some in Hlook as [Hin _].
    apply list_elem_of_fmap. exists cc. split; [done|]. by apply E_elem. }
  exists news. rewrite drop_chapters_table, Htbl. done.
Qed.

Local Lemma dropped_in_T i : i ∈ dropped_ids keep E → i ∈ CourseChapter.id <$> T.
Proof.
  intros (e & He & _ & <-)%dropped_elem. apply list_elem_of_fmap.
  exists e. split; [done|]. by apply E_elem.
Qed.

Local Lemma upd_id cc : CourseChapter.id (upd cc) = CourseChapter.id cc.
Proof. by destruct cc. Qed.
Local Lemma upd_selects cc : selects_link course (upd cc) = selects_link course cc.
Proof. by destruct cc. Qed.
Local Lemma upd_chapter cc :
  CourseChapter.chapter_id (upd cc) = CourseChapter.chapter_id cc.
Proof. by destruct cc. Qed.

Local Lemma T'_elem row :
  row ∈ T' →
  (CourseChapter.id row ∉ dropped_ids keep E)
  ∧ ((∃ x, x ∈ T ∧ row = upd x)
     ∨ (selects_link course row = true
        ∧ CourseChapter.id row ∉ CourseChapter.id <$> T)).
Proof.
  destruct table_shape as (news & -> & _ & Hnews).
  intros Hin. apply list_elem_of_In, filter_In in Hin as [Hin Hd].
  apply negb_true_iff, bool_decide_eq_false in Hd. split; [done|].
  apply list_elem_of_In, elem_of_app in Hin as [Hin|Hin].
  - left. apply list_elem_of_fmap in Hin as (x & -> & Hx). eauto.
  - right. rewrite Forall_forall in Hnews. by apply Hnews.
Qed.

(** Links left out of the request are deleted. *)
Lemma reorder_deletes cc :
  cc ∈ E → CourseChapter.chapter_id cc ∉ keep →
  CourseChapter.id cc ∉ CourseChapter.id <$> T'.
Proof.
  intros Hcc Hk Hin. apply list_elem_of_fmap in Hin as (row & Hid & Hrow).
  apply T'_elem in Hrow as [Hd _]. apply Hd. apply dropped_elem.
  exists cc. done.
Qed.

(** Loaded links of submitted chapters are updated in place. *)
Lemma reorder_updates cc item :
  cc ∈ E → item ∈ items → co_chapter_id item.2 = CourseChapter.chapter_id cc →
  CourseChapter.with_order item.1 cc ∈ T'.
Proof.
  intros Hcc Hitem Hid.
  destruct table_shape as (news & -> & _ & _).
  apply list_elem_of_In, filter_In. split.
  - apply list_elem_of_In, elem_of_app. left. apply list_elem_of_fmap.
    exists cc. split; [|by apply E_elem].
    unfold placed. by rewrite (placed_hit cc item).
  - apply negb_true_iff, bool_decide_eq_false.
    intros (e & He & Hk & Heq)%dropped_elem.
    assert (e = cc) as ->.
    { apply T_inj; [by apply E_elem|by apply E_elem|]. by destruct cc. }
    apply Hk. apply keep_elem. eauto.
Qed.

(** Submitted chapters without a loaded link get a new link. *)
Lemma reorder_inserts item :
  item ∈ items →
  co_chapter_id item.2 ∉ CourseChapter.chapter_id <$> E →
  ∃ row, row ∈ T'
         ∧ CourseChapter.chapter_id row = co_chapter_id item.2
         ∧ CourseChapter.order row = item.1
         ∧ CourseChapter.course_id row = Course.id course
         ∧ CourseChapter.org_id row = Course.org_id course
         ∧ CourseChapter.id row ∉ CourseChapter.id <$> T.
Proof.
  intros Hitem Hnot.
  destruct table_shape as (news & -> & Hpairs & Hnews).
  assert (Hpair : (co_chapter_id item.2, item.1) ∈ link_pairs news).
  { rewrite Hpairs. apply list_elem_of_fmap. exists item. split; [done|].
    apply list_elem_of_In, filter_In. split; [by apply list_elem_of_In|].
    apply bool_decide_eq_true. by apply chapter_map_lookup_None. }
  apply list_elem_of_fmap in Hpair as (row & Heq & Hrow).
  rewrite Forall_forall in Hnews. destruct (Hnews _ Hrow) as [Hsel Hfresh].
  unfold selects_link in Hsel. apply andb_true_iff in Hsel as [Hc Ho].
  apply bool_decide_eq_true in Hc, Ho.
  exists row. injection Heq as Heq1 Heq2. repeat split; try done.
  apply list_elem_of_In, filter_In. split.
  - apply list_elem_of_In, elem_of_app. by right.
  - apply negb_true_iff, bool_decide_eq_false. intros Hd.
    by apply Hfresh, dropped_in_T.
Qed.

Local Lemma filter_none {A} (p : A → bool) (l : list A) :
  (∀ x, x ∈ l → p x = false) → List.filter p l = [].
Proof.
  induction l as [|x l IH]; intros Hall; [done|]. simpl.
  rewrite (Hall x) by apply list_elem_of_here.
  apply IH. intros y Hy. apply Hall. by apply list_elem_of_further.
Qed.

Local Lemma filter_fmap_select {A} (p r : A → bool) (f : A → A) (l : list A) :
  (∀ x, x ∈ l → p (f x) = r x) →
  List.filter p (f <$> l) = f <$> List.filter r l.
Proof.
  induction l as [|x l IH]; intros Hall; [done|].
  rewrite fmap_cons. cbn [List.filter].
  rewrite (Hall x) by apply list_elem_of_here.
  rewrite IH by (intros y Hy; apply Hall; by apply list_elem_of_further).
  by destruct (r x).
Qed.

Local Lemma filter_fmap_fixed {A} (p : A → bool) (f : A → A) (l : list A) :
  (∀ x, x ∈ l → p x = true → f x = x) →
  f <$> List.filter p l = List.filter p l.
Proof.
  induction l as [|x l IH]; intros Hall; [done|]. cbn [List.filter].
  assert (IH' := IH (λ y Hy, Hall y (list_elem_of_further _ _ _ Hy))).
  destruct (p x) eqn:Hp; [|done]. rewrite fmap_cons, IH'. f_equal.
  apply Hall; [apply list_elem_of_here|done].
Qed.

Local Lemma kept_row x :
  x ∈ T →
  negb (bool_decide (CourseChapter.id x ∈ dropped_ids keep E))
  = negb (selects_link course x) || bool_decide (CourseChapter.chapter_id x ∈ keep).
Proof.
  intros Hx. destruct (selects_link course x) eqn:Hsel; simpl.
  - destruct (decide (CourseChapter.chapter_id x ∈ keep)) as [Hk|Hk].
    + rewrite (bool_decide_eq_true_2 _ Hk). apply negb_true_iff, bool_decide_eq_false.
      intros (e & He & Hk' & Heq)%dropped_elem.
      assert (e = x) as -> by (apply T_inj; [by apply E_elem|done|done]). done.
    + rewrite (bool_decide_eq_false_2 _ Hk). apply negb_false_iff, bool_decide_eq_true.
      apply dropped_elem. exists x. split; [by apply E_elem|done].
  - apply negb_true_iff, bool_decide_eq_false.
    intros (e & He & Hk' & Heq)%dropped_elem.
    assert (e = x) as -> by (apply T_inj; [by apply E_elem|done|done]).
    apply E_elem in He as [_ He]. congruence.
Qed.

(** Rows that are not links of the course under its organization are left
    as they were. *)
Lemma reorder_frame :
  List.filter (λ row, negb (selects_link course row)) T'
  = List.filter (λ row, negb (selects_link course row)) T.
Proof.
  destruct table_shape as (news & -> & _ & Hnews).
  rewrite filter_filter_list, List.filter_app.
  rewrite (filter_none _ news); cycle 1.
  { intros row Hrow. rewrite Forall_forall in Hnews.
    destruct (Hnews _ Hrow) as [-> _]. simpl. by rewrite andb_false_r. }
  rewrite app_nil_r.
  rewrite (filter_fmap_select _ (λ row, negb (selects_link course row))); cycle 1.
  { intros x Hx. cbv beta. rewrite upd_id, upd_selects, (kept_row x Hx).
    destruct (selects_link course x); simpl; [by rewrite andb_false_r|done]. }
  apply filter_fmap_fixed. intros x Hx Hsel. apply negb_true_iff in Hsel.
  unfold placed. rewrite placed_miss; [by destruct x|done|].
  left. intros He. apply E_elem in He as [_ He]. congruence.
Qed.

Local Lemma existing_after :
  ∃ news,
    List.filter (selects_link course) T'
    = (upd <$> List.filter
                 (λ row, bool_decide (CourseChapter.chapter_id row ∈ keep)) E)
      ++ news
    ∧ link_pairs news
      = (λ item : Z * ChapterOrder, (co_chapter_id item.2, item.1))
        <$> List.filter (λ item : Z * ChapterOrder,
                           bool_decide (m !! co_chapter_id item.2 = None)) items.
Proof.
  destruct table_shape as (news & -> & Hpairs & Hnews).
  exists news. split; [|done].
  rewrite filter_filter_list, List.filter_app. f_equal.
  - rewrite (filter_fmap_select _
      (λ row, selects_link course row
              && bool_decide (CourseChapter.chapter_id row ∈ keep))); cycle 1.
    { intros x Hx. cbv beta. rewrite upd_id, upd_selects, (kept_row x Hx).
      destruct (selects_link course x), (bool_decide _); done. }
    unfold existing_links. by rewrite filter_filter_list.
  - apply filter_all. intros row Hrow. rewrite Forall_forall in Hnews.
    destruct (Hnews _ Hrow) as [-> Hfresh]. rewrite andb_true_r.
    apply negb_true_iff, bool_decide_eq_false. intros Hd.
    by apply Hfresh, dropped_in_T.
Qed.

Local Lemma filter_split_perm {A} (p : A → bool) (l : list A) :
  l ≡ₚ List.filter (λ x, negb (p x)) l ++ List.filter p l.
Proof.
  induction l as [|x l IH]; [done|]. simpl.
  destruct (p x); simpl.
  - rewrite <- Permutation_middle. by constructor.
  - by constructor.
Qed.

(** After the reorder the links of the course give each submitted chapter
    its index in the request, and nothing else. *)
Lemma reorder_positions :
  link_pairs (List.filter (selects_link course) T') ≡ₚ submitted_pairs chapters_order.
Proof.
  destruct existing_after as (news & -> & Hpairs).
  unfold link_pairs at 1. rewrite fmap_app. fold (link_pairs news). rewrite Hpairs.
  unfold submitted_pairs.
  etrans; [|apply fmap_Permutation; symmetry;
             apply (filter_split_perm
                      (λ item : Z * ChapterOrder,
                         bool_decide (m !! co_chapter_id item.2 = None)))].
  rewrite fmap_app. apply Permutation_app; [|done].
  apply NoDup_Permutation.
  - apply (NoDup_fmap_1 fst). rewrite <- !list_fmap_compose.
    apply (NoDup_fmap_2_strong).
    + intros x y Hx Hy Heq. simpl in Heq.
      apply list_elem_of_In, filter_In in Hx as [Hx _].
      apply list_elem_of_In, filter_In in Hy as [Hy _].
      apply list_elem_of_In in Hx, Hy.
      by apply (NoDup_fmap_eq CourseChapter.chapter_id E).
    + apply NoDup_ListNoDup, List.NoDup_filter, NoDup_ListNoDup.
      apply (NoDup_fmap_1 CourseChapter.chapter_id). exact one_link_per_chapter.
  - apply (NoDup_fmap_1 fst). rewrite <- list_fmap_compose.
    apply (NoDup_fmap_2_strong).
    + intros x y Hx Hy Heq. simpl in Heq.
      apply list_elem_of_In, filter_In in Hx as [Hx _].
      apply list_elem_of_In, filter_In in Hy as [Hy _].
      apply list_elem_of_In in Hx, Hy.
      apply (NoDup_fmap_eq (λ item : Z * ChapterOrder, co_chapter_id item.2) items);
        [|done..].
      rewrite items_ids. exact submitted_once.
    + apply NoDup_ListNoDup, List.NoDup_filter, NoDup_ListNoDup.
      apply (NoDup_fmap_1 (λ item : Z * ChapterOrder, co_chapter_id item.2)).
      rewrite items_ids. exact submitted_once.
  - intros [c o]. rewrite <- list_fmap_compose, !list_elem_of_fmap. split.
    + intros (x & Heq & Hx). simpl in Heq.
      apply list_elem_of_In, filter_In in Hx as [Hx Hk].
      apply list_elem_of_In in Hx. apply bool_decide_eq_true in Hk.
      apply keep_elem in Hk as (item & Hitem & Hid).
      exists item. split.
      * rewrite Heq, (placed_hit x item) by done. by rewrite Hid.
      * apply list_elem_of_In, filter_In. split; [by apply list_elem_of_In|].
        apply negb_true_iff, bool_decide_eq_false.
        rewrite Hid, (m_elem x Hx). done.
    + intros (item & Heq & Hitem).
      apply list_elem_of_In, filter_In in Hitem as [Hitem Hsome].
      apply list_elem_of_In in Hitem.
      apply negb_true_iff, bool_decide_eq_false in Hsome.
      destruct (m !! co_chapter_id item.2) as [cc|] eqn:Hlook; [|done].
      apply m_Some in Hlook as [Hcc Hid].
      exists cc. split.
      * rewrite Heq. simpl. rewrite (placed_hit cc item) by done. by rewrite Hid.
      * apply list_elem_of_In, filter_In. split; [by apply list_elem_of_In|].
        apply bool_decide_eq_true, keep_elem. eauto.
Qed.
End reorder_result.

(** ** Partial updates, appended chapters and reordering *)

Section service_properties.
Context {env : Environment}.

(** C8.  A partial update overwrites the fields it provides and leaves the
    others as stored.  For [update_course]: the row of the course is
    rewritten with [name] set to the submitted name and every other
    updatable field set to the submitted value when there is one and kept
    otherwise (so an update that names only [name] keeps [description],
    [tags], [about], [learnings] and [public]); identifier, organization,
    uuid and creation date are kept and [update_date] is the time of the
    call.  For [update_chapter]: every attribute other than [update_date]
    is the submitted value when one is submitted and is not [None], and
    the stored value otherwise. *)
Theorem partial_update_keeps_unset_fields :
  (∀ w course_object course_uuid current_user course r,
     course_by_uuid w course_uuid = Some course →
     (courses.rbac_check (Course.course_uuid course) current_user update w).1
       = Returned r →
     ∃ course' authors,
       courses.update_course course_object course_uuid current_user w
       = (Returned (mkCourseRead course' authors),
          set_course_tbl
            ((λ row, if bool_decide (Course.id row = Course.id course)
                     then course' else row) <$> course_tbl w)
            (set_ticks (S (ticks w)) w))
       ∧ Course.name course' = CourseUpdate.name course_object
       ∧ Course.description course'
         = provided_or (Some <$> CourseUpdate.description course_object)
             (Course.description course)
       ∧ Course.about course'
         = provided_or (Some <$> CourseUpdate.about course_object)
             (Course.about course)
       ∧ Course.learnings course'
         = provided_or (Some <$> CourseUpdate.learnings course_object)
             (Course.learnings course)
       ∧ Course.tags course'
         = provided_or (Some <$> CourseUpdate.tags course_object)
             (Course.tags course)
       ∧ Course.thumbnail_image course'
         = provided_or (Some <$> CourseUpdate.thumbnail_image course_object)
             (Course.thumbnail_image course)
       ∧ Course.public course'
         = provided_or (CourseUpdate.public course_object) (Course.public course)
       ∧ Course.open_to_contributors course'
         = provided_or (CourseUpdate.open_to_contributors course_object)
             (Course.open_to_contributors course)
       ∧ Course.id course' = Course.id course
       ∧ Course.org_id course' = Course.org_id course
       ∧ Course.course_uuid course' = Course.course_uuid course
       ∧ Course.creation_date course' = Course.creation_date course
       ∧ Course.update_date course' = datetime_now_str (ticks w))
  ∧ (∀ w (chapter_object : PyObj) chapter_id current_user (chapter : PyObj) r,
       chapter_by_id w chapter_id = Some chapter →
       (chapters.rbac_check (as_str (getattr chapter "chapter_uuid"))
          current_user update w).1 = Returned r →
       ∃ chapter' : PyObj,
         (chapters.update_chapter chapter_object chapter_id current_user w).2
         = set_chapter_tbl
             ((λ row, if bool_decide (getattr row "id" = PInt chapter_id)
                      then chapter' else row) <$> chapter_tbl w)
             (set_ticks (S (ticks w)) w)
         ∧ (∀ k, k ≠ "update_date" →
              chapter' !! k = match chapter_object !! k with
                              | Some v => if is_not_None v then Some v
                                          else chapter !! k
                              | None => chapter !! k
                              end)
         ∧ chapter' !! "update_date"
           = Some (PStr (datetime_now_str (ticks w)))).
Proof.
  split.
  - intros. by eapply update_course_run.
  - intros. by eapply update_chapter_run.
Qed.

Lemma exists_max (orders : list Z) : orders ≠ [] → ∃ m, is_max m orders.
Proof.
  induction orders as [|o orders IH]; [done|]. intros _.
  destruct orders as [|o' orders].
  - exists o. split; [apply list_elem_of_here|].
    intros x Hx. apply list_elem_of_singleton in Hx. lia.
  - destruct IH as (m & Hin & Hle); [done|].
    exists (Z.max o m). split.
    + destruct (Z.max_spec o m) as [[_ ->]|[_ ->]];
        [by apply list_elem_of_further|apply list_elem_of_here].
    + intros x Hx. apply elem_of_cons in Hx as [->|Hx]; [lia|].
      specialize (Hle _ Hx). lia.
Qed.

(** C9.  Appending a chapter to a course gives its link the order (largest
    order among the links of that course) + 1, and 1 when the course has no
    link; when the orders of the links of the course form a dense sequence
    before the call, they still do after it. *)
Theorem create_chapter_appends_after_last
    (w : World) (chapter_object : PyObj) (current_user : CurrentUser)
    (course : Course.t) (cid : Z) (r : option bool) :
  getattr chapter_object "course_id" = PInt cid →
  List.filter (λ c, bool_decide (Course.id c = cid)) (course_tbl w) = [course] →
  (chapters.rbac_check "chapter_x" current_user create w).1 = Returned r →
  ∃ chapter link w',
    chapters.create_chapter chapter_object current_user w
    = (Returned (mkChapterRead chapter []), w')
    ∧ course_links w' cid = course_links w cid ++ [link]
    ∧ getattr chapter "id" = PInt (CourseChapter.chapter_id link)
    ∧ (course_links w cid = [] → CourseChapter.order link = 1)
    ∧ (∀ m, is_max m (CourseChapter.order <$> course_links w cid) →
         CourseChapter.order link = m + 1)
    ∧ (dense (CourseChapter.order <$> course_links w cid) →
       dense (CourseChapter.order <$> course_links w' cid)).
Proof.
  intros Hcid Hone Hr.
  destruct (create_chapter_run w chapter_object current_user course cid r Hcid Hone Hr)
    as (chapter & link & w' & Hrun & _ & Htbl & Hlc & _ & Hid & Hfirst & Hmax).
  exists chapter, link, w'.
  pose proof (course_links_snoc w w' cid link Htbl Hlc) as Hlinks.
  repeat split; try done.
  intros Hdense. rewrite Hlinks, fmap_app. simpl.
  destruct (decide (course_links w cid = [])) as [Hnil|Hne].
  - rewrite Hnil. simpl. apply dense_singleton.
  - destruct (exists_max (CourseChapter.order <$> course_links w cid)) as [m Hm].
    { intros Heq. apply fmap_nil_inv in Heq. done. }
    rewrite (Hmax m Hm). by apply dense_snoc.
Qed.

Lemma elem_of_enumerate {A} (xs : list A) (i : nat) (x : A) :
  xs !! i = Some x → (Z.of_nat i, x) ∈ enumerate xs.
Proof.
  intros Hi. unfold enumerate. apply elem_of_lookup_imap. eauto.
Qed.

(** C6.  The reorder of a course, for a request that names each chapter
    once and a course that has one link for each chapter: afterwards the
    links of the course give every submitted chapter its index in the
    request and there is no other link; a loaded link whose chapter is
    submitted is the same row with its order set to the index; a loaded
    link whose chapter is not submitted is deleted; a submitted chapter
    without link gets a new link with its index; rows of other courses are
    untouched.  In particular, from the links [A, B, C] with orders
    0, 1, 2 the request [C, A] leaves exactly the two links C with order 0
    and A with order 1, and the link of B is gone. *)
Theorem reorder_rewrites_course_links
    (w : World) (course_uuid : string) (chapters_order : ChapterUpdateOrder)
    (current_user : CurrentUser) (course : Course.t) (r : option bool) :
  course_by_uuid w course_uuid = Some course →
  (chapters.rbac_check (Course.course_uuid course) current_user update w).1
    = Returned r →
  NoDup (CourseChapter.id <$> coursechapter_tbl w) →
  NoDup (CourseChapter.chapter_id <$> existing_links w course) →
  NoDup (co_chapter_id <$> chapter_order_by_ids chapters_order) →
  ∃ w',
    chapters.reorder_chapters_and_activities course_uuid chapters_order
      current_user w
    = (Returned [("detail", "Chapters and activities reordered successfully")], w')
    ∧ link_pairs (existing_links w' course) ≡ₚ submitted_pairs chapters_order
    ∧ ((∀ cc, cc ∈ coursechapter_tbl w →
          CourseChapter.course_id cc = Course.id course →
          CourseChapter.org_id cc = Course.org_id course) →
       link_pairs (course_links w' (Course.id course))
         ≡ₚ submitted_pairs chapters_order)
    ∧ (∀ cc i chapter_order,
         cc ∈ existing_links w course →
         chapter_order_by_ids chapters_order !! i = Some chapter_order →
         co_chapter_id chapter_order = CourseChapter.chapter_id cc →
         CourseChapter.with_order (Z.of_nat i) cc ∈ coursechapter_tbl w')
    ∧ (∀ i chapter_order,
         chapter_order_by_ids chapters_order !! i = Some chapter_order →
         co_chapter_id chapter_order
           ∉ CourseChapter.chapter_id <$> existing_links w course →
         ∃ row, row ∈ coursechapter_tbl w'
                ∧ CourseChapter.chapter_id row = co_chapter_id chapter_order
                ∧ CourseChapter.order row = Z.of_nat i
                ∧ CourseChapter.course_id row = Course.id course
                ∧ CourseChapter.org_id row = Course.org_id course
                ∧ CourseChapter.id row ∉ CourseChapter.id <$> coursechapter_tbl w)
    ∧ (∀ cc, cc ∈ existing_links w course →
         CourseChapter.chapter_id cc
           ∉ co_chapter_id <$> chapter_order_by_ids chapters_order →
         CourseChapter.id cc ∉ CourseChapter.id <$> coursechapter_tbl w')
    ∧ List.filter (λ row, negb (selects_link course row)) (coursechapter_tbl w')
      = List.filter (λ row, negb (selects_link course row)) (coursechapter_tbl w)
    ∧ (∀ A B C,
         link_pairs (existing_links w course) = [(A, 0); (B, 1); (C, 2)] →
         co_chapter_id <$> chapter_order_by_ids chapters_order = [C; A] →
         link_pairs (existing_links w' course) ≡ₚ [(C, 0); (A, 1)]
         ∧ ∀ cc, cc ∈ existing_links w course →
                 CourseChapter.chapter_id cc = B →
                 CourseChapter.id cc ∉ CourseChapter.id <$> coursechapter_tbl w').
Proof.
  intros Hcourse Hr Hpk Hone Hsub.
  destruct (reorder_run w course_uuid chapters_order current_user course r Hcourse Hr)
    as (w' & Hrun & Htbl).
  exists w'. split; [exact Hrun|].
  assert (Hpos : link_pairs (existing_links w' course) ≡ₚ submitted_pairs chapters_order).
  { unfold existing_links at 1. rewrite Htbl.
    by apply reorder_positions. }
  assert (Hdel : ∀ cc, cc ∈ existing_links w course →
            CourseChapter.chapter_id cc
              ∉ co_chapter_id <$> chapter_order_by_ids chapters_order →
            CourseChapter.id cc ∉ CourseChapter.id <$> coursechapter_tbl w').
  { intros cc Hcc Hnot. rewrite Htbl. apply reorder_deletes; [done|].
    by rewrite elem_of_list_to_set. }
  assert (Hframe :
    List.filter (λ row, negb (selects_link course row)) (coursechapter_tbl w')
    = List.filter (λ row, negb (selects_link course row)) (coursechapter_tbl w)).
  { rewrite Htbl. by apply reorder_frame. }
  split; [exact Hpos|]. split; [|split; [|split; [|split; [exact Hdel|split]]]].
  - intros Horg.
    replace (course_links w' (Course.id course)) with (existing_links w' course);
      [exact Hpos|].
    symmetry. unfold course_links, existing_links. apply List.filter_ext_in.
    intros row Hrow. unfold selects_link.
    destruct (decide (CourseChapter.course_id row = Course.id course)) as [Hc|Hc];
      [|by rewrite (bool_decide_eq_false_2 _ Hc)].
    rewrite (bool_decide_eq_true_2 _ Hc). simpl.
    destruct (decide (CourseChapter.org_id row = Course.org_id course)) as [Ho|Ho];
      [by rewrite (bool_decide_eq_true_2 _ Ho)|].
    exfalso.
    assert (Hin : row ∈ List.filter (λ row, negb (selects_link course row))
                          (coursechapter_tbl w')).
    { apply list_elem_of_In, filter_In. split; [done|]. unfold selects_link.
      by rewrite (bool_decide_eq_false_2 (CourseChapter.org_id row = _)), andb_false_r. }
    rewrite Hframe in Hin. apply list_elem_of_In, filter_In in Hin as [Hin _].
    apply Ho, Horg; [by apply list_elem_of_In|done].
  - intros cc i chapter_order Hcc Hi Hid. rewrite Htbl.
    apply (reorder_updates w course chapters_order Hpk Hone Hsub cc
             (Z.of_nat i, chapter_order)); [done| |done].
    by apply elem_of_enumerate.
  - intros i chapter_order Hi Hnot. rewrite Htbl.
    apply (reorder_inserts w course chapters_order
             (Z.of_nat i, chapter_order)); [|done].
    by apply elem_of_enumerate.
  - exact Hframe.
  - intros A B C Hbefore Hreq.
    assert (Hids : CourseChapter.chapter_id <$> existing_links w course = [A; B; C]).
    { replace (CourseChapter.chapter_id <$> existing_links w course)
        with ((link_pairs (existing_links w course)).*1)
        by (unfold link_pairs; rewrite <- list_fmap_compose; done).
      by rewrite Hbefore. }
    rewrite Hids in Hone.
    split.
    + rewrite Hpos. unfold submitted_pairs.
      destruct (chapter_order_by_ids chapters_order) as [|c1 [|c2 [|c3 rest]]];
        simplify_eq/=. done.
    + intros cc Hcc HB. apply Hdel; [done|]. rewrite Hreq, HB.
      apply NoDup_cons in Hone as [HA Hone].
      apply NoDup_cons in Hone as [HBC _].
      intros Hin. apply elem_of_cons in Hin as [->|Hin].
      * apply HBC, list_elem_of_here.
      * apply list_elem_of_singleton in Hin as ->.
        apply HA, list_elem_of_here.
Qed.
End service_properties.

(** ** The properties on the sample stores *)

(** C1, on the failing input.  Bob holds an ACTIVE MAINTAINER record on
    [course_x1], which has another record, of its creator, before his.  The
    authorship check loads the first record of the resource only and returns
    [False] for bob, and with no role his update is refused with 403. *)
Theorem later_author_record_is_ignored :
  holds_active_authorship acme (User.id bob) "course_x1"
  ∧ rbac.authorization_verify_if_user_is_author
      (User.id bob) update "course_x1" acme
    = (Returned false, acme)
  ∧ courses.rbac_check (env := sample_env) "course_x1" (PublicUser bob) update acme
    = (Raised forbidden_roles_and_authorship, acme).
Proof.
  split; [|split].
  - eexists (ResourceAuthor.mk 2 _ _ _ _ _ _). split.
    + unfold acme. simpl. apply list_elem_of_further, list_elem_of_here.
    + unfold qualifying_kind. simpl. tauto.
  - vm_compute. reflexivity.
  - vm_compute. reflexivity.
Qed.

(** C2, the claim as worded fails: carol's only role is scoped to
    organization 2, [course_x1] belongs to organization 1, and the role
    check grants her the update of that course. *)
Lemma role_of_other_organization_grants :
  rbac.authorization_verify_based_on_roles (env := sample_env)
    (User.id carol) update "course_x1" acme
  = (Returned true, acme)
  ∧ ¬ granted_by_role_for_resource acme (User.id carol) "course_x1" "courses" update.
Proof.
  split; [vm_compute; reflexivity|].
  intros (role & uo & Hr & _ & _ & _ & Hscope & _).
  apply list_elem_of_singleton in Hr as ->.
  destruct Hscope as [Hnone|(org & Horg & course & Hc & Huuid & Hown)].
  - discriminate.
  - simpl in Horg. injection Horg as <-.
    apply elem_of_cons in Hc as [->|Hc]; [discriminate|].
    apply list_elem_of_singleton in Hc as ->. discriminate.
Qed.

Lemma roles_grant_iff_membership_role_witness :
  ∃ b, rbac.authorization_verify_based_on_roles (env := sample_env)
         (User.id carol) update "course_x1" acme
       = (Returned b, acme)
       ∧ (b = true ↔
          granted_by_role_of_membership acme (User.id carol) "courses" update).
Proof.
  apply (roles_grant_iff_membership_role (env := sample_env)). reflexivity.
Defined.

Lemma anonymous_read_follows_public_flag_witness :
  courses.rbac_check (env := sample_env) "course_pub" AnonymousUser read acme
  = (Returned (Some true), acme)
  ∧ courses.rbac_check (env := sample_env) "course_x1" AnonymousUser read acme
    = (Raised forbidden_not_public, acme).
Proof.
  split.
  - apply (anonymous_read_follows_public_flag (env := sample_env)
             acme AnonymousUser course_pub); try reflexivity.
    unfold acme; simpl. apply list_elem_of_further, list_elem_of_here.
  - apply (anonymous_read_follows_public_flag (env := sample_env)
             acme AnonymousUser course_x1); try reflexivity.
    + unfold acme; simpl. apply list_elem_of_here.
    + unfold acme; simpl. compute_done.
Defined.

Lemma anonymous_write_denied_witness :
  courses.rbac_check (env := sample_env) "course_x1" AnonymousUser update acme
  = (Raised forbidden_anonymous, acme)
  ∧ chapters.rbac_check (env := sample_env) "course_x1" AnonymousUser update acme
    = (Raised forbidden_anonymous, acme).
Proof.
  apply (anonymous_write_denied (env := sample_env)); [reflexivity|discriminate].
Defined.

(** C5, the claim as worded fails: carol holds no authorship record on
    [course_x1] and no role, global or scoped to organization 1, the owner
    of the course, that lets her update courses; her role of organization 2
    makes the combined check return [True], and [rbac_check] lets her
    update the course. *)
Lemma role_of_other_organization_allows_update :
  ¬ holds_active_authorship acme (User.id carol) "course_x1"
  ∧ ¬ granted_by_role_for_resource acme (User.id carol) "course_x1" "courses" update
  ∧ rbac.authorization_verify_based_on_roles_and_authorship (env := sample_env)
      (User.id carol) update "course_x1" acme
    = (Returned true, acme)
  ∧ courses.rbac_check (env := sample_env) "course_x1" (PublicUser carol) update acme
    = (Returned None, acme).
Proof.
  split; [|split; [|split]].
  - intros (ra & Hin & _ & Huser & _). unfold acme in Hin. simpl in Hin.
    apply elem_of_cons in Hin as [->|Hin]; [discriminate|].
    apply list_elem_of_singleton in Hin as ->. discriminate.
  - intros (role & uo & Hr & _ & _ & _ & Hscope & _).
    apply list_elem_of_singleton in Hr as ->.
    destruct Hscope as [Hnone|(org & Horg & course & Hc & Huuid & Hown)].
    + discriminate.
    + simpl in Horg. injection Horg as <-.
      apply elem_of_cons in Hc as [->|Hc]; [discriminate|].
      apply list_elem_of_singleton in Hc as ->. discriminate.
  - vm_compute. reflexivity.
  - vm_compute. reflexivity.
Qed.

Lemma no_authorship_no_role_denied_witness :
  rbac.authorization_verify_based_on_roles_and_authorship (env := sample_env)
    (User.id dave) update "course_x1" acme
  = (Raised forbidden_roles_and_authorship, acme)
  ∧ ∃ e, courses.rbac_check (env := sample_env) "course_x1" (PublicUser dave)
           update acme = (Raised e, acme).
Proof.
  apply (no_authorship_no_role_denied (env := sample_env)
           acme (PublicUser dave) "course_x1" "courses").
  - reflexivity.
  - intros (ra & Hin & _ & Huser & _). unfold acme in Hin. simpl in Hin.
    apply elem_of_cons in Hin as [->|Hin]; [discriminate|].
    apply list_elem_of_singleton in Hin as ->. discriminate.
  - intros (role & uo & _ & Huo & Huser & _). unfold acme in Huo. simpl in Huo.
    apply list_elem_of_singleton in Huo as ->. discriminate.
Defined.

(** C7, the claim as worded fails: the error raised for the creator's record
    has status 400, not the status of a conflict. *)
Lemma creator_update_is_not_a_conflict :
  contributors.update_course_contributor (env := sample_env)
    "course_x1" (User.id alice) CONTRIBUTOR ACTIVE (PublicUser alice) acme
  = (Raised (HTTPException 400 "Cannot modify the role of the course creator"), acme)
  ∧ contributors.update_course_contributor (env := sample_env)
      "course_x1" (User.id alice) CONTRIBUTOR ACTIVE (PublicUser alice) acme
    ≠ (Raised (HTTPException HTTP_409_CONFLICT
                 "Cannot modify the role of the course creator"), acme).
Proof.
  assert (Hrun :
    contributors.update_course_contributor (env := sample_env)
      "course_x1" (User.id alice) CONTRIBUTOR ACTIVE (PublicUser alice) acme
    = (Raised (HTTPException 400 "Cannot modify the role of the course creator"), acme))
    by (vm_compute; reflexivity).
  split; [exact Hrun|]. rewrite Hrun. discriminate.
Qed.

Lemma creator_record_cannot_be_updated_witness :
  (∃ e, contributors.update_course_contributor (env := sample_env)
          "course_x1" (User.id alice) CONTRIBUTOR INACTIVE (PublicUser bob) acme
        = (Raised e, acme))
  ∧ contributors.update_course_contributor (env := sample_env)
      "course_x1" (User.id alice) CONTRIBUTOR INACTIVE (PublicUser alice) acme
    = (Raised cannot_modify_creator, acme).
Proof.
  split.
  - apply (creator_record_cannot_be_updated (env := sample_env) acme "course_x1"
             (User.id alice) CONTRIBUTOR INACTIVE (PublicUser bob)
             (ResourceAuthor.mk 1 "course_x1" 1 CREATOR ACTIVE "2024-05-01" "2024-05-01"));
      reflexivity.
  - apply (creator_record_cannot_be_updated (env := sample_env) acme "course_x1"
             (User.id alice) CONTRIBUTOR INACTIVE (PublicUser alice)
             (ResourceAuthor.mk 1 "course_x1" 1 CREATOR ACTIVE "2024-05-01" "2024-05-01"));
      try reflexivity.
    + discriminate.
    + by eexists.
Defined.

Lemma partial_update_keeps_unset_fields_witness :
  (∃ course' authors,
     courses.update_course (env := sample_env) only_name "course_x1"
       (PublicUser alice) campus
     = (Returned (mkCourseRead course' authors),
        set_course_tbl
          ((λ row, if bool_decide (Course.id row = Course.id course_x1)
                   then course' else row) <$> course_tbl campus)
          (set_ticks (S (ticks campus)) campus))
     ∧ Course.name course' = "New"
     ∧ Course.description course' = Some "An introduction"
     ∧ Course.tags course' = Some "basics"
     ∧ Course.public course' = false)
  ∧ ∃ chapter' : PyObj,
      (chapters.update_chapter (env := sample_env)
         {[ "name" := PStr "A2"; "description" := PNone ]} 10
         (PublicUser alice) campus).2
      = set_chapter_tbl
          ((λ row, if bool_decide (getattr row "id" = PInt 10)
                   then chapter' else row) <$> chapter_tbl campus)
          (set_ticks (S (ticks campus)) campus)
      ∧ chapter' !! "name" = Some (PStr "A2")
      ∧ chapter' !! "description" = Some (PStr "first draft")
      ∧ chapter' !! "course_id" = Some (PInt 1).
Proof.
  split.
  - destruct (proj1 (partial_update_keeps_unset_fields (env := sample_env))
               campus only_name "course_x1" (PublicUser alice) course_x1 None)
      as (course' & authors & Hrun & Hname & Hdesc & _ & _ & Htags & _ & Hpub & _);
      [reflexivity|reflexivity|].
    exists course', authors. repeat split; assumption.
  - destruct (proj2 (partial_update_keeps_unset_fields (env := sample_env))
               campus {[ "name" := PStr "A2"; "description" := PNone ]} 10
               (PublicUser alice) (chapter_row 10 "chapter_a" "A") None)
      as (chapter' & Hrun & Hkeys & _); [reflexivity|reflexivity|].
    exists chapter'. split; [exact Hrun|].
    split; [|split].
    + by rewrite (Hkeys "name").
    + by rewrite (Hkeys "description").
    + by rewrite (Hkeys "course_id").
Defined.

Lemma create_chapter_appends_after_last_witness :
  ∃ chapter link w',
    chapters.create_chapter (env := sample_env)
      {[ "name" := PStr "D"; "course_id" := PInt 1 ]} (PublicUser alice) campus
    = (Returned (mkChapterRead chapter []), w')
    ∧ course_links w' 1 = course_links campus 1 ++ [link]
    ∧ CourseChapter.order link = 3
    ∧ dense (CourseChapter.order <$> course_links w' 1).
Proof.
  destruct (create_chapter_appends_after_last (env := sample_env) campus
              {[ "name" := PStr "D"; "course_id" := PInt 1 ]} (PublicUser alice)
              course_x1 1 None)
    as (chapter & link & w' & Hrun & Hlinks & _ & _ & Hmax & Hdense);
    [reflexivity|reflexivity|reflexivity|].
  exists chapter, link, w'. split; [exact Hrun|]. split; [exact Hlinks|]. split.
  - apply (Hmax 2). split.
    + simpl. apply list_elem_of_further, list_elem_of_further, list_elem_of_here.
    + intros o Ho. simpl in Ho.
      repeat (apply elem_of_cons in Ho as [->|Ho]; [lia|]).
      by apply elem_of_nil in Ho.
  - apply Hdense. exists 0. reflexivity.
Defined.

Lemma reorder_rewrites_course_links_witness :
  ∃ w',
    chapters.reorder_chapters_and_activities (env := sample_env) "course_x1"
      order_c_a (PublicUser alice) campus
    = (Returned [("detail", "Chapters and activities reordered successfully")], w')
    ∧ link_pairs (course_links w' 1) ≡ₚ [(12, 0); (10, 1)]
    ∧ 2 ∉ CourseChapter.id <$> coursechapter_tbl w'.
Proof.
  destruct (reorder_rewrites_course_links (env := sample_env) campus "course_x1"
              order_c_a (PublicUser alice) course_x1 None)
    as (w' & Hrun & _ & Hall & _ & _ & Hdel & _);
    [reflexivity|reflexivity|compute_done|compute_done|compute_done|].
  exists w'. split; [exact Hrun|]. split.
  - apply Hall. intros cc Hcc _. unfold campus in Hcc. simpl in Hcc.
    repeat (apply elem_of_cons in Hcc as [->|Hcc]; [reflexivity|]).
    by apply elem_of_nil in Hcc.
  - apply (Hdel (CourseChapter.mk 2 1 11 1 "2024-05-01" "2024-05-01" 1)).
    + apply list_elem_of_further, list_elem_of_here.
    + compute_done.
Defined.

(** The reorder of the sample course, run: the link of chapter c comes
    first, the link of chapter a second, both the rows they were, and the
    link of chapter b is deleted. *)
Example reorder_c_a_table :
  coursechapter_tbl
    (chapters.reorder_chapters_and_activities (env := sample_env) "course_x1"
       order_c_a (PublicUser alice) campus).2
  = [ CourseChapter.mk 1 1 10 1 "2024-05-01" "2024-05-01" 1;
      CourseChapter.mk 3 1 12 1 "2024-05-01" "2024-05-01" 0 ].
Proof. vm_compute. reflexivity. Qed.

(** The update of the sample course with only a name, run. *)
Example update_only_name_row :
  course_tbl
    (courses.update_course (env := sample_env) only_name "course_x1"
       (PublicUser alice) campus).2
  = [ Course.mk 1 1 "New" (Some "An introduction") None None (Some "basics") None
        false false "course_x1" "2024-05-01" "2025-01-01 00:00:00.0" ].
Proof. vm_compute. reflexivity. Qed.

(** * Properties of the other services *)

(** ** What the decisions read *)

Section decision_frame.
Context {env : Environment}.

Lemma is_public_frame w w' uuid action :
  course_tbl w = course_tbl w' →
  collection_tbl w = collection_tbl w' →
  (rbac.authorization_verify_if_element_is_public uuid action w).1
  = (rbac.authorization_verify_if_element_is_public uuid action w').1.
Proof.
  intros Hc Hl.
  unfold rbac.authorization_verify_if_element_is_public.
  cbv [mbind M_bind lift_outcome exec_first gets raise mret M_ret].
  destruct (check_element_type uuid) as [t|e]; [|done].
  repeat case_bool_decide; simpl; rewrite ?Hc, ?Hl;
    repeat (destruct (head _)); done.
Qed.

Lemma is_author_frame w w' user_id action uuid :
  resourceauthor_tbl w = resourceauthor_tbl w' →
  (rbac.authorization_verify_if_user_is_author user_id action uuid w).1
  = (rbac.authorization_verify_if_user_is_author user_id action uuid w').1.
Proof.
  intros Heq. rewrite !is_author_returns. unfold first_author_record.
  by rewrite Heq.
Qed.

Lemma roles_frame w w' user_id action uuid :
  role_tbl w = role_tbl w' →
  userorganization_tbl w = userorganization_tbl w' →
  (rbac.authorization_verify_based_on_roles user_id action uuid w).1
  = (rbac.authorization_verify_based_on_roles user_id action uuid w').1.
Proof.
  intros Hr Hu.
  unfold rbac.authorization_verify_based_on_roles,
    rbac.user_roles_in_organization_and_standard_roles.
  cbv [mbind M_bind lift_outcome gets mret M_ret].
  destruct (check_element_type uuid) as [t|e]; [|done]. simpl.
  by rewrite Hr, Hu.
Qed.

(** The combined check is a function of its two parts. *)
Lemma roles_and_authorship_congr w w' user_id action uuid :
  (rbac.authorization_verify_if_user_is_author user_id action uuid w).1
  = (rbac.authorization_verify_if_user_is_author user_id action uuid w').1 →
  (rbac.authorization_verify_based_on_roles user_id action uuid w).1
  = (rbac.authorization_verify_based_on_roles user_id action uuid w').1 →
  (rbac.authorization_verify_based_on_roles_and_authorship user_id action uuid w).1
  = (rbac.authorization_verify_based_on_roles_and_authorship user_id action uuid w').1.
Proof.
  intros HA HR.
  pose proof (readonly_is_author user_id action uuid w) as HAw.
  pose proof (readonly_is_author user_id action uuid w') as HAw'.
  pose proof (readonly_roles user_id action uuid w) as HRw.
  pose proof (readonly_roles user_id action uuid w') as HRw'.
  unfold rbac.authorization_verify_based_on_roles_and_authorship.
  rewrite !run_bind.
  destruct (rbac.authorization_verify_if_user_is_author user_id action uuid w)
    as [oa wa].
  destruct (rbac.authorization_verify_if_user_is_author user_id action uuid w')
    as [oa' wa'].
  simpl in *. subst. destruct oa' as [isAuthor|e]; [|done].
  rewrite !run_bind.
  destruct (rbac.authorization_verify_based_on_roles user_id action uuid w)
    as [or wr].
  destruct (rbac.authorization_verify_based_on_roles user_id action uuid w')
    as [or' wr'].
  simpl in *. subst. destruct or' as [isRole|e]; [|done].
  by destruct (isAuthor || isRole).
Qed.

(** [rbac_check] is a function of the combined check and, for the anonymous
    subject, of the public check. *)
Lemma rbac_check_congr w w' uuid user action :
  (current_user_id user = 0 →
   (rbac.authorization_verify_if_element_is_public uuid action w).1
   = (rbac.authorization_verify_if_element_is_public uuid action w').1) →
  (rbac.authorization_verify_based_on_roles_and_authorship
     (current_user_id user) action uuid w).1
  = (rbac.authorization_verify_based_on_roles_and_authorship
       (current_user_id user) action uuid w').1 →
  (courses.rbac_check uuid user action w).1
  = (courses.rbac_check uuid user action w').1.
Proof.
  intros HP HRA.
  pose proof (readonly_is_public uuid action w) as HPw.
  pose proof (readonly_is_public uuid action w') as HPw'.
  pose proof (readonly_roles_and_authorship (current_user_id user) action uuid w)
    as HRAw.
  pose proof (readonly_roles_and_authorship (current_user_id user) action uuid w')
    as HRAw'.
  unfold courses.rbac_check, rbac.authorization_verify_if_user_is_anon.
  repeat case_bool_decide; try specialize (HP ltac:(done));
    repeat (progress (rewrite ?run_bind; simpl));
    repeat match goal with
    | |- context [rbac.authorization_verify_if_element_is_public ?a ?b ?c] =>
        destruct (rbac.authorization_verify_if_element_is_public a b c) as [[?|?] ?]
    | |- context [rbac.authorization_verify_based_on_roles_and_authorship ?a ?b ?c ?d] =>
        destruct (rbac.authorization_verify_based_on_roles_and_authorship a b c d)
          as [[?|?] ?]
    end; simpl in *; simplify_eq; done.
Qed.

Lemma courses_rbac_check_frame w w' uuid user action :
  authorization_tables w = authorization_tables w' →
  (courses.rbac_check uuid user action w).1
  = (courses.rbac_check uuid user action w').1.
Proof.
  unfold authorization_tables. intros Heq. simplify_eq.
  apply rbac_check_congr.
  - intros _. by apply is_public_frame.
  - apply roles_and_authorship_congr.
    + by apply is_author_frame.
    + by apply roles_frame.
Qed.

(** The run of a check, known its outcome on a store that gives the same
    outcome. *)
Lemma rbac_check_outcome w w' uuid user action :
  (courses.rbac_check uuid user action w).1
  = (courses.rbac_check uuid user action w').1 →
  courses.rbac_check uuid user action w'
  = ((courses.rbac_check uuid user action w).1, w').
Proof.
  intros H1.
  pose proof (readonly_courses_rbac_check uuid user action w') as H2.
  destruct (courses.rbac_check uuid user action w'). simpl in *. congruence.
Qed.

Lemma rbac_check_transfer w w' uuid user action :
  authorization_tables w = authorization_tables w' →
  courses.rbac_check uuid user action w'
  = ((courses.rbac_check uuid user action w).1, w').
Proof. intros Heq. by apply rbac_check_outcome, courses_rbac_check_frame. Qed.

Lemma rbac_check_run w uuid user action :
  courses.rbac_check uuid user action w
  = ((courses.rbac_check uuid user action w).1, w).
Proof. by apply rbac_check_outcome. Qed.

(** Replacing rows in place keeps the first match of a query when the
    replaced rows are the ones that stand for that match. *)
Lemma head_filter_replace {A} (p same : A → bool) (new : A) (l : list A) x :
  head (List.filter p l) = Some x →
  same x = true →
  p new = true →
  head (List.filter p ((λ row, if same row then new else row) <$> l)) = Some new.
Proof.
  intros Hh Hs Hp. induction l as [|a l IH]; [done|].
  rewrite fmap_cons. cbn [List.filter].
  destruct (same a) eqn:Ha.
  - by rewrite Hp.
  - simpl in Hh. destruct (p a) eqn:Hpa.
    + simpl in Hh. injection Hh as ->. congruence.
    + by apply IH.
Qed.

Lemma head_filter_app_l {A} (p : A → bool) (l l' : list A) x :
  head (List.filter p l) = Some x → head (List.filter p (l ++ l')) = Some x.
Proof.
  rewrite List.filter_app. destruct (List.filter p l); [done|]. done.
Qed.

Lemma head_filter_app_r {A} (p : A → bool) (l l' : list A) :
  head (List.filter p l) = None →
  head (List.filter p (l ++ l')) = head (List.filter p l').
Proof.
  rewrite List.filter_app. destruct (List.filter p l); [done|]. done.
Qed.
End decision_frame.

(** ** Further decisions of [rbac.py] *)

Section more_decisions.
Context {env : Environment}.

(** X1.  The authorship check, for the actions other than create, never takes a
    subject for an author without an ACTIVE record of kind CREATOR,
    MAINTAINER or CONTRIBUTOR of that subject on the resource: a PENDING or
    INACTIVE record or a REPORTER record gives nothing.  It does return
    [True] when such a record is the first record of the resource. *)
Theorem authorship_check_is_sound
    (w : World) (user_id : Z) (action : Action) (uuid : string) :
  action ≠ create →
  ∃ b, rbac.authorization_verify_if_user_is_author user_id action uuid w
       = (Returned b, w)
       ∧ (b = true → holds_active_authorship w user_id uuid)
       ∧ (∀ ra, first_author_record w uuid = Some ra →
            ResourceAuthor.user_id ra = user_id →
            qualifying_kind (ResourceAuthor.authorship ra) →
            ResourceAuthor.authorship_status ra = ACTIVE →
            b = true).
Proof.
  intros Hact. eexists. split; [apply is_author_returns|]. split.
  - intros Hb. apply (is_author_true_holds _ _ action w Hact).
    rewrite is_author_returns. by rewrite Hb.
  - intros ra Hfirst Hu Hk Hs. rewrite Hfirst.
    assert (record_qualifies user_id ra = true) as ->
      by (by apply record_qualifies_spec).
    by destruct action.
Qed.

Lemma create_granted uuid user t w :
  current_user_id user ≠ 0 →
  check_element_type uuid = Returned t →
  courses.rbac_check uuid user create w = (Returned None, w).
Proof.
  intros Hid Ht. unfold courses.rbac_check. simpl.
  unfold rbac.authorization_verify_if_user_is_anon.
  rewrite bool_decide_eq_false_2 by done.
  erewrite run_bind_returned by reflexivity.
  destruct (roles_and_authorship_returns (current_user_id user) create uuid t w Ht)
    as (isAuthor & isRole & HA & _ & _ & Hrun).
  rewrite is_author_returns in HA. simplify_eq. simpl in Hrun.
  erewrite run_bind_returned by apply Hrun. reflexivity.
Qed.

(** X2.  The action create is granted to every logged-in subject: whatever the
    authorship records, the roles and the memberships in the store are,
    [rbac_check] passes for create as soon as the identifier is one the
    classifier accepts. *)
Theorem create_is_granted_to_every_logged_in_subject
    (w : World) (user : CurrentUser) (uuid t : string) :
  current_user_id user ≠ 0 →
  check_element_type uuid = Returned t →
  courses.rbac_check uuid user create w = (Returned None, w)
  ∧ chapters.rbac_check uuid user create w = (Returned None, w)
  ∧ activities.rbac_check uuid user create w = (Returned None, w).
Proof.
  intros Hid Ht. repeat split; apply (create_granted uuid user t w Hid Ht).
Qed.

(** X3.  The public check refuses whatever is not the reading of a course or of a
    collection: for every other action and for every other type of element
    it raises its 403 error, whatever the store holds. *)
Theorem public_check_denies_other_types_and_actions
    (w : World) (uuid t : string) (action : Action) :
  check_element_type uuid = Returned t →
  action ≠ read ∨ (t ≠ "courses" ∧ t ≠ "collections") →
  rbac.authorization_verify_if_element_is_public uuid action w
  = (Raised forbidden_not_public, w).
Proof.
  intros Ht Hcase.
  unfold rbac.authorization_verify_if_element_is_public. rewrite Ht.
  cbv [lift_outcome mbind M_bind].
  destruct Hcase as [Hact|[Hc Hl]].
  - rewrite (bool_decide_eq_false_2 (action = read)) by done.
    by rewrite !andb_false_r.
  - rewrite (bool_decide_eq_false_2 (t = "courses")) by done.
    rewrite (bool_decide_eq_false_2 (t = "collections")) by done. done.
Qed.

(** X4.  Reading a collection as the anonymous subject follows the public flag
    of the collection: [True] for a collection of the store that is
    public, the 403 error of the public check for one that is not,
    identifiers of collections being unique. *)
Theorem anonymous_read_of_collection_follows_public_flag
    (w : World) (collection : Collection.t) :
  collection ∈ collection_tbl w →
  check_element_type (Collection.collection_uuid collection)
    = Returned "collections" →
  (Collection.public collection = true →
     rbac.authorization_verify_if_element_is_public
       (Collection.collection_uuid collection) read w = (Returned true, w))
  ∧ (Collection.public collection = false →
     NoDup (Collection.collection_uuid <$> collection_tbl w) →
     rbac.authorization_verify_if_element_is_public
       (Collection.collection_uuid collection) read w
     = (Raised forbidden_not_public, w)).
Proof.
  intros Hin Ht.
  unfold rbac.authorization_verify_if_element_is_public. rewrite Ht.
  cbv [lift_outcome mbind M_bind mret M_ret exec_first gets raise]. simpl.
  split.
  - intros Hpub.
    destruct (head_filter_is_Some
      (λ c, Collection.public c
            && bool_decide (Collection.collection_uuid c
                            = Collection.collection_uuid collection))
      (collection_tbl w) collection Hin) as [c ->]; [|done].
    rewrite Hpub. simpl. by apply bool_decide_eq_true.
  - intros Hpriv Hnd. rewrite head_filter_None; [done|].
    intros c Hc. apply andb_false_iff.
    destruct (decide (Collection.collection_uuid c
                      = Collection.collection_uuid collection)) as [Heq|Hne].
    + left. rewrite (NoDup_fmap_eq _ _ _ _ Hnd Hc Hin Heq). done.
    + right. by apply bool_decide_eq_false.
Qed.

(** X5.  The public flag is consulted for the anonymous subject only.  A
    logged-in subject with no qualifying authorship record on the course and
    no role that grants reading is refused the reading of a course, public
    or not: [rbac_check] raises the 403 error of the roles and authorship
    check. *)
Theorem logged_in_read_ignores_public_flag
    (w : World) (user : CurrentUser) (course : Course.t) (t : string) :
  current_user_id user ≠ 0 →
  check_element_type (Course.course_uuid course) = Returned t →
  ¬ holds_active_authorship w (current_user_id user) (Course.course_uuid course) →
  ¬ granted_by_role_of_membership w (current_user_id user) t read →
  courses.rbac_check (Course.course_uuid course) user read w
  = (Raised forbidden_roles_and_authorship, w).
Proof.
  intros Hid Ht Hna Hnr.
  destruct (roles_and_authorship_returns (current_user_id user) read
              (Course.course_uuid course) t w Ht)
    as (isAuthor & isRole & HA & HR & Hiff & Hrun).
  assert (isAuthor = false) as ->.
  { destruct isAuthor; [|done]. exfalso. apply Hna.
    apply (is_author_true_holds _ _ read w); [done|exact HA]. }
  assert (isRole = false) as ->.
  { destruct isRole; [|done]. exfalso. apply Hnr. by apply Hiff. }
  simpl in Hrun. unfold courses.rbac_check. simpl.
  rewrite bool_decide_eq_false_2 by done.
  erewrite run_bind_raised by apply Hrun. done.
Qed.

Lemma existsb_admin user_id w :
  existsb (λ role, bool_decide (Role.id role ∈ [1; 2]))
    (fst <$> select_join (role_tbl w) (userorganization_tbl w)
      (λ role uo, bool_decide (UserOrganization.role_id uo = Role.id role))
      (λ role uo,
         (bool_decide (Some (UserOrganization.org_id uo) = Role.org_id role)
          || bool_decide (Role.org_id role = None))
         && bool_decide (UserOrganization.user_id uo = user_id))) = true
  ↔ holds_admin_role w user_id.
Proof.
  rewrite existsb_exists. unfold holds_admin_role. split.
  - intros (role & Hin & Hg). apply list_elem_of_In, list_elem_of_fmap in Hin
      as ([role' uo] & -> & Hin).
    apply elem_of_select_join in Hin as (Hr & Hu & Hon & Hc). simpl in *.
    apply bool_decide_eq_true in Hon, Hg.
    apply andb_true_iff in Hc as [Horg Huser].
    apply bool_decide_eq_true in Huser.
    exists role', uo. repeat split; try done.
    + apply orb_true_iff in Horg as [Ho|Ho]; apply bool_decide_eq_true in Ho; auto.
    + apply elem_of_cons in Hg as [?|Hg]; [by left|].
      apply list_elem_of_singleton in Hg. by right.
  - intros (role & uo & Hr & Hu & Huser & Hrole & Horg & Hid).
    exists role. split.
    + apply list_elem_of_In, list_elem_of_fmap. exists (role, uo). split; [done|].
      apply elem_of_select_join. repeat split; try done.
      * by apply bool_decide_eq_true.
      * apply andb_true_iff. split; [|by apply bool_decide_eq_true].
        apply orb_true_iff. destruct Horg as [Ho|Ho]; [right|left];
          by apply bool_decide_eq_true.
    + apply bool_decide_eq_true. destruct Hid as [->| ->].
      * apply list_elem_of_here.
      * apply list_elem_of_further, list_elem_of_here.
Qed.

Lemma admin_status_returns user_id action uuid t w :
  check_element_type uuid = Returned t →
  ∃ b, rbac_admin.authorization_verify_based_on_org_admin_status
         user_id action uuid w = (Returned b, w)
       ∧ (b = true ↔ holds_admin_role w user_id).
Proof.
  intros Ht. unfold rbac_admin.authorization_verify_based_on_org_admin_status.
  rewrite Ht. eexists. split; [reflexivity|]. apply existsb_admin.
Qed.

(** X6.  The administrator check returns [True] exactly when one of the
    memberships of the subject names a role with identifier 1 or 2, global
    or scoped to the organization of that membership.  The element enters
    through the classifier only, so the answer is the same for every
    organization and every action. *)
Theorem admin_status_iff_admin_role
    (w : World) (user_id : Z) (action : Action) (uuid t : string) :
  check_element_type uuid = Returned t →
  (∃ b, rbac_admin.authorization_verify_based_on_org_admin_status
          user_id action uuid w = (Returned b, w)
        ∧ (b = true ↔ holds_admin_role w user_id))
  ∧ (∀ action' uuid' t',
       check_element_type uuid' = Returned t' →
       rbac_admin.authorization_verify_based_on_org_admin_status
         user_id action' uuid' w
       = rbac_admin.authorization_verify_based_on_org_admin_status
           user_id action uuid w).
Proof.
  intros Ht. split; [by apply (admin_status_returns _ _ _ t)|].
  intros action' uuid' t' Ht'.
  unfold rbac_admin.authorization_verify_based_on_org_admin_status.
  by rewrite Ht, Ht'.
Qed.
End more_decisions.

(** ** The check of the organization services *)

Section org_decisions.
Context {env : Environment}.

(** X7.  The check of the organization services, case by case.  Reading is
    granted to anyone and the internal user may do anything: the check
    returns [True] without looking at the store or at the identifier.  For
    the other subjects and actions, the anonymous subject gets the 403
    error of the anonymous check, so the 401 error written after it is
    never raised; a logged-in subject passes exactly when it holds an
    administrator role, in whatever organization, and gets the 403 error
    of the administrator check otherwise. *)
Theorem org_check_decides_by_admin_role
    (w : World) (org_uuid : string) (current_user : OrgCurrentUser)
    (action : Action) :
  (action = read ∨ current_user = InternalUser →
     orgs.rbac_check org_uuid current_user action w = (Returned (Some true), w))
  ∧ (∀ user, current_user = ExternalUser user → action ≠ read →
       (current_user_id user = 0 →
          orgs.rbac_check org_uuid current_user action w
          = (Raised forbidden_anonymous, w))
       ∧ (∀ t, check_element_type org_uuid = Returned t →
            current_user_id user ≠ 0 →
            (holds_admin_role w (current_user_id user) →
               orgs.rbac_check org_uuid current_user action w
               = (Returned None, w))
            ∧ (¬ holds_admin_role w (current_user_id user) →
               orgs.rbac_check org_uuid current_user action w
               = (Raised forbidden_admin_status, w)))).
Proof.
  split.
  { intros [-> | ->]; unfold orgs.rbac_check; [done|]. by case_bool_decide. }
  intros user -> Hact. unfold orgs.rbac_check.
  rewrite bool_decide_eq_false_2 by done.
  unfold rbac.authorization_verify_if_user_is_anon.
  split.
  - intros Hid. by rewrite bool_decide_eq_true_2 by done.
  - intros t Ht Hid.
    destruct (admin_status_returns (current_user_id user) action org_uuid t w Ht)
      as (b & Hrun & Hiff).
    rewrite bool_decide_eq_false_2 by done.
    erewrite run_bind_returned by reflexivity.
    erewrite run_bind_returned by apply Hrun.
    split; intros Hadm.
    + apply Hiff in Hadm as ->. done.
    + destruct b; [|done]. exfalso. by apply Hadm, Hiff.
Qed.
End org_decisions.

(** ** Contributor applications *)

Section application_facts.
Context {env : Environment}.

Lemma apply_run w course_uuid current_user course :
  current_user_id current_user ≠ 0 →
  course_by_uuid w course_uuid = Some course →
  contributor_record w course_uuid (current_user_id current_user) = None →
  applications.apply_course_contributor course_uuid current_user w
  = (Returned [("detail", "Contributor application submitted successfully");
               ("status", "pending")],
     set_resourceauthor_tbl
       (resourceauthor_tbl w
          ++ [pending_application w course_uuid (current_user_id current_user)])
       (set_ticks (S (S (ticks w))) w)).
Proof.
  unfold course_by_uuid, contributor_record. intros Hid Hc Hrec.
  unfold applications.apply_course_contributor,
    rbac.authorization_verify_if_user_is_anon.
  rewrite bool_decide_eq_false_2 by done.
  erewrite run_bind_returned by reflexivity.
  erewrite run_bind_returned by (unfold exec_first, gets; rewrite Hc; reflexivity).
  cbv beta iota.
  erewrite run_bind_returned by (unfold exec_first, gets; rewrite Hrec; reflexivity).
  reflexivity.
Qed.

Lemma apply_anonymous w course_uuid current_user :
  current_user_id current_user = 0 →
  applications.apply_course_contributor course_uuid current_user w
  = (Raised forbidden_anonymous, w).
Proof.
  intros Hid. unfold applications.apply_course_contributor,
    rbac.authorization_verify_if_user_is_anon.
  by rewrite bool_decide_eq_true_2 by done.
Qed.

Lemma apply_unknown_course w course_uuid current_user :
  current_user_id current_user ≠ 0 →
  course_by_uuid w course_uuid = None →
  applications.apply_course_contributor course_uuid current_user w
  = (Raised course_not_found, w).
Proof.
  unfold course_by_uuid. intros Hid Hc.
  unfold applications.apply_course_contributor,
    rbac.authorization_verify_if_user_is_anon.
  rewrite bool_decide_eq_false_2 by done.
  erewrite run_bind_returned by reflexivity.
  erewrite run_bind_returned by (unfold exec_first, gets; rewrite Hc; reflexivity).
  done.
Qed.

Lemma apply_already w course_uuid current_user :
  current_user_id current_user ≠ 0 →
  is_Some (course_by_uuid w course_uuid) →
  is_Some (contributor_record w course_uuid (current_user_id current_user)) →
  applications.apply_course_contributor course_uuid current_user w
  = (Raised already_an_author, w).
Proof.
  unfold course_by_uuid, contributor_record. intros Hid [course Hc] [ra Hrec].
  unfold applications.apply_course_contributor,
    rbac.authorization_verify_if_user_is_anon.
  rewrite bool_decide_eq_false_2 by done.
  erewrite run_bind_returned by reflexivity.
  erewrite run_bind_returned by (unfold exec_first, gets; rewrite Hc; reflexivity).
  cbv beta iota.
  erewrite run_bind_returned
    by (unfold exec_first, gets; rewrite Hrec; reflexivity).
  done.
Qed.

(** The cases of an application, by what the store holds. *)
Lemma apply_cases w course_uuid current_user r w' :
  applications.apply_course_contributor course_uuid current_user w
    = (Returned r, w') →
  current_user_id current_user ≠ 0
  ∧ is_Some (course_by_uuid w course_uuid)
  ∧ contributor_record w course_uuid (current_user_id current_user) = None.
Proof.
  intros Hrun.
  destruct (decide (current_user_id current_user = 0)) as [Hid|Hid].
  { rewrite apply_anonymous in Hrun by done. discriminate. }
  destruct (course_by_uuid w course_uuid) as [course|] eqn:Hc; cycle 1.
  { rewrite apply_unknown_course in Hrun by done. discriminate. }
  destruct (contributor_record w course_uuid (current_user_id current_user))
    as [ra|] eqn:Hrec.
  { rewrite apply_already in Hrun by (done || by rewrite ?Hc, ?Hrec).
    discriminate. }
  done.
Qed.

(** X8.  A contributor application is refused, with the store as it was, in
    three cases, tested in this order: the anonymous subject gets the 403
    error of the anonymous check, also for a course that does not exist; a
    logged-in subject gets 404 "Course not found" for an unknown course,
    and 400 when it has an authorship record on the course already,
    whatever the kind and the status of that record. *)
Theorem application_is_refused
    (w : World) (course_uuid : string) (current_user : CurrentUser) :
  (current_user_id current_user = 0 →
     applications.apply_course_contributor course_uuid current_user w
     = (Raised forbidden_anonymous, w))
  ∧ (current_user_id current_user ≠ 0 →
     course_by_uuid w course_uuid = None →
     applications.apply_course_contributor course_uuid current_user w
     = (Raised course_not_found, w))
  ∧ (current_user_id current_user ≠ 0 →
     is_Some (course_by_uuid w course_uuid) →
     is_Some (contributor_record w course_uuid (current_user_id current_user)) →
     applications.apply_course_contributor course_uuid current_user w
     = (Raised already_an_author, w)).
Proof.
  split; [|split].
  - apply apply_anonymous.
  - apply apply_unknown_course.
  - apply apply_already.
Qed.

(** X9.  An application of a logged-in subject with no record on an existing
    course appends one record to the authorship table and changes no other
    record: the new record is the subject's, on that course, of kind
    CONTRIBUTOR and status PENDING, under a primary key that no record
    had; afterwards it is the record of the subject on the course. *)
Theorem application_appends_pending_record
    (w : World) (course_uuid : string) (current_user : CurrentUser)
    (course : Course.t) :
  current_user_id current_user ≠ 0 →
  course_by_uuid w course_uuid = Some course →
  contributor_record w course_uuid (current_user_id current_user) = None →
  ∃ ra w',
    applications.apply_course_contributor course_uuid current_user w
    = (Returned [("detail", "Contributor application submitted successfully");
                 ("status", "pending")], w')
    ∧ resourceauthor_tbl w' = resourceauthor_tbl w ++ [ra]
    ∧ ResourceAuthor.resource_uuid ra = course_uuid
    ∧ ResourceAuthor.user_id ra = current_user_id current_user
    ∧ ResourceAuthor.authorship ra = CONTRIBUTOR
    ∧ ResourceAuthor.authorship_status ra = PENDING
    ∧ (ResourceAuthor.id ra ∉ ResourceAuthor.id <$> resourceauthor_tbl w)
    ∧ contributor_record w' course_uuid (current_user_id current_user) = Some ra
    ∧ course_tbl w' = course_tbl w.
Proof.
  intros Hid Hc Hrec.
  eexists _, _. split; [by apply (apply_run w course_uuid current_user course)|].
  simpl. repeat split.
  - apply next_id_fresh.
  - unfold contributor_record in *. simpl.
    rewrite head_filter_app_r by done. simpl.
    by rewrite !bool_decide_eq_true_2 by done.
Qed.

(** X10.  Applying twice: after an application that went through, a second
    application of the same subject to the same course is refused with the
    400 error and writes nothing. *)
Theorem second_application_is_refused
    (w w' : World) (course_uuid : string) (current_user : CurrentUser)
    (r : list (string * string)) :
  applications.apply_course_contributor course_uuid current_user w
    = (Returned r, w') →
  applications.apply_course_contributor course_uuid current_user w'
  = (Raised already_an_author, w').
Proof.
  intros Hrun.
  destruct (apply_cases _ _ _ _ _ Hrun) as (Hid & [course Hc] & Hrec).
  rewrite (apply_run w course_uuid current_user course Hid Hc Hrec) in Hrun.
  simplify_eq.
  apply apply_already; [done| |].
  - unfold course_by_uuid in *. simpl. by rewrite Hc.
  - unfold contributor_record in *. simpl.
    rewrite head_filter_app_r by done. simpl.
    rewrite !bool_decide_eq_true_2 by done. by eexists.
Qed.

Lemma pending_never_qualifies user_id w course_uuid applicant :
  record_qualifies user_id (pending_application w course_uuid applicant) = false.
Proof. unfold record_qualifies. simpl. by rewrite andb_false_r. Qed.

(** X11.  An application gives the applicant, and anybody else, no right: after
    an application that went through, every decision of the combined roles
    and authorship check and of [rbac_check], for every subject, action and
    element, is the one it was before. *)
Theorem application_grants_nothing
    (w w' : World) (course_uuid : string) (applicant : CurrentUser)
    (r : list (string * string)) :
  applications.apply_course_contributor course_uuid applicant w
    = (Returned r, w') →
  ∀ uuid user action,
    rbac.authorization_verify_based_on_roles_and_authorship
      (current_user_id user) action uuid w'
    = ((rbac.authorization_verify_based_on_roles_and_authorship
          (current_user_id user) action uuid w).1, w')
    ∧ courses.rbac_check uuid user action w'
      = ((courses.rbac_check uuid user action w).1, w').
Proof.
  intros Hrun uuid user action.
  destruct (apply_cases _ _ _ _ _ Hrun) as (Hid & [course Hc] & Hrec).
  rewrite (apply_run w course_uuid applicant course Hid Hc Hrec) in Hrun.
  simplify_eq.
  set (w' := set_resourceauthor_tbl _ _).
  assert (HRA : ∀ user_id,
    (rbac.authorization_verify_based_on_roles_and_authorship
       user_id action uuid w).1
    = (rbac.authorization_verify_based_on_roles_and_authorship
         user_id action uuid w').1).
  { intros user_id. apply roles_and_authorship_congr; [|by apply roles_frame].
    rewrite !is_author_returns. simpl. destruct action; try done;
      unfold first_author_record; simpl;
      (destruct (head (List.filter _ (resourceauthor_tbl w))) as [x|] eqn:Hx;
       [by rewrite (head_filter_app_l _ _ _ _ Hx)|
        rewrite (head_filter_app_r _ _ _ Hx)]; simpl;
       case_bool_decide; simpl; [|done];
       by rewrite pending_never_qualifies). }
  split.
  - pose proof (readonly_roles_and_authorship (current_user_id user) action uuid w')
      as Hro.
    specialize (HRA (current_user_id user)).
    destruct (rbac.authorization_verify_based_on_roles_and_authorship
                (current_user_id user) action uuid w').
    simpl in *. congruence.
  - apply rbac_check_outcome, rbac_check_congr;
      [intros _; by apply is_public_frame|].
    apply HRA.
Qed.
End application_facts.

(** ** Updates of a contributor *)

Section contributor_update_facts.
Context {env : Environment}.

Lemma update_contributor_authorized_run
    w course_uuid contributor_user_id authorship authorship_status course existing :
  course_by_uuid w course_uuid = Some course →
  contributor_record w course_uuid contributor_user_id = Some existing →
  ResourceAuthor.authorship existing ≠ CREATOR →
  contributors.update_course_contributor_authorized course_uuid
    contributor_user_id authorship authorship_status w
  = (Returned [("detail", "Contributor updated successfully");
               ("status", "success")],
     set_resourceauthor_tbl
       ((λ row, if bool_decide (ResourceAuthor.id row = ResourceAuthor.id existing)
                then updated_record w existing authorship authorship_status
                else row) <$> resourceauthor_tbl w)
       (set_ticks (S (ticks w)) w)).
Proof.
  unfold course_by_uuid, contributor_record. intros Hc Hrec Hkind.
  unfold contributors.update_course_contributor_authorized.
  erewrite run_bind_returned by (unfold exec_first, gets; rewrite Hc; reflexivity).
  cbv beta iota.
  erewrite run_bind_returned by (unfold exec_first, gets; rewrite Hrec; reflexivity).
  cbv beta iota. rewrite bool_decide_eq_false_2 by done.
  reflexivity.
Qed.

Lemma update_contributor_authorized_raises
    w course_uuid contributor_user_id authorship authorship_status e w' :
  contributors.update_course_contributor_authorized course_uuid
    contributor_user_id authorship authorship_status w = (Raised e, w') →
  w' = w.
Proof.
  unfold contributors.update_course_contributor_authorized.
  cbv [mbind M_bind exec_first gets raise].
  destruct (head (List.filter _ (course_tbl w))) as [course|]; [|congruence].
  destruct (head (List.filter _ (resourceauthor_tbl w))) as [existing|];
    [|congruence].
  case_bool_decide; [congruence|]. discriminate.
Qed.

(** X12.  An authorized update of a contributor whose record is not of kind
    CREATOR rewrites that record with the submitted kind and status, any
    kind, CREATOR included, and the time of the call as update date; the
    record keeps its key, user, course and creation date, stays the record
    of that user on the course, and, keys of records being unique, every
    other record is as it was. *)
Theorem contributor_update_rewrites_the_record
    (w : World) (course_uuid : string) (contributor_user_id : Z)
    (authorship : ResourceAuthorshipEnum)
    (authorship_status : ResourceAuthorshipStatusEnum)
    (current_user : CurrentUser) (course : Course.t)
    (existing : ResourceAuthor.t) :
  current_user_id current_user ≠ 0 →
  rbac.authorization_verify_based_on_roles_and_authorship
    (current_user_id current_user) update course_uuid w = (Returned true, w) →
  course_by_uuid w course_uuid = Some course →
  contributor_record w course_uuid contributor_user_id = Some existing →
  ResourceAuthor.authorship existing ≠ CREATOR →
  ∃ w',
    contributors.update_course_contributor course_uuid contributor_user_id
      authorship authorship_status current_user w
    = (Returned [("detail", "Contributor updated successfully");
                 ("status", "success")], w')
    ∧ contributor_record w' course_uuid contributor_user_id
      = Some (ResourceAuthor.mk (ResourceAuthor.id existing) course_uuid
                contributor_user_id authorship authorship_status
                (ResourceAuthor.creation_date existing)
                (datetime_now_str (ticks w)))
    ∧ length (resourceauthor_tbl w') = length (resourceauthor_tbl w)
    ∧ (NoDup (ResourceAuthor.id <$> resourceauthor_tbl w) →
       ∀ i row, row ≠ existing →
         resourceauthor_tbl w !! i = Some row →
         resourceauthor_tbl w' !! i = Some row).
Proof.
  intros Hid Hok Hc Hrec Hkind.
  eexists. split.
  { unfold contributors.update_course_contributor,
      rbac.authorization_verify_if_user_is_anon.
    rewrite bool_decide_eq_false_2 by done.
    erewrite run_bind_returned by reflexivity.
    erewrite run_bind_returned by apply Hok.
    simpl. by apply (update_contributor_authorized_run _ _ _ _ _ course existing). }
  unfold contributor_record in Hrec.
  destruct (head_filter_Some _ _ _ Hrec) as [Hin Hp].
  apply andb_true_iff in Hp as [Hu Hc'].
  apply bool_decide_eq_true in Hu, Hc'.
  split; [|split].
  - unfold contributor_record. simpl.
    replace (ResourceAuthor.mk _ course_uuid contributor_user_id _ _ _ _)
      with (updated_record w existing authorship authorship_status)
      by (unfold updated_record; by rewrite Hu, Hc').
    apply (head_filter_replace _
             (λ row, bool_decide (ResourceAuthor.id row = ResourceAuthor.id existing))
             _ _ existing); [done|by apply bool_decide_eq_true|].
    unfold updated_record. simpl. rewrite Hu, Hc'.
    by rewrite !bool_decide_eq_true_2.
  - simpl. by rewrite length_fmap.
  - intros Hnd i row Hne Hi. simpl. rewrite list_lookup_fmap, Hi. simpl.
    rewrite bool_decide_eq_false_2; [done|].
    intros Heq. apply Hne.
    apply (NoDup_fmap_eq ResourceAuthor.id (resourceauthor_tbl w)); try done.
    by apply list_elem_of_lookup_2 in Hi.
Qed.

(** X13.  The contributor services write nothing when they fail: whenever
    [update_course_contributor] or [apply_course_contributor] raises, the
    store is the one the call started from. *)
Theorem contributor_calls_fail_without_writing
    (w w' : World) (course_uuid : string) (contributor_user_id : Z)
    (authorship : ResourceAuthorshipEnum)
    (authorship_status : ResourceAuthorshipStatusEnum)
    (current_user : CurrentUser) (e : Exn) :
  (contributors.update_course_contributor course_uuid contributor_user_id
     authorship authorship_status current_user w = (Raised e, w') → w' = w)
  ∧ (applications.apply_course_contributor course_uuid current_user w
       = (Raised e, w') → w' = w).
Proof.
  split.
  - unfold contributors.update_course_contributor,
      rbac.authorization_verify_if_user_is_anon.
    case_bool_decide;
      [erewrite run_bind_raised by reflexivity; intros; by simplify_eq|].
    erewrite run_bind_returned by reflexivity.
    rewrite run_bind.
    destruct (roles_and_authorship_cases (current_user_id current_user)
                update course_uuid w) as [Hc|[Hc|(e' & _ & Hc)]];
      rewrite Hc; try (intros; by simplify_eq).
    simpl. apply update_contributor_authorized_raises.
  - intros Hrun.
    destruct (decide (current_user_id current_user = 0)) as [Hid|Hid].
    { rewrite apply_anonymous in Hrun by done. by simplify_eq. }
    destruct (course_by_uuid w course_uuid) as [course|] eqn:Hc; cycle 1.
    { rewrite apply_unknown_course in Hrun by done. by simplify_eq. }
    destruct (contributor_record w course_uuid (current_user_id current_user))
      as [ra|] eqn:Hrec.
    { rewrite apply_already in Hrun by (done || by rewrite ?Hc, ?Hrec).
      by simplify_eq. }
    rewrite (apply_run w course_uuid current_user course Hid Hc Hrec) in Hrun.
    discriminate.
Qed.
End contributor_update_facts.

(** ** Reading a course *)

Section course_read_facts.
Context {env : Environment}.

Lemma readonly_course_authors uuid : readonly (course_authors uuid).
Proof. apply readonly_gets. Qed.

Lemma readonly_get_course uuid user : readonly (course_reads.get_course uuid user).
Proof.
  unfold course_reads.get_course.
  pose proof readonly_courses_rbac_check. pose proof readonly_course_authors.
  solve_readonly.
Qed.

Lemma readonly_get_course_by_id course_id user :
  readonly (course_reads.get_course_by_id course_id user).
Proof.
  unfold course_reads.get_course_by_id.
  pose proof readonly_courses_rbac_check. pose proof readonly_course_authors.
  solve_readonly.
Qed.

(** The authors that a read model carries. *)
Lemma course_authors_spec uuid w :
  ∃ rows,
    course_authors uuid w
    = (Returned ((λ row : ResourceAuthor.t * User.t, author_with_role row.1 row.2)
                 <$> rows), w)
    ∧ StronglySorted (key_le (λ row : ResourceAuthor.t * User.t,
                                ResourceAuthor.id row.1)) rows
    ∧ (∀ ra user, (ra, user) ∈ rows ↔ authorship_of w uuid ra user).
Proof.
  eexists (order_by _ _). split; [|split].
  - unfold course_authors, gets. f_equal. f_equal.
    apply list_fmap_ext. by intros _ [ra user] _.
  - unfold order_by.
    apply (@StronglySorted_merge_sort _ _ _ (key_le_trans _) (key_le_total _)).
  - intros ra user. unfold order_by. rewrite merge_sort_Permutation.
    rewrite elem_of_select_join. unfold authorship_of.
    rewrite !bool_decide_eq_true. tauto.
Qed.

Lemma get_course_run w course_uuid current_user course :
  course_by_uuid w course_uuid = Some course →
  course_reads.get_course course_uuid current_user w
  = (match (courses.rbac_check (Course.course_uuid course) current_user read w).1 with
     | Returned _ =>
         match (course_authors (Course.course_uuid course) w).1 with
         | Returned authors => Returned (mkCourseRead course authors)
         | Raised e => Raised e
         end
     | Raised e => Raised e
     end, w).
Proof.
  unfold course_by_uuid. intros Hc. unfold course_reads.get_course.
  erewrite run_bind_returned by (unfold exec_first, gets; rewrite Hc; reflexivity).
  cbv beta iota. rewrite run_bind, rbac_check_run.
  by destruct (courses.rbac_check _ _ _ _).1.
Qed.

Lemma get_course_by_id_run w course_id current_user course :
  course_by_id w course_id = Some course →
  course_reads.get_course_by_id course_id current_user w
  = (match (courses.rbac_check (Course.course_uuid course) current_user read w).1 with
     | Returned _ =>
         match (course_authors (Course.course_uuid course) w).1 with
         | Returned authors => Returned (mkCourseRead course authors)
         | Raised e => Raised e
         end
     | Raised e => Raised e
     end, w).
Proof.
  unfold course_by_id. intros Hc. unfold course_reads.get_course_by_id.
  erewrite run_bind_returned by (unfold exec_first, gets; rewrite Hc; reflexivity).
  cbv beta iota. rewrite run_bind, rbac_check_run.
  by destruct (courses.rbac_check _ _ _ _).1.
Qed.

Lemma head_filter_unique {A B} `{EqDecision B} (f : A → B) (l : list A) x :
  NoDup (f <$> l) → x ∈ l →
  head (List.filter (λ y, bool_decide (f y = f x)) l) = Some x.
Proof.
  intros Hnd Hin. induction l as [|a l IH]; [by apply elem_of_nil in Hin|].
  simpl. case_bool_decide as Ha.
  - simpl. f_equal. apply (NoDup_fmap_eq f (a :: l)); try done.
    apply list_elem_of_here.
  - rewrite fmap_cons in Hnd. apply NoDup_cons in Hnd as [_ Hnd].
    apply elem_of_cons in Hin as [->|Hin]; [done|]. by apply IH.
Qed.

(** X14.  [get_course] never writes, and whenever it returns, the read check
    has passed and the value is the stored row of the course as it is,
    with the authors built from exactly the pairs of an authorship record
    of the course and the user row of its user, whatever the kind and the
    status of the record, in ascending order of the keys of the
    records. *)
Theorem get_course_returns_the_stored_course
    (w : World) (course_uuid : string) (current_user : CurrentUser)
    (course : Course.t) :
  course_by_uuid w course_uuid = Some course →
  (course_reads.get_course course_uuid current_user w).2 = w
  ∧ (∀ course_read w',
       course_reads.get_course course_uuid current_user w
         = (Returned course_read, w') →
       (∃ r, (courses.rbac_check course_uuid current_user read w).1 = Returned r)
       ∧ ∃ rows,
           course_read
           = mkCourseRead course
               ((λ row : ResourceAuthor.t * User.t, author_with_role row.1 row.2)
                <$> rows)
           ∧ StronglySorted (key_le (λ row : ResourceAuthor.t * User.t,
                                       ResourceAuthor.id row.1)) rows
           ∧ (∀ ra user, (ra, user) ∈ rows ↔ authorship_of w course_uuid ra user)).
Proof.
  intros Hc. split; [apply readonly_get_course|].
  intros course_read w' Hrun.
  assert (Huuid : Course.course_uuid course = course_uuid).
  { apply head_filter_Some in Hc as [_ Hp]. by apply bool_decide_eq_true in Hp. }
  destruct (course_authors_spec course_uuid w) as (rows & Hauthors & Hsorted & Hrows).
  rewrite (get_course_run w course_uuid current_user course Hc) in Hrun.
  rewrite Huuid, Hauthors in Hrun.
  destruct (courses.rbac_check course_uuid current_user read w).1 as [r|e];
    [|discriminate].
  simpl in Hrun. injection Hrun as <- _.
  split; [by exists r|]. by exists rows.
Qed.

(** X15.  Reading by primary key and reading by identifier agree: for a course
    of the store, keys and identifiers of courses being unique,
    [get_course_by_id] on its key gives what [get_course] gives on its
    identifier, result or error. *)
Theorem get_course_by_id_agrees_with_get_course
    (w : World) (course : Course.t) (current_user : CurrentUser) :
  course ∈ course_tbl w →
  NoDup (Course.id <$> course_tbl w) →
  NoDup (Course.course_uuid <$> course_tbl w) →
  course_reads.get_course_by_id (Course.id course) current_user w
  = course_reads.get_course (Course.course_uuid course) current_user w.
Proof.
  intros Hin Hid Huuid.
  rewrite (get_course_by_id_run w _ current_user course)
    by (by apply head_filter_unique).
  rewrite (get_course_run w _ current_user course)
    by (by apply head_filter_unique).
  done.
Qed.

Lemma update_course_unknown w course_object course_uuid current_user :
  course_by_uuid w course_uuid = None →
  courses.update_course course_object course_uuid current_user w
  = (Raised course_not_found, w).
Proof.
  unfold course_by_uuid. intros Hc. unfold courses.update_course.
  erewrite run_bind_returned by (unfold exec_first, gets; rewrite Hc; reflexivity).
  done.
Qed.

Lemma update_course_denied w course_object course_uuid current_user course e :
  course_by_uuid w course_uuid = Some course →
  (courses.rbac_check (Course.course_uuid course) current_user update w).1
    = Raised e →
  courses.update_course course_object course_uuid current_user w = (Raised e, w).
Proof.
  unfold course_by_uuid. intros Hc He. unfold courses.update_course.
  erewrite run_bind_returned by (unfold exec_first, gets; rewrite Hc; reflexivity).
  cbv beta iota. rewrite run_bind, rbac_check_run, He. done.
Qed.

Lemma get_course_denied w course_uuid current_user course e :
  course_by_uuid w course_uuid = Some course →
  (courses.rbac_check (Course.course_uuid course) current_user read w).1
    = Raised e →
  course_reads.get_course course_uuid current_user w = (Raised e, w).
Proof.
  intros Hc He. rewrite (get_course_run w course_uuid current_user course Hc).
  by rewrite He.
Qed.

Lemma get_course_by_id_denied w course_id current_user course e :
  course_by_id w course_id = Some course →
  (courses.rbac_check (Course.course_uuid course) current_user read w).1
    = Raised e →
  course_reads.get_course_by_id course_id current_user w = (Raised e, w).
Proof.
  intros Hc He. rewrite (get_course_by_id_run w course_id current_user course Hc).
  by rewrite He.
Qed.

(** X16.  The failures of the lookup and of the check come before any write.
    An identifier or a key that names no course makes [update_course],
    [get_course] and [get_course_by_id] raise 404 "Course not found" for
    every subject, before any right is looked at; for a course of the
    store, a refused update check makes [update_course], and a refused
    read check makes the two reads, raise the error of the check; in all
    these cases the store is the one the call started from. *)
Theorem course_lookup_and_check_failures_write_nothing
    (w : World) (course_object : CourseUpdate.t) (course_uuid : string)
    (course_id : Z) (current_user : CurrentUser) :
  (course_by_uuid w course_uuid = None →
     courses.update_course course_object course_uuid current_user w
       = (Raised course_not_found, w)
     ∧ course_reads.get_course course_uuid current_user w
       = (Raised course_not_found, w))
  ∧ (course_by_id w course_id = None →
     course_reads.get_course_by_id course_id current_user w
     = (Raised course_not_found, w))
  ∧ (∀ course e,
       course_by_uuid w course_uuid = Some course →
       (courses.rbac_check (Course.course_uuid course) current_user update w).1
         = Raised e →
       courses.update_course course_object course_uuid current_user w
       = (Raised e, w))
  ∧ (∀ course e,
       course_by_uuid w course_uuid = Some course →
       (courses.rbac_check (Course.course_uuid course) current_user read w).1
         = Raised e →
       course_reads.get_course course_uuid current_user w = (Raised e, w))
  ∧ (∀ course e,
       course_by_id w course_id = Some course →
       (courses.rbac_check (Course.course_uuid course) current_user read w).1
         = Raised e →
       course_reads.get_course_by_id course_id current_user w = (Raised e, w)).
Proof.
  split; [|split; [|split; [|split]]].
  - intros Hc. split; [by apply update_course_unknown|].
    unfold course_by_uuid in Hc. unfold course_reads.get_course.
    erewrite run_bind_returned
      by (unfold exec_first, gets; rewrite Hc; reflexivity).
    done.
  - intros Hc. unfold course_by_id in Hc. unfold course_reads.get_course_by_id.
    erewrite run_bind_returned
      by (unfold exec_first, gets; rewrite Hc; reflexivity).
    done.
  - intros course e. apply update_course_denied.
  - intros course e. apply get_course_denied.
  - intros course e. apply get_course_by_id_denied.
Qed.

(** X17.  Reading after an update: when [update_course] returns, [get_course] on
    the new store gives every logged-in reader that could read the course
    before exactly what the update returned, the rewritten row with its
    authors. *)
Theorem get_course_after_update_course
    (w w' : World) (course_object : CourseUpdate.t) (course_uuid : string)
    (current_user reader : CurrentUser) (updated : CourseRead) (r : option bool) :
  courses.update_course course_object course_uuid current_user w
    = (Returned updated, w') →
  current_user_id reader ≠ 0 →
  (courses.rbac_check course_uuid reader read w).1 = Returned r →
  course_reads.get_course course_uuid reader w' = (Returned updated, w').
Proof.
  intros Hrun Hid Hread.
  destruct (course_by_uuid w course_uuid) as [course|] eqn:Hc; cycle 1.
  { rewrite update_course_unknown in Hrun by done. discriminate. }
  destruct (courses.rbac_check (Course.course_uuid course) current_user update w).1
    as [r'|e'] eqn:Hr; cycle 1.
  { rewrite (update_course_denied _ _ _ _ course e') in Hrun by done.
    discriminate. }
  assert (Huuid : Course.course_uuid course = course_uuid).
  { apply head_filter_Some in Hc as [_ Hp]. by apply bool_decide_eq_true in Hp. }
  destruct (update_course_run w course_object course_uuid current_user
              course r' Hc Hr)
    as (course' & authors & Hrun' & Hfields).
  assert (Hid' : Course.id course' = Course.id course) by tauto.
  assert (Huuid' : Course.course_uuid course' = course_uuid)
    by (rewrite <- Huuid; tauto).
  clear Hfields.
  pose proof Hrun' as Hauthors.
  unfold courses.update_course in Hauthors.
  erewrite run_bind_returned in Hauthors
    by (unfold exec_first, gets; unfold course_by_uuid in Hc; rewrite Hc;
        reflexivity).
  cbv beta iota in Hauthors.
  erewrite run_bind_returned in Hauthors by (by apply rbac_check_run_courses).
  erewrite run_bind_returned in Hauthors by reflexivity.
  erewrite run_bind_returned in Hauthors by reflexivity.
  rewrite Hrun' in Hrun. simplify_eq.
  set (w' := set_course_tbl _ _) in *.
  assert (Hc' : course_by_uuid w' (Course.course_uuid course') = Some course').
  { unfold course_by_uuid, w'. simpl.
    apply (head_filter_replace _
             (λ row, bool_decide (Course.id row = Course.id course)) _ _ course);
      [rewrite Huuid'; exact Hc| |]; by apply bool_decide_eq_true. }
  rewrite Huuid' in Hc'.
  rewrite (get_course_run w' _ reader course' Hc').
  assert (Hcheck :
    (courses.rbac_check (Course.course_uuid course') reader read w').1
    = Returned r).
  { rewrite <- Hread, Huuid'. symmetry. apply rbac_check_congr; [done|].
    apply roles_and_authorship_congr; [by apply is_author_frame|by apply roles_frame]. }
  rewrite Hcheck.
  unfold course_authors, gets in Hauthors |- *.
  cbv [mbind M_bind mret M_ret] in Hauthors.
  injection Hauthors as Hcourse Hauth.
  simpl. rewrite <- Hauth, Hcourse. reflexivity.
Qed.

Lemma anonymous_read_private w user course :
  current_user_id user = 0 →
  course ∈ course_tbl w →
  check_element_type (Course.course_uuid course) = Returned "courses" →
  Course.public course = false →
  NoDup (Course.course_uuid <$> course_tbl w) →
  courses.rbac_check (Course.course_uuid course) user read w
  = (Raised forbidden_not_public, w).
Proof.
  intros Hanon Hin Ht Hpriv Hnd.
  unfold courses.rbac_check. simpl. rewrite bool_decide_eq_true_2 by done.
  unfold rbac.authorization_verify_if_element_is_public. rewrite Ht.
  cbv [lift_outcome mbind M_bind mret M_ret exec_first gets raise]. simpl.
  rewrite head_filter_None; [done|].
  intros c Hc. apply andb_false_iff.
  destruct (decide (Course.course_uuid c = Course.course_uuid course)) as [Heq|Hne].
  - left. rewrite (NoDup_fmap_eq _ _ _ _ Hnd Hc Hin Heq). done.
  - right. by apply bool_decide_eq_false.
Qed.

(** X18.  The list of contributors is given without any check of the caller:
    the outcome of [get_course_contributors] on an existing course is the
    same for every subject, the anonymous one included; it writes nothing,
    and whenever it returns, its entries are built from exactly the pairs
    of an authorship record of the course and the user row of its user,
    PENDING applications included, each with the user row.  For a private
    course the same anonymous subject is refused by [get_course] with the
    403 of the public check. *)
Theorem contributors_are_listed_without_a_check
    (w : World) (course_uuid : string) (current_user : CurrentUser)
    (course : Course.t) :
  course_by_uuid w course_uuid = Some course →
  (∀ other,
     applications.get_course_contributors course_uuid other w
     = applications.get_course_contributors course_uuid current_user w)
  ∧ (∀ entries w',
       applications.get_course_contributors course_uuid current_user w
         = (Returned entries, w') →
       w' = w
       ∧ ∀ entry, entry ∈ entries ↔
           ∃ ra user, authorship_of w course_uuid ra user
                      ∧ entry = contributor_entry ra user)
  ∧ (current_user_id current_user = 0 →
     Course.public course = false →
     NoDup (Course.course_uuid <$> course_tbl w) →
     check_element_type course_uuid = Returned "courses" →
     course_reads.get_course course_uuid current_user w
     = (Raised forbidden_not_public, w)).
Proof.
  intros Hc. pose proof Hc as Hc0. unfold course_by_uuid in Hc.
  destruct (head_filter_Some _ _ _ Hc) as [Hin Huuid].
  apply bool_decide_eq_true in Huuid.
  split; [done|]. split.
  - intros entries w' Hrun.
    unfold applications.get_course_contributors in Hrun.
    erewrite run_bind_returned in Hrun
      by (unfold exec_first, gets; rewrite Hc; reflexivity).
    cbv [mbind M_bind gets mret M_ret] in Hrun.
    injection Hrun as <- <-. split; [done|].
    intros entry. rewrite list_elem_of_fmap. split.
    + intros ([ra user] & -> & Hrow). exists ra, user. split; [|done].
      apply elem_of_select_join in Hrow.
      unfold authorship_of. rewrite !bool_decide_eq_true in Hrow. tauto.
    + intros (ra & user & Hrow & ->). exists (ra, user). split; [done|].
      apply elem_of_select_join. unfold authorship_of in Hrow.
      rewrite !bool_decide_eq_true. tauto.
  - intros Hanon Hpriv Hnd Ht.
    rewrite (get_course_run w course_uuid current_user course Hc0).
    rewrite <- Huuid in Ht.
    by rewrite (anonymous_read_private w current_user course).
Qed.
End course_read_facts.

(** ** Creating a chapter *)

Section more_create_chapter_facts.
Context {env : Environment}.

Lemma exec_one_run {A} (tbl : World → list A) (p : A → bool) w :
  exec_one tbl p w
  = (match List.filter p (tbl w) with
     | [] => Raised NoResultFound
     | [row] => Returned row
     | _ => Raised MultipleResultsFound
     end, w).
Proof.
  unfold exec_one, exec_all, gets. cbv [mbind M_bind].
  destruct (List.filter p (tbl w)) as [|a [|b l]]; reflexivity.
Qed.

(** The chapter that [create_chapter] builds from the request. *)
Lemma create_chapter_fields w chapter_object current_user course cid r :
  getattr chapter_object "course_id" = PInt cid →
  List.filter (λ c, bool_decide (Course.id c = cid)) (course_tbl w) = [course] →
  (chapters.rbac_check "chapter_x" current_user create w).1 = Returned r →
  ∃ chapter w',
    chapters.create_chapter chapter_object current_user w
    = (Returned (mkChapterRead chapter []), w')
    ∧ chapter_tbl w' = chapter_tbl w ++ [chapter]
    ∧ chapter !! "id"
      = Some (PInt (next_id ((λ row, as_int (getattr row "id")) <$> chapter_tbl w)))
    ∧ chapter !! "org_id" = Some (PInt (Course.org_id course))
    ∧ chapter !! "course_id" = Some (PInt cid)
    ∧ chapter !! "chapter_uuid" = Some (PStr ("chapter_" +:+ uuid4_str (ticks w)))
    ∧ chapter !! "creation_date" = Some (PStr (datetime_now_str (S (ticks w))))
    ∧ chapter !! "update_date" = Some (PStr (datetime_now_str (S (S (ticks w)))))
    ∧ (∀ k, k ∉ ["id"; "org_id"; "course_id"; "chapter_uuid"; "creation_date";
                 "update_date"] →
         chapter !! k = chapter_object !! k).
Proof.
  intros Hcid Hone Hr. apply rbac_check_run_chapters in Hr.
  unfold chapters.create_chapter. rewrite Hcid.
  erewrite run_bind_returned; cycle 1.
  { rewrite exec_one_run.
    rewrite (List.filter_ext _ (λ c, bool_decide (Course.id c = cid)))
      by (intros c; apply PInt_eq_decide).
    rewrite Hone. reflexivity. }
  erewrite run_bind_returned by apply Hr.
  erewrite run_bind_returned by reflexivity.
  erewrite run_bind_returned by reflexivity.
  erewrite run_bind_returned by reflexivity.
  erewrite run_bind_returned; cycle 1.
  { unfold gets. simpl.
    rewrite (List.filter_ext _
               (λ cc, bool_decide (CourseChapter.course_id cc = cid))); cycle 1.
    { intros cc. unfold getattr.
      rewrite !lookup_insert_ne, lookup_insert_eq by done. simpl.
      apply PInt_eq_decide. }
    reflexivity. }
  fold (course_links w cid).
  erewrite run_bind_returned by reflexivity.
  set (last_order := match last (order_by CourseChapter.order (course_links w cid)) with
                     | Some cc => CourseChapter.order cc
                     | None => 0
                     end).
  set (chapter := <["id" := _]> _).
  match goal with
  | |- context [(exec_first ?t ?p ≫= ?k) ?w0] =>
      change ((exec_first t p ≫= k) w0)
        with (k (head (List.filter p (t w0))) w0)
  end.
  cbv beta.
  assert (Hfields :
    chapter !! "id"
      = Some (PInt (next_id ((λ row, as_int (getattr row "id")) <$> chapter_tbl w)))
    ∧ chapter !! "org_id" = Some (PInt (Course.org_id course))
    ∧ chapter !! "course_id" = Some (PInt cid)
    ∧ chapter !! "chapter_uuid" = Some (PStr ("chapter_" +:+ uuid4_str (ticks w)))
    ∧ chapter !! "creation_date" = Some (PStr (datetime_now_str (S (ticks w))))
    ∧ chapter !! "update_date" = Some (PStr (datetime_now_str (S (S (ticks w)))))
    ∧ (∀ k, k ∉ ["id"; "org_id"; "course_id"; "chapter_uuid"; "creation_date";
                 "update_date"] →
         chapter !! k = chapter_object !! k)).
  { subst chapter. simpl.
    repeat split;
      try (rewrite ?lookup_insert_eq; rewrite ?lookup_insert_ne by done;
           rewrite ?lookup_insert_eq; reflexivity).
    intros k Hk. rewrite !not_elem_of_cons in Hk.
    destruct Hk as (? & ? & ? & ? & ? & ? & _).
    by rewrite !lookup_insert_ne by done. }
  destruct (head _) as [cc|].
  - eexists chapter, _. split; [reflexivity|]. split; [reflexivity|]. exact Hfields.
  - erewrite run_bind_returned; cycle 1.
    { erewrite run_bind_returned by reflexivity.
      erewrite run_bind_returned by reflexivity.
      reflexivity. }
    eexists chapter, _. split; [reflexivity|]. split; [reflexivity|]. exact Hfields.
Qed.

(** X19.  [create_chapter] asks for the right to create on the fixed identifier
    "chapter_x", never for a right on the course: every logged-in subject,
    whatever its roles and authorship records, adds a chapter to any
    existing course, as its last chapter. *)
Theorem create_chapter_needs_no_right_on_the_course
    (w : World) (chapter_object : PyObj) (current_user : CurrentUser)
    (course : Course.t) (cid : Z) (t : string) :
  current_user_id current_user ≠ 0 →
  check_element_type "chapter_x" = Returned t →
  getattr chapter_object "course_id" = PInt cid →
  List.filter (λ c, bool_decide (Course.id c = cid)) (course_tbl w) = [course] →
  ∃ chapter link w',
    chapters.create_chapter chapter_object current_user w
    = (Returned (mkChapterRead chapter []), w')
    ∧ chapter_tbl w' = chapter_tbl w ++ [chapter]
    ∧ coursechapter_tbl w' = coursechapter_tbl w ++ [link]
    ∧ CourseChapter.course_id link = cid
    ∧ getattr chapter "id" = PInt (CourseChapter.chapter_id link).
Proof.
  intros Hid Ht Hcid Hone.
  destruct (create_chapter_run w chapter_object current_user course cid None
              Hcid Hone) as (chapter & link & w' & Hrun & Hch & Hl & Hc & _ & Hi & _).
  { change (chapters.rbac_check "chapter_x" current_user create w)
      with (courses.rbac_check "chapter_x" current_user create w).
    by rewrite (create_granted "chapter_x" current_user t w). }
  exists chapter, link, w'. done.
Qed.

(** X20.  The fields of a new chapter that the server assigns: whatever the
    request carries under these names, the chapter gets a primary key that
    no chapter of the store has, the organization of its course, an
    identifier made of "chapter_" and a fresh uuid, and the times of the
    call as dates; every other attribute is the submitted one. *)
Theorem create_chapter_assigns_the_server_fields
    (w : World) (chapter_object : PyObj) (current_user : CurrentUser)
    (course : Course.t) (cid : Z) (r : option bool) :
  getattr chapter_object "course_id" = PInt cid →
  List.filter (λ c, bool_decide (Course.id c = cid)) (course_tbl w) = [course] →
  (chapters.rbac_check "chapter_x" current_user create w).1 = Returned r →
  ∃ chapter w',
    chapters.create_chapter chapter_object current_user w
    = (Returned (mkChapterRead chapter []), w')
    ∧ (∀ row, row ∈ chapter_tbl w → getattr row "id" ≠ getattr chapter "id")
    ∧ getattr chapter "org_id" = PInt (Course.org_id course)
    ∧ getattr chapter "chapter_uuid" = PStr ("chapter_" +:+ uuid4_str (ticks w))
    ∧ getattr chapter "creation_date" = PStr (datetime_now_str (S (ticks w)))
    ∧ getattr chapter "update_date" = PStr (datetime_now_str (S (S (ticks w))))
    ∧ (∀ k, k ∉ ["id"; "org_id"; "course_id"; "chapter_uuid"; "creation_date";
                 "update_date"] →
         chapter !! k = chapter_object !! k).
Proof.
  intros Hcid Hone Hr.
  destruct (create_chapter_fields w chapter_object current_user course cid r
              Hcid Hone Hr)
    as (chapter & w' & Hrun & _ & Hi & Ho & _ & Hu & Hcd & Hud & Hrest).
  exists chapter, w'. split; [done|].
  unfold getattr. rewrite Hi, Ho, Hu, Hcd, Hud. simpl.
  repeat split; try done.
  intros row Hin Heq.
  apply (next_id_fresh ((λ row, as_int (default PNone (row !! "id"))) <$> chapter_tbl w)).
  apply list_elem_of_fmap. exists row. split; [|done]. by rewrite Heq.
Qed.

(** X21.  The course of a new chapter is looked up before the caller is: when no
    course has the submitted [course_id] as its key, [create_chapter]
    raises [NoResultFound], which is not an HTTP error, for every subject,
    the anonymous one included, and writes nothing; with more than one
    such course it raises [MultipleResultsFound]. *)
Theorem create_chapter_looks_up_the_course_first
    (w : World) (chapter_object : PyObj) (current_user : CurrentUser) :
  (List.filter
     (λ c, bool_decide (PInt (Course.id c) = getattr chapter_object "course_id"))
     (course_tbl w) = [] →
   chapters.create_chapter chapter_object current_user w
   = (Raised NoResultFound, w))
  ∧ ((1 < length (List.filter
                    (λ c, bool_decide (PInt (Course.id c)
                                       = getattr chapter_object "course_id"))
                    (course_tbl w)))%nat →
     chapters.create_chapter chapter_object current_user w
     = (Raised MultipleResultsFound, w)).
Proof.
  split; intros Hrows; unfold chapters.create_chapter;
    erewrite run_bind_raised; try reflexivity; rewrite exec_one_run.
  - by rewrite Hrows.
  - destruct (List.filter _ _) as [|a [|b l]]; simpl in Hrows; [lia|lia|done].
Qed.
End more_create_chapter_facts.

(** ** Updating a chapter *)

Section more_update_chapter_facts.
Context {env : Environment}.

(** [update_chapter] after its commit: what is left is the read of the
    chapter on the store that holds the rewritten row. *)
Lemma update_chapter_commits_then_reads
    w chapter_object chapter_id current_user chapter r :
  chapter_by_id w chapter_id = Some chapter →
  (chapters.rbac_check (as_str (getattr chapter "chapter_uuid"))
     current_user update w).1 = Returned r →
  chapter_object !! "id" = None →
  ∃ chapter' : PyObj,
    chapters.update_chapter chapter_object chapter_id current_user w
    = chapters.get_chapter chapter_id current_user
        (set_chapter_tbl
           ((λ row, if bool_decide (getattr row "id" = PInt chapter_id)
                    then chapter' else row) <$> chapter_tbl w)
           (set_ticks (S (ticks w)) w))
    ∧ (∀ k, k ≠ "update_date" →
         chapter' !! k = match chapter_object !! k with
                         | Some v => if is_not_None v then Some v
                                     else chapter !! k
                         | None => chapter !! k
                         end)
    ∧ chapter' !! "update_date" = Some (PStr (datetime_now_str (ticks w))).
Proof.
  unfold chapter_by_id. intros Hc Hr Hnoid. apply rbac_check_run_chapters in Hr.
  destruct (head_filter_Some _ _ _ Hc) as [_ Hpk].
  apply bool_decide_eq_true in Hpk.
  unfold chapters.update_chapter.
  erewrite run_bind_returned by (unfold exec_first, gets; rewrite Hc; reflexivity).
  cbv beta iota.
  erewrite run_bind_returned by apply Hr.
  erewrite run_bind_returned by reflexivity.
  erewrite run_bind_returned by reflexivity.
  rewrite Hpk.
  set (chapter' := <["update_date" := _]> _).
  assert (Hkeys : ∀ k, k ≠ "update_date" →
            chapter' !! k = match chapter_object !! k with
                            | Some v => if is_not_None v then Some v
                                        else chapter !! k
                            | None => chapter !! k
                            end).
  { intros k Hk. unfold chapter'. rewrite lookup_insert_ne by done.
    apply patch_lookup. }
  assert (Hid : getattr chapter' "id" = PInt chapter_id).
  { unfold getattr. rewrite Hkeys by done. rewrite Hnoid. exact Hpk. }
  rewrite Hid. simpl.
  exists chapter'. split; [reflexivity|]. split; [exact Hkeys|].
  apply lookup_insert_eq.
Qed.

(** X22.  [update_chapter] is not atomic: it commits the rewritten row and only
    then reads the chapter back, so a failure of that read reaches the
    caller with the update in the store.  For an update that the caller
    may make and that leaves the key and the course of the chapter alone,
    the call raises 409 "Course does not exist" when the course of the
    chapter is gone, and the error of the read check when the caller may
    not read the course; in both cases the chapter holds the submitted
    attributes afterwards. *)
Theorem update_chapter_can_fail_after_writing
    (w : World) (chapter_object : PyObj) (chapter_id : Z)
    (current_user : CurrentUser) (chapter : PyObj) (r : option bool) :
  chapter_by_id w chapter_id = Some chapter →
  (chapters.rbac_check (as_str (getattr chapter "chapter_uuid"))
     current_user update w).1 = Returned r →
  chapter_object !! "id" = None →
  chapter_object !! "course_id" = None →
  ∃ (chapter' : PyObj) (w' : World),
    chapter_by_id w' chapter_id = Some chapter'
    ∧ (∀ k v, chapter_object !! k = Some v → is_not_None v = true →
         k ≠ "update_date" → chapter' !! k = Some v)
    ∧ (head (List.filter
               (λ c, bool_decide (PInt (Course.id c) = getattr chapter "course_id"))
               (course_tbl w)) = None →
       chapters.update_chapter chapter_object chapter_id current_user w
       = (Raised (HTTPException HTTP_409_CONFLICT "Course does not exist"), w'))
    ∧ (∀ course e,
         head (List.filter
                 (λ c, bool_decide (PInt (Course.id c) = getattr chapter "course_id"))
                 (course_tbl w)) = Some course →
         (chapters.rbac_check (Course.course_uuid course) current_user read w).1
           = Raised e →
         chapters.update_chapter chapter_object chapter_id current_user w
         = (Raised e, w')).
Proof.
  intros Hc Hr Hnoid Hnocourse.
  destruct (update_chapter_commits_then_reads w chapter_object chapter_id
              current_user chapter r Hc Hr Hnoid)
    as (chapter' & Hrun & Hkeys & _).
  destruct (head_filter_Some _ _ _ Hc) as [_ Hpk].
  apply bool_decide_eq_true in Hpk.
  assert (Hid : getattr chapter' "id" = PInt chapter_id).
  { unfold getattr. rewrite Hkeys by done. rewrite Hnoid. exact Hpk. }
  assert (Hcourse : getattr chapter' "course_id" = getattr chapter "course_id").
  { unfold getattr. rewrite Hkeys by done. by rewrite Hnocourse. }
  set (w' := set_chapter_tbl _ _) in Hrun.
  assert (Hc' : chapter_by_id w' chapter_id = Some chapter').
  { unfold chapter_by_id, w'. simpl.
    apply (head_filter_replace _
             (λ row, bool_decide (getattr row "id" = PInt chapter_id))
             _ _ chapter); [exact Hc| |]; by apply bool_decide_eq_true. }
  exists chapter', w'. split; [exact Hc'|]. split; [|split].
  - intros k v Hk Hv Hne. rewrite Hkeys by done. by rewrite Hk, Hv.
  - intros Hnone. rewrite Hrun. unfold chapters.get_chapter.
    erewrite run_bind_returned
      by (unfold exec_first, gets; unfold chapter_by_id in Hc'; rewrite Hc';
          reflexivity).
    cbv beta iota. rewrite Hcourse.
    erewrite run_bind_returned
      by (unfold exec_first, gets; simpl; rewrite Hnone; reflexivity).
    done.
  - intros course e Hsome He. rewrite Hrun. unfold chapters.get_chapter.
    erewrite run_bind_returned
      by (unfold exec_first, gets; unfold chapter_by_id in Hc'; rewrite Hc';
          reflexivity).
    cbv beta iota. rewrite Hcourse.
    erewrite run_bind_returned
      by (unfold exec_first, gets; simpl; rewrite Hsome; reflexivity).
    cbv beta iota.
    erewrite run_bind_raised; [reflexivity|].
    change (chapters.rbac_check (Course.course_uuid course) current_user read w')
      with (courses.rbac_check (Course.course_uuid course) current_user read w').
    rewrite (rbac_check_transfer w w') by done.
    by rewrite <- He.
Qed.
End more_update_chapter_facts.

(** ** Deleting links and chapters *)

Section removal_facts.
Context {env : Environment}.

Lemma set_chapteractivity_tbl_same w :
  set_chapteractivity_tbl (chapteractivity_tbl w) w = w.
Proof. by destruct w. Qed.

Lemma set_coursechapter_tbl_same w :
  set_coursechapter_tbl (coursechapter_tbl w) w = w.
Proof. by destruct w. Qed.

(** Deleting the rows of a list of keys, one [delete] for each key. *)
Lemma delete_chapter_activities_run (rows : list ChapterActivity.t) w :
  for_each rows (λ ca, chapters.delete_chapter_activity (ChapterActivity.id ca)) w
  = (Returned tt,
     set_chapteractivity_tbl
       (List.filter
          (λ row, negb (bool_decide (ChapterActivity.id row
                                     ∈ ChapterActivity.id <$> rows)))
          (chapteractivity_tbl w)) w).
Proof.
  revert w. induction rows as [|ca rows IH]; intros w.
  - simpl. rewrite filter_all; [by rewrite set_chapteractivity_tbl_same|].
    intros row _. done.
  - simpl. erewrite run_bind_returned by reflexivity. rewrite IH.
    f_equal. destruct w. unfold set_chapteractivity_tbl. simpl. f_equal.
    rewrite filter_filter_list. apply List.filter_ext. intros row.
    rewrite <- negb_orb. f_equal.
    destruct (decide (ChapterActivity.id row = ChapterActivity.id ca)) as [Heq|Hne].
    + rewrite (bool_decide_eq_true_2 (ChapterActivity.id row = _)) by done.
      simpl. symmetry. apply bool_decide_eq_true_2.
      rewrite Heq. apply list_elem_of_here.
    + rewrite (bool_decide_eq_false_2 (ChapterActivity.id row = _)) by done.
      simpl.
      apply bool_decide_ext. rewrite elem_of_cons. split; [auto|].
      intros [?|?]; done.
Qed.

Lemma delete_course_chapters_run (rows : list CourseChapter.t) w :
  for_each rows (λ cc, chapters.delete_course_chapter (CourseChapter.id cc)) w
  = (Returned tt,
     set_coursechapter_tbl
       (List.filter
          (λ row, negb (bool_decide (CourseChapter.id row
                                     ∈ CourseChapter.id <$> rows)))
          (coursechapter_tbl w)) w).
Proof.
  revert w. induction rows as [|cc rows IH]; intros w.
  - simpl. rewrite filter_all; [by rewrite set_coursechapter_tbl_same|].
    intros row _. done.
  - simpl. erewrite run_bind_returned by reflexivity. rewrite IH.
    f_equal. destruct w. unfold set_coursechapter_tbl. simpl. f_equal.
    rewrite filter_filter_list. apply List.filter_ext. intros row.
    rewrite <- negb_orb. f_equal.
    destruct (decide (CourseChapter.id row = CourseChapter.id cc)) as [Heq|Hne].
    + rewrite (bool_decide_eq_true_2 (CourseChapter.id row = _)) by done.
      simpl. symmetry. apply bool_decide_eq_true_2.
      rewrite Heq. apply list_elem_of_here.
    + rewrite (bool_decide_eq_false_2 (CourseChapter.id row = _)) by done.
      simpl.
      apply bool_decide_ext. rewrite elem_of_cons. split; [auto|].
      intros [?|?]; done.
Qed.

(** With unique keys, deleting the keys of the rows a query selected
    deletes the selected rows and no other. *)
Lemma filter_out_selected {A} (key : A → Z) (sel : A → bool) (l : list A) :
  NoDup (key <$> l) →
  List.filter (λ row, negb (bool_decide (key row ∈ key <$> List.filter sel l))) l
  = List.filter (λ row, negb (sel row)) l.
Proof.
  intros Hnd. apply List.filter_ext_in. intros row Hin.
  apply list_elem_of_In in Hin. f_equal.
  destruct (sel row) eqn:Hs.
  - apply bool_decide_eq_true_2. apply list_elem_of_fmap. exists row.
    split; [done|]. apply list_elem_of_In, filter_In.
    split; [by apply list_elem_of_In|done].
  - apply bool_decide_eq_false_2. intros Hk.
    apply list_elem_of_fmap in Hk as (row' & Hkey & Hin').
    apply list_elem_of_In, filter_In in Hin' as [Hin' Hs'].
    apply list_elem_of_In in Hin'.
    assert (row = row') by (by apply (NoDup_fmap_eq key l)).
    congruence.
Qed.

Lemma delete_chapter_run w chapter_id current_user chapter r :
  chapter_by_id w chapter_id = Some chapter →
  (chapters.rbac_check (as_str (getattr chapter "chapter_uuid"))
     current_user delete w).1 = Returned r →
  chapter_removal.delete_chapter chapter_id current_user w
  = (Returned [("detail", "chapter deleted")],
     set_chapter_tbl
       (List.filter (λ row, negb (bool_decide (getattr row "id" = PInt chapter_id)))
          (chapter_tbl w))
       (set_chapteractivity_tbl
          (List.filter
             (λ row, negb (bool_decide
                (ChapterActivity.id row
                 ∈ ChapterActivity.id
                   <$> List.filter
                         (λ ca, bool_decide (ChapterActivity.chapter_id ca = chapter_id))
                         (chapteractivity_tbl w))))
             (chapteractivity_tbl w)) w)).
Proof.
  unfold chapter_by_id. intros Hc Hr. apply rbac_check_run_chapters in Hr.
  destruct (head_filter_Some _ _ _ Hc) as [_ Hpk].
  apply bool_decide_eq_true in Hpk.
  unfold chapter_removal.delete_chapter.
  erewrite run_bind_returned by (unfold exec_first, gets; rewrite Hc; reflexivity).
  cbv beta iota.
  erewrite run_bind_returned by apply Hr.
  erewrite run_bind_returned by reflexivity.
  erewrite run_bind_returned by apply delete_chapter_activities_run.
  rewrite Hpk.
  rewrite (List.filter_ext
             (λ ca, bool_decide (PInt (ChapterActivity.chapter_id ca)
                                 = PInt chapter_id))
             (λ ca, bool_decide (ChapterActivity.chapter_id ca = chapter_id)))
    by (intros ca; apply PInt_eq_decide).
  reflexivity.
Qed.

(** X23.  Deleting a chapter removes the chapter row and, keys of activity links
    being unique, exactly the activity links of that chapter; the other
    chapters and the links of the other chapters stay as they were, in
    their order.  Afterwards the chapter is gone for every caller: reading
    it or deleting it again raises 409 "Chapter does not exist". *)
Theorem delete_chapter_removes_chapter_and_links
    (w : World) (chapter_id : Z) (current_user : CurrentUser)
    (chapter : PyObj) (r : option bool) :
  chapter_by_id w chapter_id = Some chapter →
  (chapters.rbac_check (as_str (getattr chapter "chapter_uuid"))
     current_user delete w).1 = Returned r →
  NoDup (ChapterActivity.id <$> chapteractivity_tbl w) →
  ∃ w',
    chapter_removal.delete_chapter chapter_id current_user w
    = (Returned [("detail", "chapter deleted")], w')
    ∧ chapter_tbl w'
      = List.filter (λ row, negb (bool_decide (getattr row "id" = PInt chapter_id)))
          (chapter_tbl w)
    ∧ chapteractivity_tbl w'
      = List.filter
          (λ ca, negb (bool_decide (ChapterActivity.chapter_id ca = chapter_id)))
          (chapteractivity_tbl w)
    ∧ (∀ user,
         chapters.get_chapter chapter_id user w'
         = (Raised (HTTPException HTTP_409_CONFLICT "Chapter does not exist"), w')
         ∧ chapter_removal.delete_chapter chapter_id user w'
           = (Raised (HTTPException HTTP_409_CONFLICT "Chapter does not exist"), w')).
Proof.
  intros Hc Hr Hnd. eexists. split; [by apply (delete_chapter_run _ _ _ chapter r)|].
  split; [reflexivity|]. split.
  - simpl. by apply (filter_out_selected ChapterActivity.id).
  - intros user.
    assert (Hgone :
      head (List.filter (λ c, bool_decide (getattr c "id" = PInt chapter_id))
              (List.filter
                 (λ row, negb (bool_decide (getattr row "id" = PInt chapter_id)))
                 (chapter_tbl w))) = None).
    { apply head_filter_None. intros row Hin.
      apply list_elem_of_In, filter_In in Hin as [_ Hp].
      apply negb_true_iff in Hp. exact Hp. }
    split.
    + unfold chapters.get_chapter.
      erewrite run_bind_returned
        by (unfold exec_first, gets; simpl; rewrite Hgone; reflexivity).
      done.
    + unfold chapter_removal.delete_chapter.
      erewrite run_bind_returned
        by (unfold exec_first, gets; simpl; rewrite Hgone; reflexivity).
      done.
Qed.

Lemma for_each_ext {A} (xs : list A) (body body' : A → M unit) :
  (∀ x, body x = body' x) → for_each xs body = for_each xs body'.
Proof.
  intros Hext. induction xs as [|x xs IH]; [done|]. simpl. by rewrite Hext, IH.
Qed.

Lemma reorder_unknown w course_uuid chapters_order current_user :
  course_by_uuid w course_uuid = None →
  chapters.reorder_chapters_and_activities course_uuid chapters_order
    current_user w
  = (Raised (HTTPException HTTP_409_CONFLICT "Course does not exist"), w).
Proof.
  unfold course_by_uuid. intros Hc.
  unfold chapters.reorder_chapters_and_activities.
  erewrite run_bind_returned by (unfold exec_first, gets; rewrite Hc; reflexivity).
  done.
Qed.

Lemma reorder_denied w course_uuid chapters_order current_user course e :
  course_by_uuid w course_uuid = Some course →
  (chapters.rbac_check (Course.course_uuid course) current_user update w).1
    = Raised e →
  chapters.reorder_chapters_and_activities course_uuid chapters_order
    current_user w = (Raised e, w).
Proof.
  unfold course_by_uuid. intros Hc He.
  unfold chapters.reorder_chapters_and_activities.
  erewrite run_bind_returned by (unfold exec_first, gets; rewrite Hc; reflexivity).
  cbv beta iota. rewrite run_bind.
  change (chapters.rbac_check (Course.course_uuid course) current_user update w)
    with (courses.rbac_check (Course.course_uuid course) current_user update w)
    in *.
  rewrite rbac_check_run, He. done.
Qed.

(** X24.  The edge of the reorder: a request that names no chapter deletes, keys
    of links being unique, every chapter link and every activity link of
    the course under its organization, and nothing else. *)
Theorem empty_reorder_removes_every_link
    (w : World) (course_uuid : string) (current_user : CurrentUser)
    (course : Course.t) (r : option bool) :
  course_by_uuid w course_uuid = Some course →
  (chapters.rbac_check (Course.course_uuid course) current_user update w).1
    = Returned r →
  NoDup (CourseChapter.id <$> coursechapter_tbl w) →
  NoDup (ChapterActivity.id <$> chapteractivity_tbl w) →
  ∃ w',
    chapters.reorder_chapters_and_activities course_uuid empty_order
      current_user w
    = (Returned [("detail", "Chapters and activities reordered successfully")], w')
    ∧ coursechapter_tbl w'
      = List.filter (λ cc, negb (selects_link course cc)) (coursechapter_tbl w)
    ∧ chapteractivity_tbl w'
      = List.filter (λ ca, negb (selects_activity_link course ca))
          (chapteractivity_tbl w)
    ∧ existing_links w' course = [].
Proof.
  unfold course_by_uuid. intros Hc Hr Hndc Hnda. apply rbac_check_run_chapters in Hr.
  eexists. split.
  { unfold chapters.reorder_chapters_and_activities.
    erewrite run_bind_returned by (unfold exec_first, gets; rewrite Hc; reflexivity).
    cbv beta iota.
    erewrite run_bind_returned by apply Hr.
    erewrite run_bind_returned by reflexivity.
    erewrite run_bind_returned by reflexivity.
    erewrite run_bind_returned; cycle 1.
    { erewrite for_each_ext; [apply delete_course_chapters_run|].
      intros cc. simpl. by rewrite bool_decide_eq_true_2 by set_solver. }
    erewrite run_bind_returned by reflexivity.
    erewrite run_bind_returned by reflexivity.
    erewrite run_bind_returned; cycle 1.
    { erewrite for_each_ext; [apply delete_chapter_activities_run|].
      intros ca. simpl. by rewrite bool_decide_eq_true_2 by set_solver. }
    reflexivity. }
  simpl. fold (selects_link course).
  rewrite (filter_out_selected CourseChapter.id) by done.
  split; [reflexivity|]. split.
  - by apply (filter_out_selected ChapterActivity.id (selects_activity_link course)).
  - unfold existing_links. simpl.
    rewrite filter_filter_list. apply head_None, head_filter_None.
    intros cc _. by destruct (selects_link course cc).
Qed.

Lemma create_chapter_denied w chapter_object current_user course e :
  List.filter
    (λ c, bool_decide (PInt (Course.id c) = getattr chapter_object "course_id"))
    (course_tbl w) = [course] →
  (chapters.rbac_check "chapter_x" current_user create w).1 = Raised e →
  chapters.create_chapter chapter_object current_user w = (Raised e, w).
Proof.
  intros Hrows Hr. unfold chapters.create_chapter.
  erewrite run_bind_returned by (rewrite exec_one_run, Hrows; reflexivity).
  erewrite run_bind_raised; [reflexivity|].
  change (chapters.rbac_check "chapter_x" current_user create w)
    with (courses.rbac_check "chapter_x" current_user create w) in *.
  by rewrite rbac_check_run, Hr.
Qed.

Lemma delete_chapter_unknown w chapter_id current_user :
  chapter_by_id w chapter_id = None →
  chapter_removal.delete_chapter chapter_id current_user w
  = (Raised (HTTPException HTTP_409_CONFLICT "Chapter does not exist"), w).
Proof.
  unfold chapter_by_id. intros Hc. unfold chapter_removal.delete_chapter.
  erewrite run_bind_returned by (unfold exec_first, gets; rewrite Hc; reflexivity).
  done.
Qed.

Lemma delete_chapter_denied w chapter_id current_user chapter e :
  chapter_by_id w chapter_id = Some chapter →
  (chapters.rbac_check (as_str (getattr chapter "chapter_uuid"))
     current_user delete w).1 = Raised e →
  chapter_removal.delete_chapter chapter_id current_user w = (Raised e, w).
Proof.
  unfold chapter_by_id. intros Hc He. unfold chapter_removal.delete_chapter.
  erewrite run_bind_returned by (unfold exec_first, gets; rewrite Hc; reflexivity).
  cbv beta iota. rewrite run_bind.
  change (chapters.rbac_check ?u current_user delete w)
    with (courses.rbac_check u current_user delete w) in *.
  rewrite rbac_check_run, He. done.
Qed.

(** X25.  The failures of the lookup and of the check come before any write.
    An identifier that names no course makes the reorder raise 409 "Course
    does not exist" and a key that names no chapter makes the deletion
    raise 409 "Chapter does not exist", for every subject; a refused check
    makes [create_chapter], the reorder and the deletion raise the error
    of the check; in all these cases the store is the one the call started
    from.  The deletion, which commits once, at its end, leaves the store
    as it was whenever it raises. *)
Theorem chapter_lookup_and_check_failures_write_nothing
    (w : World) (chapter_object : PyObj) (course_uuid : string)
    (chapters_order : ChapterUpdateOrder) (chapter_id : Z)
    (current_user : CurrentUser) :
  (course_by_uuid w course_uuid = None →
     chapters.reorder_chapters_and_activities course_uuid chapters_order
       current_user w
     = (Raised (HTTPException HTTP_409_CONFLICT "Course does not exist"), w))
  ∧ (∀ course e,
       course_by_uuid w course_uuid = Some course →
       (chapters.rbac_check (Course.course_uuid course) current_user update w).1
         = Raised e →
       chapters.reorder_chapters_and_activities course_uuid chapters_order
         current_user w = (Raised e, w))
  ∧ (∀ course e,
       List.filter
         (λ c, bool_decide (PInt (Course.id c) = getattr chapter_object "course_id"))
         (course_tbl w) = [course] →
       (chapters.rbac_check "chapter_x" current_user create w).1 = Raised e →
       chapters.create_chapter chapter_object current_user w = (Raised e, w))
  ∧ (chapter_by_id w chapter_id = None →
     chapter_removal.delete_chapter chapter_id current_user w
     = (Raised (HTTPException HTTP_409_CONFLICT "Chapter does not exist"), w))
  ∧ (∀ e w', chapter_removal.delete_chapter chapter_id current_user w
             = (Raised e, w') → w' = w).
Proof.
  split; [|split; [|split; [|split]]].
  - apply reorder_unknown.
  - intros course e. apply reorder_denied.
  - intros course e. apply create_chapter_denied.
  - apply delete_chapter_unknown.
  - intros e w' Hrun.
    destruct (chapter_by_id w chapter_id) as [chapter|] eqn:Hc; cycle 1.
    { rewrite delete_chapter_unknown in Hrun by done. by simplify_eq. }
    destruct (chapters.rbac_check (as_str (getattr chapter "chapter_uuid"))
                current_user delete w).1 as [r|e'] eqn:Hr.
    + rewrite (delete_chapter_run _ _ _ chapter r) in Hrun by done. discriminate.
    + rewrite (delete_chapter_denied _ _ _ chapter e') in Hrun by done.
      by simplify_eq.
Qed.
End removal_facts.

(** ** Activities *)

Section activity_facts.
Context {env : Environment}.

Lemma next_id_pos (ids : list Z) : 1 ≤ next_id ids.
Proof.
  unfold next_id. assert (0 ≤ foldr Z.max 0 ids); [|lia].
  induction ids as [|a ids IH]; simpl; lia.
Qed.

Lemma create_activity_run w activity_object current_user chapter course chid r :
  getattr activity_object "chapter_id" = PInt chid →
  chapter_by_id w chid = Some chapter →
  course_of w chapter = Some course →
  (activities.rbac_check (Course.course_uuid course) current_user create w).1
    = Returned r →
  ∃ activity link w',
    activities.create_activity activity_object current_user w
    = (Returned activity, w')
    ∧ activity_tbl w' = activity_tbl w ++ [activity]
    ∧ chapteractivity_tbl w' = chapteractivity_tbl w ++ [link]
    ∧ ChapterActivity.chapter_id link = chid
    ∧ getattr activity "id" = PInt (ChapterActivity.activity_id link)
    ∧ (∀ row, row ∈ activity_tbl w → getattr row "id" ≠ getattr activity "id")
    ∧ getattr activity "org_id" = getattr chapter "org_id"
    ∧ getattr activity "course_id" = getattr chapter "course_id"
    ∧ (chapter_links w chid = [] → ChapterActivity.order link = 1)
    ∧ (∀ m, is_max m (ChapterActivity.order <$> chapter_links w chid) →
         ChapterActivity.order link = m + 1).
Proof.
  unfold chapter_by_id, course_of. intros Hchid Hc Hcourse Hr.
  change (activities.rbac_check ?u current_user create w)
    with (courses.rbac_check u current_user create w) in Hr.
  apply rbac_check_run_courses in Hr.
  unfold activities.create_activity. rewrite Hchid.
  erewrite run_bind_returned by (unfold exec_first, gets; rewrite Hc; reflexivity).
  cbv beta iota.
  erewrite run_bind_returned
    by (unfold exec_first, gets; rewrite Hcourse; reflexivity).
  cbv beta iota.
  erewrite run_bind_returned by apply Hr.
  erewrite run_bind_returned by reflexivity.
  erewrite run_bind_returned by reflexivity.
  erewrite run_bind_returned by reflexivity.
  erewrite run_bind_returned by reflexivity.
  erewrite run_bind_returned; cycle 1.
  { unfold gets. simpl.
    rewrite (List.filter_ext _
               (λ ca, bool_decide (ChapterActivity.chapter_id ca = chid)))
      by (intros ca; apply PInt_eq_decide).
    reflexivity. }
  fold (chapter_links w chid).
  erewrite run_bind_returned by reflexivity.
  erewrite run_bind_returned by reflexivity.
  erewrite run_bind_returned by reflexivity.
  set (pk := next_id _).
  set (activity := <["id" := _]> _).
  assert (Hid : getattr activity "id" = PInt pk)
    by (unfold getattr, activity; by rewrite lookup_insert_eq).
  rewrite Hid. simpl.
  assert (Hpk : bool_decide (PInt pk = PInt 0) = false).
  { apply bool_decide_eq_false_2. intros Heq.
    assert (Hpos : 1 ≤ pk) by apply next_id_pos.
    injection Heq as Heq. lia. }
  rewrite Hpk. simpl.
  eexists activity, _, _. split; [reflexivity|]. simpl.
  split; [reflexivity|]. split; [reflexivity|]. split; [reflexivity|].
  split; [exact Hid|]. split; [|split; [|split; [|split]]].
  - intros row Hin Heq. rewrite Hid in Heq.
    apply (next_id_fresh ((λ row, as_int (getattr row "id")) <$> activity_tbl w)).
    apply list_elem_of_fmap. exists row. split; [|done]. by rewrite Heq.
  - unfold getattr, activity.
    by rewrite !lookup_insert_ne, lookup_insert_eq by done.
  - unfold getattr, activity.
    by rewrite !lookup_insert_ne, lookup_insert_eq by done.
  - intros Hnil. by rewrite Hnil.
  - intros m Hm.
    destruct (last _) as [x|] eqn:Hlast.
    + apply order_by_last_Some in Hlast as [Hx Hmax]. simpl. f_equal.
      apply (is_max_unique _ _ (ChapterActivity.order <$> chapter_links w chid));
        [|done].
      split.
      * apply list_elem_of_fmap. eauto.
      * intros o Ho. apply list_elem_of_fmap in Ho as (y & -> & Hy). by apply Hmax.
    + apply order_by_last_None in Hlast. rewrite Hlast in Hm.
      destruct Hm as [Hm _]. by apply elem_of_nil in Hm.
Qed.

(** X26.  A new activity goes after the last activity of its chapter: the link
    that [create_activity] inserts has the greatest order among the links
    of the chapter plus 1, and 1 in a chapter without links, so that a
    dense sequence of orders stays dense.  The activity gets a key that no
    activity had and the organization and the course of its chapter,
    whatever the request says. *)
Theorem create_activity_appends_after_last
    (w : World) (activity_object : PyObj) (current_user : CurrentUser)
    (chapter : PyObj) (course : Course.t) (chid : Z) (r : option bool) :
  getattr activity_object "chapter_id" = PInt chid →
  chapter_by_id w chid = Some chapter →
  course_of w chapter = Some course →
  (activities.rbac_check (Course.course_uuid course) current_user create w).1
    = Returned r →
  ∃ activity link w',
    activities.create_activity activity_object current_user w
    = (Returned activity, w')
    ∧ activity_tbl w' = activity_tbl w ++ [activity]
    ∧ chapter_links w' chid = chapter_links w chid ++ [link]
    ∧ getattr activity "id" = PInt (ChapterActivity.activity_id link)
    ∧ (∀ row, row ∈ activity_tbl w → getattr row "id" ≠ getattr activity "id")
    ∧ getattr activity "org_id" = getattr chapter "org_id"
    ∧ getattr activity "course_id" = getattr chapter "course_id"
    ∧ (chapter_links w chid = [] → ChapterActivity.order link = 1)
    ∧ (∀ m, is_max m (ChapterActivity.order <$> chapter_links w chid) →
         ChapterActivity.order link = m + 1)
    ∧ (dense (ChapterActivity.order <$> chapter_links w chid) →
       dense (ChapterActivity.order <$> chapter_links w' chid)).
Proof.
  intros Hchid Hc Hcourse Hr.
  destruct (create_activity_run w activity_object current_user chapter course
              chid r Hchid Hc Hcourse Hr)
    as (activity & link & w' & Hrun & Hact & Htbl & Hlc & Hid & Hfresh & Horg
        & Hcid & Hfirst & Hmax).
  assert (Hlinks : chapter_links w' chid = chapter_links w chid ++ [link]).
  { unfold chapter_links. rewrite Htbl, List.filter_app. simpl.
    by rewrite bool_decide_eq_true_2. }
  exists activity, link, w'. repeat (split; [done|]).
  intros Hdense. rewrite Hlinks, fmap_app. simpl.
  destruct (chapter_links w chid) as [|l0 ls] eqn:Hl.
  - simpl. apply dense_singleton.
  - destruct (exists_max (ChapterActivity.order <$> l0 :: ls)) as [m Hm]; [done|].
    rewrite (Hmax m Hm). by apply dense_snoc.
Qed.

(** X27.  Deleting an activity goes through its link: an activity that no link
    names cannot be deleted, the call raises 404 "Activity not found in
    chapter" and writes nothing; otherwise the activity row and the first
    link that names it are deleted, and only they, so that further links
    to the activity stay in the store. *)
Theorem delete_activity_goes_through_its_link
    (w : World) (activity_uuid : string) (current_user : CurrentUser)
    (activity : PyObj) (course : Course.t) (r : option bool) :
  activity_by_uuid w activity_uuid = Some activity →
  course_of w activity = Some course →
  (activities.rbac_check (Course.course_uuid course) current_user delete w).1
    = Returned r →
  (first_link_of w activity = None →
     activities.delete_activity activity_uuid current_user w
     = (Raised (HTTPException 404 "Activity not found in chapter"), w))
  ∧ (∀ link, first_link_of w activity = Some link →
       ∃ w',
         activities.delete_activity activity_uuid current_user w
         = (Returned [("detail", "Activity deleted")], w')
         ∧ activity_tbl w'
           = List.filter
               (λ row, negb (bool_decide (getattr row "id" = getattr activity "id")))
               (activity_tbl w)
         ∧ chapteractivity_tbl w'
           = List.filter
               (λ row, negb (bool_decide (ChapterActivity.id row
                                          = ChapterActivity.id link)))
               (chapteractivity_tbl w)).
Proof.
  unfold activity_by_uuid, course_of, first_link_of. intros Ha Hcourse Hr.
  change (activities.rbac_check ?u current_user delete w)
    with (courses.rbac_check u current_user delete w) in Hr.
  apply rbac_check_run_courses in Hr.
  split.
  - intros Hlink. unfold activities.delete_activity.
    erewrite run_bind_returned by (unfold exec_first, gets; rewrite Ha; reflexivity).
    cbv beta iota.
    erewrite run_bind_returned
      by (unfold exec_first, gets; rewrite Hcourse; reflexivity).
    cbv beta iota.
    erewrite run_bind_returned by apply Hr.
    erewrite run_bind_returned
      by (unfold exec_first, gets; rewrite Hlink; reflexivity).
    done.
  - intros link Hlink. eexists. split.
    { unfold activities.delete_activity.
      erewrite run_bind_returned
        by (unfold exec_first, gets; rewrite Ha; reflexivity).
      cbv beta iota.
      erewrite run_bind_returned
        by (unfold exec_first, gets; rewrite Hcourse; reflexivity).
      cbv beta iota.
      erewrite run_bind_returned by apply Hr.
      erewrite run_bind_returned
        by (unfold exec_first, gets; rewrite Hlink; reflexivity).
      reflexivity. }
    split; reflexivity.
Qed.
End activity_facts.

(** ** Reading a chapter *)

Section chapter_read_facts.
Context {env : Environment}.

Lemma distinct_from_spec {A} (key : A → Z) (seen : list Z) (rows : list A) :
  NoDup (key <$> distinct_from key seen rows)
  ∧ (∀ x, x ∈ distinct_from key seen rows → x ∈ rows ∧ key x ∉ seen)
  ∧ (∀ x, x ∈ rows → key x ∉ seen →
       key x ∈ key <$> distinct_from key seen rows).
Proof.
  revert seen. induction rows as [|r rows IH]; intros seen.
  - simpl. split; [constructor|]. split; intros x Hx; by apply elem_of_nil in Hx.
  - simpl. case_bool_decide as Hseen.
    + destruct (IH seen) as (Hnd & Hsub & Hall). split; [done|]. split.
      * intros x Hx. destruct (Hsub x Hx). split; [|done].
        by apply list_elem_of_further.
      * intros x Hx Hk. apply elem_of_cons in Hx as [->|Hx]; [done|].
        by apply Hall.
    + destruct (IH (key r :: seen)) as (Hnd & Hsub & Hall). split; [|split].
      * rewrite fmap_cons. apply NoDup_cons. split; [|done].
        intros Hin. apply list_elem_of_fmap in Hin as (y & Hy & Hin).
        destruct (Hsub y Hin) as [_ Hnot]. apply Hnot. rewrite Hy.
        apply list_elem_of_here.
      * intros x Hx. apply elem_of_cons in Hx as [->|Hx].
        { split; [apply list_elem_of_here|done]. }
        destruct (Hsub x Hx) as [Hin Hnot]. split.
        { by apply list_elem_of_further. }
        intros Hk. apply Hnot. by apply list_elem_of_further.
      * intros x Hx Hk. rewrite fmap_cons.
        destruct (decide (key x = key r)) as [Heq|Hne].
        { rewrite Heq. apply list_elem_of_here. }
        apply list_elem_of_further.
        apply elem_of_cons in Hx as [->|Hx]; [done|].
        apply Hall; [done|]. intros Hk'.
        apply elem_of_cons in Hk' as [?|?]; done.
Qed.

(** X28.  A chapter is read with each of its activities once: the activities
    that [get_chapter] returns have pairwise different keys, each of them
    is an activity of the store that a link puts under the chapter, and
    every activity that a link puts under the chapter is among them, also
    when several links name it. *)
Theorem get_chapter_lists_each_activity_once
    (w : World) (chapter_id : Z) (current_user : CurrentUser)
    (chapter : PyObj) (course : Course.t) (r : option bool) :
  chapter_by_id w chapter_id = Some chapter →
  course_of w chapter = Some course →
  (chapters.rbac_check (Course.course_uuid course) current_user read w).1
    = Returned r →
  ∃ activities,
    chapters.get_chapter chapter_id current_user w
    = (Returned (mkChapterRead chapter activities), w)
    ∧ NoDup ((λ a, as_int (getattr a "id")) <$> activities)
    ∧ (∀ a, a ∈ activities →
         a ∈ activity_tbl w
         ∧ ∃ ca, ca ∈ chapteractivity_tbl w
                 ∧ ChapterActivity.chapter_id ca = chapter_id
                 ∧ getattr a "id" = PInt (ChapterActivity.activity_id ca))
    ∧ (∀ a ca, a ∈ activity_tbl w → ca ∈ chapteractivity_tbl w →
         ChapterActivity.chapter_id ca = chapter_id →
         getattr a "id" = PInt (ChapterActivity.activity_id ca) →
         ChapterActivity.activity_id ca
         ∈ (λ a, as_int (getattr a "id")) <$> activities).
Proof.
  unfold chapter_by_id, course_of. intros Hc Hcourse Hr.
  apply rbac_check_run_chapters in Hr.
  eexists. split.
  { unfold chapters.get_chapter.
    erewrite run_bind_returned by (unfold exec_first, gets; rewrite Hc; reflexivity).
    cbv beta iota.
    erewrite run_bind_returned
      by (unfold exec_first, gets; rewrite Hcourse; reflexivity).
    cbv beta iota.
    erewrite run_bind_returned by apply Hr.
    reflexivity. }
  unfold distinct_on.
  match goal with
  | |- context [distinct_from ?key [] ?rows] =>
      destruct (distinct_from_spec key [] rows) as (Hnd & Hsub & Hall)
  end.
  split; [exact Hnd|]. split.
  - intros a Ha. destruct (Hsub a Ha) as [Hin _].
    apply list_elem_of_fmap in Hin as ([a' ca] & -> & Hin).
    apply elem_of_select_join in Hin as (Hina & Hinca & Hon & Hcond).
    apply bool_decide_eq_true in Hon, Hcond. split; [done|]. by exists ca.
  - intros a ca Hina Hinca Hch Hid.
    assert (Hkey : as_int (getattr a "id") = ChapterActivity.activity_id ca)
      by (by rewrite Hid).
    rewrite <- Hkey. apply Hall; [|apply not_elem_of_nil].
    apply list_elem_of_fmap. exists (a, ca). split; [done|].
    apply elem_of_select_join. repeat split; try done;
      by apply bool_decide_eq_true.
Qed.
End chapter_read_facts.

(** ** Reordering twice *)

Section reorder_twice.
Context {env : Environment}.

Lemma NoDup_fmap_filter {A B} (f : A → B) (p : A → bool) (l : list A) :
  NoDup (f <$> l) → NoDup (f <$> List.filter p l).
Proof.
  induction l as [|a l IH]; [done|]. rewrite fmap_cons, NoDup_cons.
  intros [Hnot Hnd]. simpl. destruct (p a); [|by apply IH].
  rewrite fmap_cons. apply NoDup_cons. split; [|by apply IH].
  intros Hin. apply Hnot. apply list_elem_of_fmap in Hin as (y & -> & Hy).
  apply list_elem_of_fmap. exists y. split; [done|].
  apply list_elem_of_In, filter_In in Hy as [Hy _]. by apply list_elem_of_In.
Qed.

Lemma place_chapter_nodup m course w item :
  NoDup (CourseChapter.id <$> coursechapter_tbl w) →
  NoDup (CourseChapter.id <$> coursechapter_tbl (place_chapter m course w item)).
Proof.
  intros Hnd. unfold place_chapter. destruct (m !! _) as [cc|]; simpl.
  - rewrite <- list_fmap_compose.
    erewrite (list_fmap_ext _ CourseChapter.id); [exact Hnd|].
    intros i row _. simpl. case_bool_decide; [by destruct row|done].
  - rewrite fmap_app. simpl. apply NoDup_app. split; [done|]. split.
    + intros x Hx Hin. apply list_elem_of_singleton in Hin as ->.
      by apply next_id_fresh in Hx.
    + apply NoDup_singleton.
Qed.

Lemma place_chapters_nodup m course items w :
  NoDup (CourseChapter.id <$> coursechapter_tbl w) →
  NoDup (CourseChapter.id
         <$> coursechapter_tbl (foldl (place_chapter m course) w items)).
Proof.
  revert w. induction items as [|item items IH]; intros w Hnd; [done|].
  simpl. apply IH. by apply place_chapter_nodup.
Qed.

Lemma drop_chapters_nodup keep existing w :
  NoDup (CourseChapter.id <$> coursechapter_tbl w) →
  NoDup (CourseChapter.id
         <$> coursechapter_tbl (foldl (drop_chapter keep) w existing)).
Proof.
  intros Hnd. rewrite drop_chapters_table. by apply NoDup_fmap_filter.
Qed.

(** The reorder writes to the two tables of links and reads the clock;
    the tables that the decisions read are as they were. *)
Lemma reorder_keeps_authorization w course_uuid chapters_order current_user r w' :
  chapters.reorder_chapters_and_activities course_uuid chapters_order
    current_user w = (Returned r, w') →
  authorization_tables w' = authorization_tables w.
Proof.
  intros Hrun.
  destruct (course_by_uuid w course_uuid) as [course|] eqn:Hc; cycle 1.
  { rewrite reorder_unknown in Hrun by done. discriminate. }
  destruct (chapters.rbac_check (Course.course_uuid course) current_user update w).1
    as [r'|e'] eqn:Hr; cycle 1.
  { rewrite (reorder_denied _ _ _ _ course e') in Hrun by done. discriminate. }
  apply rbac_check_run_chapters in Hr.
  unfold chapters.reorder_chapters_and_activities in Hrun.
  unfold course_by_uuid in Hc.
  erewrite run_bind_returned in Hrun
    by (unfold exec_first, gets; rewrite Hc; reflexivity).
  cbv beta iota in Hrun.
  erewrite run_bind_returned in Hrun by apply Hr.
  erewrite run_bind_returned in Hrun by reflexivity.
  match type of Hrun with
  | context [for_each ?xs ?body ≫= ?k] =>
      destruct (for_each_frame authorization_tables xs body) with (w := w)
        as (w1 & Hrun1 & Hframe1)
  end.
  { intros [index chapter_order] w0.
    destruct (_ !! _); eexists; (split; [reflexivity|done]). }
  erewrite run_bind_returned in Hrun by apply Hrun1.
  match type of Hrun with
  | context [for_each ?xs ?body ≫= ?k] =>
      destruct (for_each_frame authorization_tables xs body) with (w := w1)
        as (w2 & Hrun2 & Hframe2)
  end.
  { intros cc w0. case_bool_decide; eexists; (split; [reflexivity|done]). }
  erewrite run_bind_returned in Hrun by apply Hrun2.
  erewrite run_bind_returned in Hrun by reflexivity.
  match type of Hrun with
  | context [for_each ?xs ?body ≫= ?k] =>
      destruct (for_each_frame authorization_tables xs body) with (w := w2)
        as (w3 & Hrun3 & Hframe3)
  end.
  { intros chapter_order w0.
    apply (for_each_frame authorization_tables).
    intros [index activity_order] w4.
    destruct (_ !! _); eexists; (split; [reflexivity|done]). }
  erewrite run_bind_returned in Hrun by apply Hrun3.
  match type of Hrun with
  | context [for_each ?xs ?body ≫= ?k] =>
      destruct (for_each_frame authorization_tables xs body) with (w := w3)
        as (w4 & Hrun4 & Hframe4)
  end.
  { intros ca w0. case_bool_decide; eexists; (split; [reflexivity|done]). }
  erewrite run_bind_returned in Hrun by apply Hrun4.
  injection Hrun as _ <-. congruence.
Qed.

Lemma foldl_table_fixed {A} (g : World → A → World) (xs : list A)
    (T : list CourseChapter.t) w :
  (∀ w0 x, x ∈ xs → coursechapter_tbl w0 = T → coursechapter_tbl (g w0 x) = T) →
  coursechapter_tbl w = T →
  coursechapter_tbl (foldl g w xs) = T.
Proof.
  revert w. induction xs as [|x xs IH]; intros w Hg Hw; [done|].
  simpl. apply IH.
  - intros w0 y Hy. apply Hg. by apply list_elem_of_further.
  - apply Hg; [apply list_elem_of_here|done].
Qed.

Lemma submitted_pairs_fst chapters_order :
  (submitted_pairs chapters_order).*1
  = co_chapter_id <$> chapter_order_by_ids chapters_order.
Proof.
  unfold submitted_pairs. rewrite <- list_fmap_compose.
  rewrite <- (enumerate_snd (chapter_order_by_ids chapters_order)) at 2.
  by rewrite <- list_fmap_compose.
Qed.

(** A store on which the links of the course are the ones a request asks
    for is left as it is by that request. *)
Lemma reorder_settled w course chapters_order :
  NoDup (CourseChapter.id <$> coursechapter_tbl w) →
  NoDup (co_chapter_id <$> chapter_order_by_ids chapters_order) →
  link_pairs (existing_links w course) ≡ₚ submitted_pairs chapters_order →
  coursechapter_tbl
    (foldl (drop_chapter
              (list_to_set (co_chapter_id <$> chapter_order_by_ids chapters_order)))
       (foldl (place_chapter (chapter_map (existing_links w course)) course)
          w (enumerate (chapter_order_by_ids chapters_order)))
       (existing_links w course))
  = coursechapter_tbl w.
Proof.
  intros Hpk Hsub Hpos.
  set (E := existing_links w course) in *.
  set (T := coursechapter_tbl w) in *.
  assert (HE : ∀ cc, cc ∈ E → cc ∈ T).
  { intros cc Hcc. apply list_elem_of_In, filter_In in Hcc as [Hcc _].
    by apply list_elem_of_In. }
  assert (Hone : NoDup (CourseChapter.chapter_id <$> E)).
  { replace (CourseChapter.chapter_id <$> E) with (link_pairs E).*1
      by (unfold link_pairs; by rewrite <- list_fmap_compose).
    rewrite Hpos, submitted_pairs_fst. exact Hsub. }
  rewrite drop_chapters_table.
  rewrite filter_all; cycle 1.
  { intros row _. apply negb_true_iff, bool_decide_eq_false.
    unfold dropped_ids. intros Hin.
    apply list_elem_of_fmap in Hin as (cc & _ & Hcc).
    apply list_elem_of_In, filter_In in Hcc as [Hcc Hk].
    apply list_elem_of_In in Hcc. apply bool_decide_eq_true in Hk. apply Hk.
    apply elem_of_list_to_set. rewrite <- submitted_pairs_fst, <- Hpos.
    unfold link_pairs. rewrite <- list_fmap_compose.
    apply list_elem_of_fmap. by exists cc. }
  apply foldl_table_fixed; [|done].
  intros w0 [index chapter_order] Hitem Hw0.
  assert (Hpair : (co_chapter_id chapter_order, index) ∈ link_pairs E).
  { rewrite Hpos. unfold submitted_pairs. apply list_elem_of_fmap.
    by exists (index, chapter_order). }
  apply list_elem_of_fmap in Hpair as (cc & Heq & Hcc).
  injection Heq as Hc Ho.
  unfold place_chapter. simpl.
  rewrite Hc, (chapter_map_lookup_elem E cc Hone Hcc). simpl.
  rewrite Hw0. rewrite <- (list_fmap_id T) at 2.
  apply list_fmap_ext. intros i row Hrow. simpl.
  case_bool_decide as Hid; [|done].
  assert (row = cc) as ->.
  { apply (NoDup_fmap_eq CourseChapter.id T); try done.
    - by apply list_elem_of_lookup_2 in Hrow.
    - by apply HE. }
  rewrite Ho. by destruct cc.
Qed.

(** X29.  Reordering twice is reordering once: after a reorder that went
    through, the same request by the same caller goes through again and
    leaves the table of chapter links exactly as the first one left it.
    (Keys of links unique, one link for each chapter of the course, each
    chapter named once in the request.) *)
Theorem reorder_twice_is_reorder_once
    (w : World) (course_uuid : string) (chapters_order : ChapterUpdateOrder)
    (current_user : CurrentUser) (course : Course.t) (r : option bool) :
  course_by_uuid w course_uuid = Some course →
  (chapters.rbac_check (Course.course_uuid course) current_user update w).1
    = Returned r →
  NoDup (CourseChapter.id <$> coursechapter_tbl w) →
  NoDup (CourseChapter.chapter_id <$> existing_links w course) →
  NoDup (co_chapter_id <$> chapter_order_by_ids chapters_order) →
  ∃ w1 w2,
    chapters.reorder_chapters_and_activities course_uuid chapters_order
      current_user w
    = (Returned [("detail", "Chapters and activities reordered successfully")], w1)
    ∧ chapters.reorder_chapters_and_activities course_uuid chapters_order
        current_user w1
      = (Returned [("detail", "Chapters and activities reordered successfully")], w2)
    ∧ coursechapter_tbl w2 = coursechapter_tbl w1.
Proof.
  intros Hc Hr Hpk Hone Hsub.
  destruct (reorder_run w course_uuid chapters_order current_user course r Hc Hr)
    as (w1 & Hrun1 & Htbl1).
  pose proof (reorder_keeps_authorization _ _ _ _ _ _ Hrun1) as Hframe.
  assert (Hc1 : course_by_uuid w1 course_uuid = Some course).
  { unfold course_by_uuid in *. unfold authorization_tables in Hframe.
    simplify_eq. congruence. }
  assert (Hr1 : (chapters.rbac_check (Course.course_uuid course) current_user
                   update w1).1 = Returned r).
  { rewrite <- Hr. apply (courses_rbac_check_frame w1 w). exact Hframe. }
  destruct (reorder_run w1 course_uuid chapters_order current_user course r Hc1 Hr1)
    as (w2 & Hrun2 & Htbl2).
  exists w1, w2. split; [exact Hrun1|]. split; [exact Hrun2|].
  rewrite Htbl2. apply reorder_settled; [| exact Hsub |].
  - rewrite Htbl1. by apply drop_chapters_nodup, place_chapters_nodup.
  - unfold existing_links. rewrite Htbl1.
    by apply reorder_positions.
Qed.
End reorder_twice.

(** ** The further properties on the sample stores *)

Lemma authorship_check_is_sound_witness :
  rbac.authorization_verify_if_user_is_author 1 update "course_x1" acme
    = (Returned true, acme)
  ∧ holds_active_authorship acme 1 "course_x1"
  ∧ rbac.authorization_verify_if_user_is_author 1 update "course_x1"
      acme_with_application
    = (Returned true, acme_with_application)
  ∧ rbac.authorization_verify_if_user_is_author 9 update "course_x1"
      acme_with_application
    = (Returned false, acme_with_application).
Proof.
  destruct (authorship_check_is_sound acme 1 update "course_x1")
    as (b & Hrun & Hsound & Hfirst); [discriminate|].
  assert (b = true) as ->.
  { apply (Hfirst (ResourceAuthor.mk 1 "course_x1" 1 CREATOR ACTIVE
                     "2024-05-01" "2024-05-01")); try reflexivity.
    by left. }
  split; [exact Hrun|]. split; [by apply Hsound|].
  destruct (authorship_check_is_sound acme_with_application 1 update "course_x1")
    as (b1 & Hrun1 & _ & Hfirst1); [discriminate|].
  assert (b1 = true) as ->.
  { apply (Hfirst1 (ResourceAuthor.mk 1 "course_x1" 1 CREATOR ACTIVE
                      "2024-05-01" "2024-05-01")); try reflexivity.
    by left. }
  split; [exact Hrun1|].
  destruct (authorship_check_is_sound acme_with_application 9 update "course_x1")
    as (b9 & Hrun9 & Hsound9 & _); [discriminate|].
  destruct b9; [|exact Hrun9].
  destruct (Hsound9 eq_refl) as (ra & Hin & _ & Huser & _ & Hstatus).
  unfold acme_with_application in Hin. vm_compute in Hin.
  repeat (apply elem_of_cons in Hin as [->|Hin]; [discriminate|]).
  by apply elem_of_nil in Hin.
Defined.

Lemma create_is_granted_to_every_logged_in_subject_witness :
  courses.rbac_check (env := sample_env) "course_x1" (PublicUser dave) create acme
    = (Returned None, acme)
  ∧ chapters.rbac_check (env := sample_env) "course_x1" (PublicUser dave) create acme
    = (Returned None, acme)
  ∧ activities.rbac_check (env := sample_env) "course_x1" (PublicUser dave) create acme
    = (Returned None, acme).
Proof.
  apply (create_is_granted_to_every_logged_in_subject (env := sample_env)
           acme (PublicUser dave) "course_x1" "courses");
    [discriminate|reflexivity].
Defined.

Lemma public_check_denies_other_types_and_actions_witness :
  rbac.authorization_verify_if_element_is_public (env := sample_env)
    "chapter_a" read campus
  = (Raised forbidden_not_public, campus).
Proof.
  apply (public_check_denies_other_types_and_actions (env := sample_env)
           campus "chapter_a" "chapters" read); [reflexivity|].
  right. split; discriminate.
Defined.

Lemma anonymous_read_of_collection_follows_public_flag_witness :
  rbac.authorization_verify_if_element_is_public (env := sample_env)
    "collection_pub" read office = (Returned true, office)
  ∧ rbac.authorization_verify_if_element_is_public (env := sample_env)
      "collection_priv" read office = (Raised forbidden_not_public, office).
Proof.
  split.
  - apply (proj1 (anonymous_read_of_collection_follows_public_flag
                    (env := sample_env) office
                    (Collection.mk 1 "collection_pub" true)
                    ltac:(apply list_elem_of_here) eq_refl)).
    reflexivity.
  - apply (proj2 (anonymous_read_of_collection_follows_public_flag
                    (env := sample_env) office
                    (Collection.mk 2 "collection_priv" false)
                    ltac:(apply list_elem_of_further, list_elem_of_here) eq_refl)).
    + reflexivity.
    + compute_done.
Defined.

Lemma logged_in_read_ignores_public_flag_witness :
  courses.rbac_check (env := sample_env) "course_pub" (PublicUser dave) read acme
    = (Raised forbidden_roles_and_authorship, acme)
  ∧ courses.rbac_check (env := sample_env) "course_pub" AnonymousUser read acme
    = (Returned (Some true), acme).
Proof.
  split; [|vm_compute; reflexivity].
  apply (logged_in_read_ignores_public_flag (env := sample_env)
           acme (PublicUser dave) course_pub "courses").
  - discriminate.
  - reflexivity.
  - intros (ra & Hin & Huuid & _). unfold acme in Hin. simpl in Hin.
    apply elem_of_cons in Hin as [->|Hin]; [discriminate|].
    apply list_elem_of_singleton in Hin as ->. discriminate.
  - intros (role & uo & _ & Huo & Huser & _). unfold acme in Huo. simpl in Huo.
    apply list_elem_of_singleton in Huo as ->. discriminate.
Defined.

Lemma admin_status_iff_admin_role_witness :
  (∃ b, rbac_admin.authorization_verify_based_on_org_admin_status
          (env := office_env) 1 update "org_a" office = (Returned b, office)
        ∧ (b = true ↔ holds_admin_role office 1))
  ∧ (∀ action' uuid' t',
       check_element_type (Environment := office_env) uuid' = Returned t' →
       rbac_admin.authorization_verify_based_on_org_admin_status
         (env := office_env) 1 action' uuid' office
       = rbac_admin.authorization_verify_based_on_org_admin_status
           (env := office_env) 1 update "org_a" office).
Proof.
  apply (admin_status_iff_admin_role (env := office_env)
           office 1 update "org_a" "organizations").
  reflexivity.
Defined.

Lemma org_check_decides_by_admin_role_witness :
  orgs.rbac_check (env := office_env) "org_a" (ExternalUser (PublicUser alice))
    update office = (Returned None, office)
  ∧ orgs.rbac_check (env := office_env) "org_a" (ExternalUser (PublicUser carol))
      update office = (Raised forbidden_admin_status, office)
  ∧ orgs.rbac_check (env := office_env) "org_a" (ExternalUser AnonymousUser)
      delete office = (Raised forbidden_anonymous, office)
  ∧ orgs.rbac_check (env := office_env) "no such thing" (ExternalUser AnonymousUser)
      read office = (Returned (Some true), office).
Proof.
  split; [|split; [|split]].
  - destruct (org_check_decides_by_admin_role (env := office_env) office "org_a"
                (ExternalUser (PublicUser alice)) update) as [_ H].
    destruct (H _ eq_refl ltac:(discriminate)) as [_ H2].
    destruct (H2 "organizations" eq_refl ltac:(discriminate)) as [Hadm _].
    apply Hadm.
    exists admin_role, (UserOrganization.mk 2 1 1 1 "2024-04-01" "2024-04-01").
    repeat split; try reflexivity.
    + apply list_elem_of_here.
    + apply list_elem_of_further, list_elem_of_here.
    + by left.
    + by left.
  - destruct (org_check_decides_by_admin_role (env := office_env) office "org_a"
                (ExternalUser (PublicUser carol)) update) as [_ H].
    destruct (H _ eq_refl ltac:(discriminate)) as [_ H2].
    destruct (H2 "organizations" eq_refl ltac:(discriminate)) as [_ Hnot].
    apply Hnot.
    intros (role & uo & _ & Huo & Huser & Hrole & _ & Hid).
    unfold office in Huo. simpl in Huo.
    apply elem_of_cons in Huo as [->|Huo].
    + simpl in Hrole. rewrite <- Hrole in Hid. destruct Hid; discriminate.
    + apply list_elem_of_singleton in Huo as ->. discriminate.
  - destruct (org_check_decides_by_admin_role (env := office_env) office "org_a"
                (ExternalUser AnonymousUser) delete) as [_ H].
    destruct (H _ eq_refl ltac:(discriminate)) as [Hanon _].
    by apply Hanon.
  - apply (org_check_decides_by_admin_role (env := office_env)). by left.
Defined.

Lemma application_is_refused_witness :
  applications.apply_course_contributor (env := sample_env) "course_zz"
    AnonymousUser acme = (Raised forbidden_anonymous, acme)
  ∧ applications.apply_course_contributor (env := sample_env) "course_zz"
      (PublicUser dave) acme = (Raised course_not_found, acme)
  ∧ applications.apply_course_contributor (env := sample_env) "course_x1"
      (PublicUser bob) acme = (Raised already_an_author, acme).
Proof.
  split; [|split].
  - by apply (application_is_refused (env := sample_env)).
  - by apply (application_is_refused (env := sample_env)).
  - apply (application_is_refused (env := sample_env)); [done| |]; by eexists.
Defined.

Lemma application_appends_pending_record_witness :
  ∃ ra w',
    applications.apply_course_contributor (env := sample_env) "course_x1"
      (PublicUser dave) acme
    = (Returned [("detail", "Contributor application submitted successfully");
                 ("status", "pending")], w')
    ∧ resourceauthor_tbl w' = resourceauthor_tbl acme ++ [ra]
    ∧ ResourceAuthor.resource_uuid ra = "course_x1"
    ∧ ResourceAuthor.user_id ra = 9
    ∧ ResourceAuthor.authorship ra = CONTRIBUTOR
    ∧ ResourceAuthor.authorship_status ra = PENDING
    ∧ (ResourceAuthor.id ra ∉ ResourceAuthor.id <$> resourceauthor_tbl acme)
    ∧ contributor_record w' "course_x1" 9 = Some ra
    ∧ course_tbl w' = course_tbl acme.
Proof.
  apply (application_appends_pending_record (env := sample_env)
           acme "course_x1" (PublicUser dave) course_x1);
    [discriminate|reflexivity|reflexivity].
Defined.

Lemma second_application_is_refused_witness :
  applications.apply_course_contributor (env := sample_env) "course_x1"
    (PublicUser dave) acme_with_application
  = (Raised already_an_author, acme_with_application).
Proof.
  apply (second_application_is_refused (env := sample_env)
           acme acme_with_application "course_x1" (PublicUser dave)
           [("detail", "Contributor application submitted successfully");
            ("status", "pending")]).
  vm_compute. reflexivity.
Defined.

Lemma application_grants_nothing_witness :
  rbac.authorization_verify_based_on_roles_and_authorship (env := sample_env)
    (current_user_id (PublicUser dave)) update "course_x1" acme_with_application
  = (Raised forbidden_roles_and_authorship, acme_with_application)
  ∧ courses.rbac_check (env := sample_env) "course_x1" (PublicUser dave) read
      acme_with_application
    = (Raised forbidden_roles_and_authorship, acme_with_application)
  ∧ courses.rbac_check (env := sample_env) "course_x1" (PublicUser alice) update
      acme_with_application
    = (Returned None, acme_with_application).
Proof.
  assert (Happlied :
    applications.apply_course_contributor (env := sample_env) "course_x1"
      (PublicUser dave) acme
    = (Returned [("detail", "Contributor application submitted successfully");
                 ("status", "pending")], acme_with_application))
    by (vm_compute; reflexivity).
  pose proof (application_grants_nothing (env := sample_env)
                acme acme_with_application "course_x1" (PublicUser dave) _ Happlied)
    as Hsame.
  split; [|split].
  - destruct (Hsame "course_x1" (PublicUser dave) update) as [-> _]. reflexivity.
  - destruct (Hsame "course_x1" (PublicUser dave) read) as [_ ->]. reflexivity.
  - destruct (Hsame "course_x1" (PublicUser alice) update) as [_ ->]. reflexivity.
Defined.

Lemma contributor_update_rewrites_the_record_witness :
  ∃ w',
    contributors.update_course_contributor (env := sample_env) "course_x1" 2
      CREATOR ACTIVE (PublicUser alice) acme
    = (Returned [("detail", "Contributor updated successfully");
                 ("status", "success")], w')
    ∧ contributor_record w' "course_x1" 2
      = Some (ResourceAuthor.mk 2 "course_x1" 2 CREATOR ACTIVE "2024-05-03"
                "2025-01-01 00:00:00.0")
    ∧ contributor_record w' "course_x1" 1
      = Some (ResourceAuthor.mk 1 "course_x1" 1 CREATOR ACTIVE "2024-05-01"
                "2024-05-01").
Proof.
  destruct (contributor_update_rewrites_the_record (env := sample_env)
              acme "course_x1" 2 CREATOR ACTIVE (PublicUser alice) course_x1
              (ResourceAuthor.mk 2 "course_x1" 2 MAINTAINER ACTIVE
                 "2024-05-03" "2024-05-03"))
    as (w' & Hrun & Hrec & _ & Hothers);
    [discriminate|vm_compute; reflexivity|reflexivity|reflexivity|discriminate|].
  exists w'. split; [exact Hrun|]. split; [exact Hrec|].
  specialize (Hothers ltac:(compute_done) 0%nat
                (ResourceAuthor.mk 1 "course_x1" 1 CREATOR ACTIVE
                   "2024-05-01" "2024-05-01")
                ltac:(discriminate) eq_refl).
  unfold contributor_record.
  destruct (resourceauthor_tbl w') as [|row rows]; [discriminate|].
  simpl in Hothers. injection Hothers as ->. reflexivity.
Defined.

Lemma contributor_calls_fail_without_writing_witness :
  (contributors.update_course_contributor (env := sample_env) "course_x1" 2
     CONTRIBUTOR ACTIVE (PublicUser dave) acme).2 = acme
  ∧ (applications.apply_course_contributor (env := sample_env) "course_x1"
       (PublicUser bob) acme).2 = acme.
Proof.
  split.
  - apply (proj1 (contributor_calls_fail_without_writing (env := sample_env)
                    acme _ "course_x1" 2 CONTRIBUTOR ACTIVE (PublicUser dave)
                    forbidden_roles_and_authorship)).
    vm_compute. reflexivity.
  - apply (proj2 (contributor_calls_fail_without_writing (env := sample_env)
                    acme _ "course_x1" 2 CONTRIBUTOR ACTIVE (PublicUser bob)
                    already_an_author)).
    vm_compute. reflexivity.
Defined.

Lemma get_course_returns_the_stored_course_witness :
  ∃ rows,
    course_reads.get_course (env := sample_env) "course_x1" (PublicUser alice) acme
    = (Returned
         (mkCourseRead course_x1
            ((λ row : ResourceAuthor.t * User.t, author_with_role row.1 row.2)
             <$> rows)), acme)
    ∧ StronglySorted (key_le (λ row : ResourceAuthor.t * User.t,
                                ResourceAuthor.id row.1)) rows
    ∧ (ResourceAuthor.mk 2 "course_x1" 2 MAINTAINER ACTIVE "2024-05-03" "2024-05-03",
       bob) ∈ rows.
Proof.
  destruct (get_course_returns_the_stored_course (env := sample_env)
              acme "course_x1" (PublicUser alice) course_x1 eq_refl)
    as [_ Hreturned].
  destruct (Hreturned
              (mkCourseRead course_x1
                 [mkAuthorWithRole alice CREATOR ACTIVE "2024-05-01" "2024-05-01";
                  mkAuthorWithRole bob MAINTAINER ACTIVE "2024-05-03" "2024-05-03"])
              acme)
    as (_ & rows & Heq & Hsorted & Hrows); [vm_compute; reflexivity|].
  exists rows. split; [|split; [exact Hsorted|]].
  - rewrite <- Heq. vm_compute. reflexivity.
  - apply Hrows. repeat split.
    + apply list_elem_of_further, list_elem_of_here.
    + apply list_elem_of_further, list_elem_of_here.
Defined.

Lemma get_course_by_id_agrees_with_get_course_witness :
  course_reads.get_course_by_id (env := sample_env) 2 (PublicUser dave) acme
  = course_reads.get_course (env := sample_env) "course_pub" (PublicUser dave) acme.
Proof.
  apply (get_course_by_id_agrees_with_get_course (env := sample_env)
           acme course_pub (PublicUser dave)).
  - apply list_elem_of_further, list_elem_of_here.
  - compute_done.
  - compute_done.
Defined.

Lemma course_lookup_and_check_failures_write_nothing_witness :
  courses.update_course (env := sample_env) only_name "course_zz"
    AnonymousUser acme = (Raised course_not_found, acme)
  ∧ course_reads.get_course (env := sample_env) "course_zz" AnonymousUser acme
    = (Raised course_not_found, acme)
  ∧ course_reads.get_course_by_id (env := sample_env) 5 AnonymousUser acme
    = (Raised course_not_found, acme)
  ∧ courses.update_course (env := sample_env) only_name "course_x1"
      (PublicUser dave) acme = (Raised forbidden_roles_and_authorship, acme)
  ∧ course_reads.get_course (env := sample_env) "course_x1" AnonymousUser acme
    = (Raised forbidden_not_public, acme).
Proof.
  destruct (course_lookup_and_check_failures_write_nothing (env := sample_env)
              acme only_name "course_zz" 5 AnonymousUser)
    as (Huuid & Hid & _).
  destruct (Huuid eq_refl) as [Hupdate Hget].
  split; [exact Hupdate|]. split; [exact Hget|]. split; [exact (Hid eq_refl)|].
  split.
  - destruct (course_lookup_and_check_failures_write_nothing (env := sample_env)
                acme only_name "course_x1" 5 (PublicUser dave))
      as (_ & _ & Hdenied & _).
    apply (Hdenied course_x1); [reflexivity|vm_compute; reflexivity].
  - destruct (course_lookup_and_check_failures_write_nothing (env := sample_env)
                acme only_name "course_x1" 5 AnonymousUser)
      as (_ & _ & _ & Hdenied & _).
    apply (Hdenied course_x1); [reflexivity|vm_compute; reflexivity].
Defined.

Lemma get_course_after_update_course_witness :
  course_reads.get_course (env := sample_env) "course_x1" (PublicUser alice)
    campus_renamed
  = (Returned
       (mkCourseRead
          (Course.mk 1 1 "New" (Some "An introduction") None None (Some "basics")
             None false false "course_x1" "2024-05-01" "2025-01-01 00:00:00.0")
          [mkAuthorWithRole alice CREATOR ACTIVE "2024-05-01" "2024-05-01"]),
     campus_renamed).
Proof.
  apply (get_course_after_update_course (env := sample_env)
           campus campus_renamed only_name "course_x1" (PublicUser alice)
           (PublicUser alice) _ (Some true)).
  - vm_compute. reflexivity.
  - discriminate.
  - vm_compute. reflexivity.
Defined.

Lemma contributors_are_listed_without_a_check_witness :
  ∃ entries,
    applications.get_course_contributors "course_x1" AnonymousUser acme
    = (Returned entries, acme)
    ∧ contributor_entry
        (ResourceAuthor.mk 2 "course_x1" 2 MAINTAINER ACTIVE "2024-05-03" "2024-05-03")
        bob ∈ entries
    ∧ course_reads.get_course (env := sample_env) "course_x1" AnonymousUser acme
      = (Raised forbidden_not_public, acme).
Proof.
  destruct (contributors_are_listed_without_a_check (env := sample_env)
              acme "course_x1" AnonymousUser course_x1 eq_refl)
    as (_ & Hreturned & Hget).
  destruct (applications.get_course_contributors "course_x1" AnonymousUser acme)
    as [[entries|e] w'] eqn:Hrun; [|vm_compute in Hrun; discriminate].
  destruct (Hreturned entries w' eq_refl) as [-> Hentries].
  exists entries. split; [reflexivity|]. split.
  - apply Hentries. eexists _, _. split; [|reflexivity].
    repeat split.
    + apply list_elem_of_further, list_elem_of_here.
    + apply list_elem_of_further, list_elem_of_here.
  - apply Hget; [reflexivity|reflexivity|compute_done|reflexivity].
Defined.

Lemma create_chapter_needs_no_right_on_the_course_witness :
  ∃ chapter link w',
    chapters.create_chapter (env := sample_env) chapter_request (PublicUser bob)
      campus
    = (Returned (mkChapterRead chapter []), w')
    ∧ chapter_tbl w' = chapter_tbl campus ++ [chapter]
    ∧ coursechapter_tbl w' = coursechapter_tbl campus ++ [link]
    ∧ CourseChapter.course_id link = 1
    ∧ getattr chapter "id" = PInt (CourseChapter.chapter_id link).
Proof.
  apply (create_chapter_needs_no_right_on_the_course (env := sample_env)
           campus chapter_request (PublicUser bob) course_x1 1 "chapters");
    [discriminate|reflexivity|reflexivity|reflexivity].
Defined.

Lemma create_chapter_assigns_the_server_fields_witness :
  ∃ chapter w',
    chapters.create_chapter (env := sample_env) chapter_request (PublicUser alice)
      campus
    = (Returned (mkChapterRead chapter []), w')
    ∧ getattr chapter "org_id" = PInt 1
    ∧ getattr chapter "chapter_uuid" = PStr "chapter_0000-0"
    ∧ getattr chapter "name" = PStr "D".
Proof.
  destruct (create_chapter_assigns_the_server_fields (env := sample_env)
              campus chapter_request (PublicUser alice) course_x1 1 None)
    as (chapter & w' & Hrun & _ & Horg & Huuid & _ & _ & Hrest);
    [reflexivity|reflexivity|reflexivity|].
  exists chapter, w'. split; [exact Hrun|]. split; [exact Horg|].
  split; [exact Huuid|].
  unfold getattr. rewrite (Hrest "name") by compute_done. reflexivity.
Defined.

Lemma create_chapter_looks_up_the_course_first_witness :
  chapters.create_chapter (env := sample_env)
    {[ "name" := PStr "D"; "course_id" := PInt 99 ]} AnonymousUser campus
  = (Raised NoResultFound, campus).
Proof.
  apply (proj1 (create_chapter_looks_up_the_course_first (env := sample_env)
                  campus {[ "name" := PStr "D"; "course_id" := PInt 99 ]}
                  AnonymousUser)).
  reflexivity.
Defined.

Lemma update_chapter_can_fail_after_writing_witness :
  ∃ (chapter' : PyObj) (w' : World),
    chapters.update_chapter (env := sample_env) only_chapter_name 10
      (PublicUser bob) campus_with_assistant
    = (Raised forbidden_roles_and_authorship, w')
    ∧ chapter_by_id w' 10 = Some chapter'
    ∧ chapter' !! "name" = Some (PStr "A2").
Proof.
  destruct (update_chapter_can_fail_after_writing (env := sample_env)
              campus_with_assistant only_chapter_name 10 (PublicUser bob)
              (chapter_row 10 "chapter_a" "A") None)
    as (chapter' & w' & Hc' & Hkeys & _ & Hdenied);
    [reflexivity|reflexivity|reflexivity|reflexivity|].
  exists chapter', w'. split; [|split; [exact Hc'|]].
  - apply (Hdenied course_x1); [reflexivity|vm_compute; reflexivity].
  - apply (Hkeys "name" (PStr "A2")); [reflexivity|reflexivity|discriminate].
Defined.

Lemma delete_chapter_removes_chapter_and_links_witness :
  ∃ w',
    chapter_removal.delete_chapter (env := sample_env) 10 (PublicUser alice) studio
    = (Returned [("detail", "chapter deleted")], w')
    ∧ chapter_tbl w' = [chapter_row 11 "chapter_b" "B"; chapter_row 12 "chapter_c" "C"]
    ∧ chapteractivity_tbl w'
      = [ChapterActivity.mk 3 11 20 1 1 "2024-05-01" "2024-05-01" 1]
    ∧ chapters.get_chapter (env := sample_env) 10 (PublicUser alice) w'
      = (Raised (HTTPException HTTP_409_CONFLICT "Chapter does not exist"), w').
Proof.
  destruct (delete_chapter_removes_chapter_and_links (env := sample_env)
              studio 10 (PublicUser alice) (chapter_row 10 "chapter_a" "A") None)
    as (w' & Hrun & Hch & Hlinks & Hgone);
    [reflexivity|reflexivity|compute_done|].
  exists w'. split; [exact Hrun|]. split; [|split].
  - rewrite Hch. vm_compute. reflexivity.
  - rewrite Hlinks. vm_compute. reflexivity.
  - apply Hgone.
Defined.

Lemma empty_reorder_removes_every_link_witness :
  ∃ w',
    chapters.reorder_chapters_and_activities (env := sample_env) "course_x1"
      empty_order (PublicUser alice) studio
    = (Returned [("detail", "Chapters and activities reordered successfully")], w')
    ∧ coursechapter_tbl w' = []
    ∧ chapteractivity_tbl w' = [].
Proof.
  destruct (empty_reorder_removes_every_link (env := sample_env)
              studio "course_x1" (PublicUser alice) course_x1 None)
    as (w' & Hrun & Hcc & Hca & _);
    [reflexivity|reflexivity|compute_done|compute_done|].
  exists w'. split; [exact Hrun|]. split.
  - rewrite Hcc. vm_compute. reflexivity.
  - rewrite Hca. vm_compute. reflexivity.
Defined.

Lemma chapter_lookup_and_check_failures_write_nothing_witness :
  chapters.reorder_chapters_and_activities (env := sample_env) "course_zz"
    order_c_a AnonymousUser campus
  = (Raised (HTTPException HTTP_409_CONFLICT "Course does not exist"), campus)
  ∧ chapters.reorder_chapters_and_activities (env := sample_env) "course_x1"
      order_c_a (PublicUser dave) campus
    = (Raised forbidden_roles_and_authorship, campus)
  ∧ chapters.create_chapter (env := sample_env) chapter_request AnonymousUser campus
    = (Raised forbidden_anonymous, campus)
  ∧ chapter_removal.delete_chapter (env := sample_env) 99 AnonymousUser campus
    = (Raised (HTTPException HTTP_409_CONFLICT "Chapter does not exist"), campus)
  ∧ (chapter_removal.delete_chapter (env := sample_env) 10 AnonymousUser campus).2
    = campus.
Proof.
  destruct (chapter_lookup_and_check_failures_write_nothing (env := sample_env)
              campus chapter_request "course_zz" order_c_a 99 AnonymousUser)
    as (Hreorder & _ & Hcreate & Hdelete & _).
  split; [exact (Hreorder eq_refl)|]. split; [|split; [|split]].
  - destruct (chapter_lookup_and_check_failures_write_nothing (env := sample_env)
                campus chapter_request "course_x1" order_c_a 99 (PublicUser dave))
      as (_ & Hdenied & _).
    apply (Hdenied course_x1); [reflexivity|vm_compute; reflexivity].
  - apply (Hcreate course_x1); [reflexivity|vm_compute; reflexivity].
  - exact (Hdelete eq_refl).
  - destruct (chapter_lookup_and_check_failures_write_nothing (env := sample_env)
                campus chapter_request "course_zz" order_c_a 10 AnonymousUser)
      as (_ & _ & _ & _ & Hfail).
    apply (Hfail forbidden_anonymous). vm_compute. reflexivity.
Defined.

Lemma create_activity_appends_after_last_witness :
  ∃ activity link w',
    activities.create_activity (env := sample_env) activity_request
      (PublicUser alice) studio
    = (Returned activity, w')
    ∧ chapter_links w' 10 = chapter_links studio 10 ++ [link]
    ∧ ChapterActivity.order link = 3
    ∧ getattr activity "org_id" = PInt 1
    ∧ dense (ChapterActivity.order <$> chapter_links w' 10).
Proof.
  destruct (create_activity_appends_after_last (env := sample_env) studio
              activity_request (PublicUser alice)
              (chapter_row 10 "chapter_a" "A") course_x1 10 None)
    as (activity & link & w' & Hrun & _ & Hlinks & _ & _ & Horg & _ & _ & Hmax
        & Hdense);
    [reflexivity|reflexivity|reflexivity|reflexivity|].
  exists activity, link, w'. split; [exact Hrun|]. split; [exact Hlinks|].
  split; [|split; [exact Horg|]].
  - apply (Hmax 2). split.
    + simpl. apply list_elem_of_further, list_elem_of_here.
    + intros o Ho. simpl in Ho.
      repeat (apply elem_of_cons in Ho as [->|Ho]; [lia|]).
      by apply elem_of_nil in Ho.
  - apply Hdense. exists 1. reflexivity.
Defined.

Lemma delete_activity_goes_through_its_link_witness :
  activities.delete_activity (env := sample_env) "activity_essay"
    (PublicUser alice) studio
  = (Raised (HTTPException 404 "Activity not found in chapter"), studio)
  ∧ ∃ w',
      activities.delete_activity (env := sample_env) "activity_video"
        (PublicUser alice) studio
      = (Returned [("detail", "Activity deleted")], w')
      ∧ activity_tbl w'
        = [activity_row 21 "activity_quiz" "Quiz";
           activity_row 22 "activity_essay" "Essay"]
      ∧ chapteractivity_tbl w'
        = [ChapterActivity.mk 2 10 21 1 1 "2024-05-01" "2024-05-01" 2;
           ChapterActivity.mk 3 11 20 1 1 "2024-05-01" "2024-05-01" 1].
Proof.
  split.
  - apply (proj1 (delete_activity_goes_through_its_link (env := sample_env)
                    studio "activity_essay" (PublicUser alice)
                    (activity_row 22 "activity_essay" "Essay") course_x1 None
                    eq_refl eq_refl eq_refl)).
    reflexivity.
  - destruct (proj2 (delete_activity_goes_through_its_link (env := sample_env)
                       studio "activity_video" (PublicUser alice)
                       (activity_row 20 "activity_video" "Video") course_x1 None
                       eq_refl eq_refl eq_refl)
                (ChapterActivity.mk 1 10 20 1 1 "2024-05-01" "2024-05-01" 1)
                eq_refl)
      as (w' & Hrun & Hact & Hlinks).
    exists w'. split; [exact Hrun|]. split.
    + rewrite Hact. vm_compute. reflexivity.
    + rewrite Hlinks. vm_compute. reflexivity.
Defined.

Lemma get_chapter_lists_each_activity_once_witness :
  ∃ activities,
    chapters.get_chapter (env := sample_env) 10 (PublicUser alice) studio
    = (Returned (mkChapterRead (chapter_row 10 "chapter_a" "A") activities), studio)
    ∧ NoDup ((λ a, as_int (getattr a "id")) <$> activities)
    ∧ 20 ∈ (λ a, as_int (getattr a "id")) <$> activities
    ∧ 21 ∈ (λ a, as_int (getattr a "id")) <$> activities.
Proof.
  destruct (get_chapter_lists_each_activity_once (env := sample_env) studio 10
              (PublicUser alice) (chapter_row 10 "chapter_a" "A") course_x1
              (Some true))
    as (activities & Hrun & Hnd & _ & Hall);
    [reflexivity|reflexivity|reflexivity|].
  exists activities. split; [exact Hrun|]. split; [exact Hnd|]. split.
  - apply (Hall (activity_row 20 "activity_video" "Video")
             (ChapterActivity.mk 1 10 20 1 1 "2024-05-01" "2024-05-01" 1));
      try reflexivity; apply list_elem_of_here.
  - apply (Hall (activity_row 21 "activity_quiz" "Quiz")
             (ChapterActivity.mk 2 10 21 1 1 "2024-05-01" "2024-05-01" 2));
      try reflexivity; apply list_elem_of_further, list_elem_of_here.
Defined.

Lemma reorder_twice_is_reorder_once_witness :
  ∃ w1 w2,
    chapters.reorder_chapters_and_activities (env := sample_env) "course_x1"
      order_c_a (PublicUser alice) campus
    = (Returned [("detail", "Chapters and activities reordered successfully")], w1)
    ∧ chapters.reorder_chapters_and_activities (env := sample_env) "course_x1"
        order_c_a (PublicUser alice) w1
      = (Returned [("detail", "Chapters and activities reordered successfully")], w2)
    ∧ coursechapter_tbl w2 = coursechapter_tbl w1.
Proof.
  apply (reorder_twice_is_reorder_once (env := sample_env) campus "course_x1"
           order_c_a (PublicUser alice) course_x1 None);
    [reflexivity|reflexivity|compute_done|compute_done|compute_done].
Defined.
